(** * Router reboot automation (main.py): a shallow embedding

    The script drives a remote browser: it validates its configuration,
    opens a session (with retries), logs in, clicks through five navigation
    steps, and on failure captures diagnostics before tearing the session
    down.  Everything outside the script (the environment variables, the
    [int] builtin, the Selenium service, the file system, the clock) is a
    [World]; the script is a function from a world to a result and the
    chronological list of the events it caused. *)

From Stdlib Require Import String Ascii List ZArith Lia Bool Arith DecimalString.
Import ListNotations.
Open Scope string_scope.
Open Scope list_scope.

(** ** Python values used by the script *)

(** [selenium.webdriver.common.by.By]: the strategies the script uses. *)
Inductive By := ID | XPATH | CSS_SELECTOR.

Definition locator : Type := By * string.

(** Handles given out by the remote end. *)
Inductive WebDriver := Session (id : nat).
Inductive WebElement := Element (id : nat).
Inductive TextFile := FileHandle (id : nat).

Record ChromeOptions := {
  arguments : list string;
  accept_insecure_certs : bool
}.

(** The exception classes that matter to the script's [except] clauses.
    [ElementClickInterceptedException] and [WebDriverException] stand for
    the Selenium errors other than the two that [wait_and_click] handles;
    [OSError] and [OtherException] for what the file system or any other
    library call may raise; [ValueError] and [OverflowError] are what
    [int] and [time.sleep] raise on an argument they reject. *)
Inductive exn_class :=
| TimeoutException
| InvalidSelectorException
| ElementClickInterceptedException
| WebDriverException
| OSError
| ValueError
| OverflowError
| RuntimeError
| OtherException.

(** [SystemExit] derives from [BaseException] only. *)
Inductive exn :=
| Exc (cls : exn_class) (msg : string)
| SystemExit (code : Z).

Definition isinstance_WebDriverException (c : exn_class) : bool :=
  match c with
  | TimeoutException | InvalidSelectorException
  | ElementClickInterceptedException | WebDriverException => true
  | _ => false
  end.

(** [except WebDriverException] *)
Definition except_WebDriverException (e : exn) : bool :=
  match e with Exc c _ => isinstance_WebDriverException c | SystemExit _ => false end.

(** [except TimeoutException] *)
Definition except_Timeout (e : exn) : bool :=
  match e with Exc TimeoutException _ => true | _ => false end.

(** [except (TimeoutException, InvalidSelectorException)] *)
Definition except_Timeout_InvalidSelector (e : exn) : bool :=
  match e with
  | Exc TimeoutException _ | Exc InvalidSelectorException _ => true
  | _ => false
  end.

(** [except Exception] *)
Definition except_Exception (e : exn) : bool :=
  match e with Exc _ _ => true | SystemExit _ => false end.

(** [str(e)] *)
Definition str (e : exn) : string :=
  match e with
  | Exc _ msg => msg
  | SystemExit code => NilZero.string_of_int (Z.to_int code)
  end.

(** Truthiness of a value that is [None] or a string. *)
Definition truthy (x : option string) : bool :=
  match x with
  | None => false
  | Some EmptyString => false
  | Some (String _ _) => true
  end.

(** [all(xs)] on truth values. *)
Definition all (xs : list bool) : bool := forallb (fun b => b) xs.

(** The [%d] rendering of an integer. *)
Definition fmt_d (z : Z) : string := NilZero.string_of_int (Z.to_int z).

(** [s.split('\n')[0]] *)
Fixpoint first_line (s : string) : string :=
  match s with
  | EmptyString => EmptyString
  | String c rest =>
      if Ascii.eqb c "010"%char then EmptyString else String c (first_line rest)
  end.

Fixpoint endswith_sep (s : string) : bool :=
  match s with
  | EmptyString => false
  | String c EmptyString => Ascii.eqb c "/"%char
  | String _ rest => endswith_sep rest
  end.

(** [os.path.join(a, b)] (posixpath). *)
Definition path_join (a b : string) : string :=
  match b with
  | String "/"%char _ => b
  | _ =>
      match a with
      | EmptyString => b
      | _ => if endswith_sep a then a ++ b else a ++ "/" ++ b
      end
  end.

(** ** External calls and events *)

(** [selenium.webdriver.support.expected_conditions], indexed by what the
    condition yields once it holds. *)
Inductive condition : Type -> Type :=
| presence_of_element_located (loc : locator) : condition WebElement
| visibility_of_element_located (loc : locator) : condition WebElement
| invisibility_of_element_located (loc : locator) : condition unit
| element_to_be_clickable (loc : locator) : condition WebElement.

(** The calls that leave the script, indexed by their return type.
    Time-outs are in seconds, as in the source. *)
Inductive callE : Type -> Type :=
| Remote (command_executor : option string) (options : ChromeOptions) : callE WebDriver
| Get (d : WebDriver) (url : option string) : callE unit
| Until {T} (d : WebDriver) (timeout : Z) (c : condition T) : callE T
| UntilNot {T} (d : WebDriver) (timeout : Z) (c : condition T) : callE unit
| FindElement (d : WebDriver) (loc : locator) : callE WebElement
| Clear (e : WebElement) : callE unit
| SendKeys (e : WebElement) (text : option string) : callE unit
| Click (e : WebElement) : callE unit
| ExecuteScript (d : WebDriver) (script : string) (arg : WebElement) : callE unit
| SaveScreenshot (d : WebDriver) (path : string) : callE bool
| PageSource (d : WebDriver) : callE string
| Quit (d : WebDriver) : callE unit
| Makedirs (path : string) : callE unit
| OpenW (path : string) : callE TextFile
| FileWrite (f : TextFile) (content : string) : callE unit
| FileClose (f : TextFile) : callE unit.

(** What a call does: it returns, or raises an [Exception] subclass. *)
Inductive outcome (T : Type) :=
| Ok (v : T)
| Fails (cls : exn_class) (msg : string).
Arguments Ok {T} v.
Arguments Fails {T} cls msg.

Inductive level := INFO | WARNING | ERROR | CRITICAL.

(** Arguments handed to a logging call next to its format string. *)
Inductive log_arg :=
| AStr (s : string)
| AInt (z : Z)
| ANone.

Definition arg_of_opt (x : option string) : log_arg :=
  match x with Some s => AStr s | None => ANone end.

(** A log record keeps the message and its arguments apart, as the logging
    module does; an f-string message arrives rendered, with no arguments.
    Sleeps are recorded in milliseconds ([time.sleep(0.5)] is 500). *)
Inductive event :=
| Call {T} (c : callE T) (r : outcome T)
| Log (lvl : level) (msg : string) (args : list log_arg)
| Sleep (ms : Z)
| Strftime (fmt : string) (formatted : string).

Definition trace := list event.

(** Everything the script does not control.  A call's outcome may depend on
    all that happened before it. *)
Record World := {
  environ : string -> option string;
  int_builtin : string -> outcome Z;
  now_strftime : trace -> string -> string;
  respond : trace -> forall T, callE T -> outcome T
}.

(** ** The monad: a history in, a completion and the new events out *)

Inductive res (A : Type) :=
| Ret (a : A)
| Raise (e : exn).
Arguments Ret {A} a.
Arguments Raise {A} e.

Definition M (A : Type) : Type := trace -> res A * trace.

Definition ret {A} (a : A) : M A := fun _ => (Ret a, []).

Definition raise {A} (e : exn) : M A := fun _ => (Raise e, []).

Definition bind {A B} (m : M A) (f : A -> M B) : M B := fun h =>
  match m h with
  | (Ret a, t) => let (r, t') := f a (h ++ t) in (r, t ++ t')
  | (Raise e, t) => (Raise e, t)
  end.

Notation "x <- m ;; k" := (bind m (fun x => k))
  (at level 61, m at next level, right associativity).
Notation "m ;;; k" := (bind m (fun _ => k))
  (at level 61, right associativity).

(** [try: body / except <catches> as e: handler e] *)
Definition try_except {A} (body : M A) (catches : exn -> bool) (handler : exn -> M A) : M A :=
  fun h =>
    match body h with
    | (Raise e, t) =>
        if catches e
        then let (r, t') := handler e (h ++ t) in (r, t ++ t')
        else (Raise e, t)
    | done => done
    end.

(** [try: body / finally: fin]: [fin] always runs; if it raises, its
    exception replaces the completion of [body]. *)
Definition try_finally {A} (body : M A) (fin : M unit) : M A := fun h =>
  let (r, t) := body h in
  match fin (h ++ t) with
  | (Ret _, t') => (r, t ++ t')
  | (Raise e, t') => (Raise e, t ++ t')
  end.

(** Reify the completion of [m] as a value; [reflect] is its inverse. *)
Definition protect {A} (m : M A) : M (res A) := fun h =>
  let (r, t) := m h in (Ret r, t).

Definition reflect {A} (r : res A) : M A := fun _ => (r, []).

(** The builtin [exit(code)]. *)
Definition exit {A} (code : Z) : M A := raise (SystemExit code).

Definition when (b : bool) (m : M unit) : M unit := if b then m else ret tt.

(** [range(n)] and [enumerate(xs)]. *)
Definition range (n : Z) : list nat := seq 0 (Z.to_nat n).

Definition enumerate {A} (xs : list A) : list (nat * A) :=
  combine (seq 0 (length xs)) xs.

Section Script.

Variable w : World.

Definition call {T} (c : callE T) : M T := fun h =>
  let r := respond w h T c in
  (match r with Ok v => Ret v | Fails cls msg => Raise (Exc cls msg) end, [Call c r]).

Definition log (lvl : level) (msg : string) (args : list log_arg) : M unit :=
  fun _ => (Ret tt, [Log lvl msg args]).

(** [time.sleep(secs)], with the duration in milliseconds.  CPython turns
    the duration into a signed 64-bit count of nanoseconds first: a whole
    number of seconds beyond [sleep_limit_ms] in either direction is
    rejected with [OverflowError]; a negative duration that passes that
    conversion is rejected with [ValueError].  A rejected call does not
    sleep.  The texts of the two errors are those of CPython 3.11. *)
Definition sleep_limit_ms : Z := 9223372036000.

Definition sleep_accepts (ms : Z) : bool :=
  (Z.abs ms <=? sleep_limit_ms)%Z && (0 <=? ms)%Z.

Definition sleep_error (ms : Z) : exn :=
  if (sleep_limit_ms <? Z.abs ms)%Z
  then Exc OverflowError "timestamp too large to convert to C _PyTime_t"
  else Exc ValueError "sleep length must be non-negative".

Definition sleep_ms (ms : Z) : M unit := fun _ =>
  if sleep_accepts ms then (Ret tt, [Sleep ms]) else (Raise (sleep_error ms), []).

(** [datetime.now().strftime(fmt)] *)
Definition strftime_now (fmt : string) : M string := fun h =>
  let s := now_strftime w h fmt in (Ret s, [Strftime fmt s]).

(** [with open(path, "w", encoding="utf-8") as f: body f] *)
Definition with_open {A} (path : string) (body : TextFile -> M A) : M A :=
  f <- call (OpenW path) ;;
  try_finally (body f) (call (FileClose f)).

(** *** Module level: configuration *)

Definition chrome_options : ChromeOptions :=
  {| arguments := ["--no-sandbox"; "--disable-dev-shm-usage"; "--ignore-certificate-errors"];
     accept_insecure_certs := true |}.

(** The module's globals once the environment has been read. *)
Record Globals := {
  SELENIUM_REMOTE_URL : option string;
  ROUTER_ADMIN_URL : option string;
  ROUTER_PASSWORD : option string;
  DEBUG_PAUSE_SECONDS : Z;
  ERROR_ARTIFACTS_DIR : string
}.

(** *** Helper functions *)

(** Default values of the keyword parameters; every call site in the script
    relies on them. *)
Definition overlay_default_timeout : Z := 8.
Definition wait_and_click_default_timeout : Z := 10.
Definition create_driver_default_retries : Z := 10.
Definition create_driver_default_delay : Z := 2.

Definition overlay_locator : locator := (CSS_SELECTOR, "div.panel-mask").

(** [wait_for_overlay_to_disappear(driver, timeout=8)] *)
Definition wait_for_overlay_to_disappear (driver : WebDriver) (timeout : Z) : M unit :=
  try_except
    (call (UntilNot driver timeout (presence_of_element_located overlay_locator)))
    except_Timeout
    (fun _ =>
       log WARNING "Overlay may still be visible after %ds, proceeding..." [AInt timeout]).

Definition scroll_script : string := "arguments[0].scrollIntoView({block: 'center'});".

(** [wait_and_click(driver, by, value, desc, timeout=10)] *)
Definition wait_and_click (driver : WebDriver) (by_ : By) (value desc : string)
    (timeout : Z) : M bool :=
  log INFO "Waiting for %s..." [AStr desc] ;;;
  try_except
    (element <- call (Until driver timeout (element_to_be_clickable (by_, value))) ;;
     call (ExecuteScript driver scroll_script element) ;;;
     sleep_ms 500 ;;;
     call (Click element) ;;;
     log INFO "Successfully clicked %s." [AStr desc] ;;;
     ret true)
    except_Timeout_InvalidSelector
    (fun e =>
       log ERROR "Error finding or clicking %s: %s" [AStr desc; AStr (str e)] ;;;
       ret false).

(** The body of [for attempt in range(retries)] followed by the code after
    the loop. *)
Fixpoint create_driver_loop (url : option string) (options : ChromeOptions)
    (retries delay : Z) (attempts : list nat) : M WebDriver :=
  match attempts with
  | [] =>
      log CRITICAL "Could not connect to Selenium after %d retries. Exiting." [AInt retries] ;;;
      exit 2
  | attempt :: rest =>
      returned <-
        try_except
          (d <- call (Remote url options) ;; ret (Some d))
          except_WebDriverException
          (fun e =>
             log WARNING "Selenium not ready, attempt %d/%d: %s"
               [AInt (Z.of_nat attempt + 1); AInt retries; AStr (first_line (str e))] ;;;
             sleep_ms (1000 * delay) ;;;
             ret None) ;;
      match returned with
      | Some d => ret d
      | None => create_driver_loop url options retries delay rest
      end
  end.

(** [create_driver_with_retry(url, options, retries=10, delay=2)] *)
Definition create_driver_with_retry (url : option string) (options : ChromeOptions)
    (retries delay : Z) : M WebDriver :=
  create_driver_loop url options retries delay (range retries).

(** [save_debug_artifacts(driver)] *)
Definition save_debug_artifacts (g : Globals) (driver : WebDriver) : M unit :=
  timestamp <- strftime_now "%Y%m%d-%H%M%S" ;;
  log INFO ("Saving debug artifacts to " ++ ERROR_ARTIFACTS_DIR g) [] ;;;
  try_except
    (call (Makedirs (ERROR_ARTIFACTS_DIR g)) ;;;
     let screenshot_path := path_join (ERROR_ARTIFACTS_DIR g) ("error_" ++ timestamp ++ ".png") in
     let source_path := path_join (ERROR_ARTIFACTS_DIR g) ("error_src_" ++ timestamp ++ ".html") in
     call (SaveScreenshot driver screenshot_path) ;;;
     log INFO ("Saved screenshot to " ++ screenshot_path) [] ;;;
     with_open source_path (fun f =>
       page_source <- call (PageSource driver) ;;
       call (FileWrite f page_source)) ;;;
     log INFO ("Saved page source to " ++ source_path) [])
    except_Exception
    (fun e => log ERROR ("Failed to save debug artifacts: " ++ str e) []).

(** *** Main execution *)

Definition password_locator : locator := (ID, "loginDialogPassword").

Definition steps : list (By * string * string) :=
  [ (XPATH, "//div[@id='nav']//a[contains(text(), 'Advanced')]", "Advanced navbar item");
    (XPATH, "//div[contains(@class, 'cpe-set-nav')]//li[.//span[text()='System settings']]",
     "System settings menu");
    (ID, "btnReboot", "Reboot button");
    (XPATH, "//button[contains(@class, 'btn-primary') and contains(., 'Reboot')]",
     "Reboot confirmation 1");
    (XPATH, "//a[@data-id='ok' and contains(@class, 'btn-primary')]",
     "Reboot confirmation 2 (OK)") ].

(** [for i, (by, value, desc) in enumerate(steps): ...] *)
Fixpoint navigate (driver : WebDriver) (items : list (nat * (By * string * string))) : M unit :=
  match items with
  | [] => ret tt
  | (i, (by_, value, desc)) :: rest =>
      when (0 <? i)%nat (sleep_ms 1000) ;;;
      clicked <- wait_and_click driver by_ value desc wait_and_click_default_timeout ;;
      (if negb clicked
       then raise (Exc RuntimeError ("Failed at step: " ++ desc))
       else ret tt) ;;;
      when (i =? 0)%nat (wait_for_overlay_to_disappear driver overlay_default_timeout) ;;;
      navigate driver rest
  end.

(** The [# LOGIN] block. *)
Definition login (g : Globals) (driver : WebDriver) : M unit :=
  password_input <- call (Until driver 15 (visibility_of_element_located password_locator)) ;;
  call (Clear password_input) ;;;
  call (SendKeys password_input (ROUTER_PASSWORD g)) ;;;
  btn <- call (FindElement driver (ID, "loginDialogBtn")) ;;
  call (Click btn) ;;;
  call (Until driver 15 (invisibility_of_element_located password_locator)) ;;;
  log INFO "Login successful." [] ;;;
  wait_for_overlay_to_disappear driver overlay_default_timeout.

(** The [except Exception as exc] suite of [main]. *)
Definition main_except (g : Globals) (driver : option WebDriver) (exc : exn) : M unit :=
  log ERROR ("Automation failed: " ++ str exc) [] ;;;
  match driver with
  | Some d =>
      save_debug_artifacts g d ;;;
      when (DEBUG_PAUSE_SECONDS g >? 0)%Z
        (log INFO ("Pausing " ++ fmt_d (DEBUG_PAUSE_SECONDS g)
                   ++ " seconds for manual inspection...") [] ;;;
         sleep_ms (1000 * DEBUG_PAUSE_SECONDS g))
  | None => ret tt
  end ;;;
  exit 1.

(** The [finally] suite of [main]. *)
Definition main_finally (driver : option WebDriver) : M unit :=
  match driver with
  | Some d => call (Quit d)
  | None => ret tt
  end ;;;
  log INFO "Automation finished." [].

(** What follows the assignment to [driver] inside the [try] suite. *)
Definition main_body (g : Globals) (driver : WebDriver) : M unit :=
  log INFO "Opening router admin page: %s" [arg_of_opt (ROUTER_ADMIN_URL g)] ;;;
  call (Get driver (ROUTER_ADMIN_URL g)) ;;;
  login g driver ;;;
  navigate driver (enumerate steps) ;;;
  log INFO "Reboot command sent successfully!" [].

(** [main()].  The local [driver] is [None] until the first statement of
    the [try] suite has returned; the [except] and [finally] suites read
    it. *)
Definition main (g : Globals) : M unit :=
  created <- protect (create_driver_with_retry (SELENIUM_REMOTE_URL g) chrome_options
                        create_driver_default_retries create_driver_default_delay) ;;
  let driver := match created with Ret d => Some d | Raise _ => None end in
  try_finally
    (try_except
       (d <- reflect created ;; main_body g d)
       except_Exception
       (main_except g driver))
    (main_finally driver).

(** [main] from the point where the first statement of the [try] suite has
    returned [d]; and from the point where it has raised [e]. *)
Definition main_with_session (g : Globals) (d : WebDriver) : M unit :=
  try_finally
    (try_except (main_body g d) except_Exception (main_except g (Some d)))
    (main_finally (Some d)).

Definition main_without_session (g : Globals) (e : exn) : M unit :=
  try_finally
    (try_except (raise e) except_Exception (main_except g None))
    (main_finally None).

(** [int(os.environ.get("DEBUG_PAUSE_SECONDS", 0))] *)
Definition read_debug_pause : M Z :=
  match environ w "DEBUG_PAUSE_SECONDS" with
  | None => ret 0%Z
  | Some s =>
      match int_builtin w s with
      | Ok z => ret z
      | Fails cls msg => raise (Exc cls msg)
      end
  end.

Definition validation_message : string :=
  "One or more required environment variables are not set: SELENIUM_REMOTE_URL, ROUTER_ADMIN_URL, ROUTER_PASSWORD".

(** [os.environ.get("ERROR_ARTIFACTS_DIR", "/app/errors")] *)
Definition artifacts_dir : string :=
  match environ w "ERROR_ARTIFACTS_DIR" with Some s => s | None => "/app/errors" end.

(** The globals, given the value read for [DEBUG_PAUSE_SECONDS]. *)
Definition module_globals (debug_pause_seconds : Z) : Globals :=
  {| SELENIUM_REMOTE_URL := environ w "SELENIUM_REMOTE_URL";
     ROUTER_ADMIN_URL := environ w "ROUTER_ADMIN_URL";
     ROUTER_PASSWORD := environ w "ROUTER_PASSWORD";
     DEBUG_PAUSE_SECONDS := debug_pause_seconds;
     ERROR_ARTIFACTS_DIR := artifacts_dir |}.

(** [all([SELENIUM_REMOTE_URL, ROUTER_ADMIN_URL, ROUTER_PASSWORD])] *)
Definition required_present : bool :=
  all [truthy (environ w "SELENIUM_REMOTE_URL");
       truthy (environ w "ROUTER_ADMIN_URL");
       truthy (environ w "ROUTER_PASSWORD")].

(** The module run as a script, top to bottom. *)
Definition script : M unit :=
  debug_pause_seconds <- read_debug_pause ;;
  let g := module_globals debug_pause_seconds in
  (if negb required_present
   then log CRITICAL validation_message [] ;;; exit 1
   else ret tt) ;;;
  main g.

(** The interpreter's exit status: 0 when the script runs off its end, the
    code of an escaping [SystemExit], 1 for any other escaping exception. *)
Definition exit_status {A} (r : res A) : Z :=
  match r with
  | Ret _ => 0
  | Raise (SystemExit code) => code
  | Raise (Exc _ _) => 1
  end.

Definition run : res unit * trace := script [].
Definition run_trace : trace := snd run.
Definition run_status : Z := exit_status (fst run).

End Script.

(** ** Observations on traces *)

(** The sub-list of what [f] picks out of a trace, in order. *)
Fixpoint collect {X} (f : event -> option X) (t : trace) : list X :=
  match t with
  | [] => []
  | ev :: rest =>
      match f ev with
      | Some x => x :: collect f rest
      | None => collect f rest
      end
  end.

(** A session-creation attempt. *)
Definition remote_attempt (ev : event) : option unit :=
  match ev with
  | Call (Remote _ _) _ => Some tt
  | _ => None
  end.

(** A session-creation attempt that returned a session. *)
Definition session_created (ev : event) : option WebDriver :=
  match ev with
  | Call (Remote _ _) (Ok d) => Some d
  | _ => None
  end.

(** A [driver.quit()]. *)
Definition quit_call (ev : event) : option WebDriver :=
  match ev with
  | Call (Quit d) _ => Some d
  | _ => None
  end.

(** Any call that leaves the process. *)
Definition external_call (ev : event) : option unit :=
  match ev with
  | Call _ _ => Some tt
  | _ => None
  end.

(** Any call other than a session-creation attempt. *)
Definition call_beyond_connection (ev : event) : option unit :=
  match ev with
  | Call (Remote _ _) _ => None
  | Call _ _ => Some tt
  | _ => None
  end.

(** What the navigation phase shows of itself: the wait that opens a
    guarded click, and the record of how the guarded click returned. *)
Inductive nav_obs :=
| Attempt (loc : locator)
| Clicked (desc : string)
| NotClicked (desc : string).

Definition nav_event (ev : event) : option nav_obs :=
  match ev with
  | Call (Until _ _ (element_to_be_clickable loc)) _ => Some (Attempt loc)
  | Log lvl msg args =>
      if String.eqb msg "Successfully clicked %s."
      then match lvl, args with
           | INFO, [AStr desc] => Some (Clicked desc)
           | _, _ => None
           end
      else if String.eqb msg "Error finding or clicking %s: %s"
      then match lvl, args with
           | ERROR, [AStr desc; _] => Some (NotClicked desc)
           | _, _ => None
           end
      else None
  | _ => None
  end.

(** The locators attempted, in order. *)
Fixpoint attempts_of (obs : list nav_obs) : list locator :=
  match obs with
  | [] => []
  | Attempt loc :: rest => loc :: attempts_of rest
  | _ :: rest => attempts_of rest
  end.

(** [strip_prefix p s] is what follows [p] in [s], when [s] starts with [p]. *)
Fixpoint strip_prefix (p s : string) : option string :=
  match p, s with
  | EmptyString, _ => Some s
  | String a p', String b s' => if Ascii.eqb a b then strip_prefix p' s' else None
  | String _ _, EmptyString => None
  end.

(** The record the top-level handler opens with; what it carries is the
    text of the exception it caught. *)
Definition handler_entered (ev : event) : option string :=
  match ev with
  | Log ERROR msg [] => strip_prefix "Automation failed: " msg
  | _ => None
  end.

(** The record of an exhausted retry budget. *)
Definition exhausted_record (ev : event) : option unit :=
  match ev with
  | Log CRITICAL msg [AInt _] =>
      if String.eqb msg "Could not connect to Selenium after %d retries. Exiting."
      then Some tt else None
  | _ => None
  end.

(** The record that closes a navigation phase in which every step was
    clicked. *)
Definition success_record (ev : event) : option unit :=
  match ev with
  | Log INFO msg [] =>
      if String.eqb msg "Reboot command sent successfully!" then Some tt else None
  | _ => None
  end.

(** The record that closes the [finally] suite. *)
Definition finished_record (ev : event) : option unit :=
  match ev with
  | Log INFO msg [] =>
      if String.eqb msg "Automation finished." then Some tt else None
  | _ => None
  end.

(** The wait that confirms the login: for the password field to become
    invisible. *)
Definition login_wait (ev : event) : option unit :=
  match ev with
  | Call (Until _ _ (invisibility_of_element_located _)) _ => Some tt
  | _ => None
  end.

(** An overlay wait: the only [until_not] of the script. *)
Definition is_until_not {T} (c : callE T) : bool :=
  match c with
  | UntilNot _ _ _ => true
  | _ => false
  end.

(** Files that exist because of the run: a screenshot that was saved, a
    text file that was opened for writing. *)
Definition file_created (ev : event) : option string :=
  match ev with
  | Call (SaveScreenshot _ path) (Ok true) => Some path
  | Call (OpenW path) (Ok _) => Some path
  | _ => None
  end.

(** A screenshot that Selenium could not save: [save_screenshot] returned
    [False]. *)
Definition screenshot_refused (ev : event) : option string :=
  match ev with
  | Call (SaveScreenshot _ path) (Ok false) => Some path
  | _ => None
  end.

(** The record of an exception caught during diagnostics capture. *)
Definition capture_failed (ev : event) : option string :=
  match ev with
  | Log ERROR msg [] => strip_prefix "Failed to save debug artifacts: " msg
  | _ => None
  end.

(** A diagnostics operation that raised. *)
Definition artifact_call_failed (ev : event) : option string :=
  match ev with
  | Call (Makedirs _) (Fails _ msg) => Some msg
  | Call (SaveScreenshot _ _) (Fails _ msg) => Some msg
  | Call (OpenW _) (Fails _ msg) => Some msg
  | Call (PageSource _) (Fails _ msg) => Some msg
  | Call (FileWrite _ _) (Fails _ msg) => Some msg
  | Call (FileClose _) (Fails _ msg) => Some msg
  | _ => None
  end.

(** The two artifact paths for a directory and a timestamp. *)
Definition screenshot_path_of (dir ts : string) : string :=
  path_join dir ("error_" ++ ts ++ ".png").

Definition source_path_of (dir ts : string) : string :=
  path_join dir ("error_src_" ++ ts ++ ".html").

Definition timestamp_taken (ev : event) : option string :=
  match ev with
  | Strftime _ s => Some s
  | _ => None
  end.

Definition step_locator (s : By * string * string) : locator :=
  let '(by_, value, _) := s in (by_, value).

Definition step_desc (s : By * string * string) : string :=
  let '(_, _, desc) := s in desc.

(** The shapes the navigation phase can leave behind for a list of steps:
    nothing; or the first step attempted and clicked, followed by a shape
    for the remaining steps; or the first step attempted without a click
    record (the guarded click raised) or with a failure record. *)
Inductive nav_shape : list (By * string * string) -> list nav_obs -> Prop :=
| shape_stop ss : nav_shape ss []
| shape_raised s ss : nav_shape (s :: ss) [Attempt (step_locator s)]
| shape_failed s ss :
    nav_shape (s :: ss) [Attempt (step_locator s); NotClicked (step_desc s)]
| shape_clicked s ss obs :
    nav_shape ss obs ->
    nav_shape (s :: ss) (Attempt (step_locator s) :: Clicked (step_desc s) :: obs).

(** The record of one failed session-creation attempt. *)
Definition retry_warning (retries : Z) (attempt : nat) (msg : string) : event :=
  Log WARNING "Selenium not ready, attempt %d/%d: %s"
    [AInt (Z.of_nat attempt + 1); AInt retries; AStr (first_line msg)].

(** How many session-creation attempts a trace holds. *)
Definition remote_count (t : trace) : nat := length (collect remote_attempt t).

(** Session creation is refused with a [WebDriverException] (or a subclass
    of it) at history [h]. *)
Definition remote_fails_at (w : World) (url : option string) (options : ChromeOptions)
    (h : trace) : Prop :=
  exists cls msg,
    isinstance_WebDriverException cls = true /\
    respond w h _ (Remote url options) = Fails cls msg.

(** The two failures the script is written to ride out where they happen:
    a session refused with a [WebDriverException], which the retry loop
    answers with another attempt, and a time-out of the overlay wait. *)
Definition tolerated {T} (c : callE T) (cls : exn_class) : bool :=
  match c with
  | Remote _ _ => isinstance_WebDriverException cls
  | UntilNot _ _ _ => match cls with TimeoutException => true | _ => false end
  | _ => false
  end.

(** A call that raised anything else. *)
Definition hard_failure (ev : event) : option (exn_class * string) :=
  match ev with
  | Call c (Fails cls msg) => if tolerated c cls then None else Some (cls, msg)
  | _ => None
  end.

(** A session-creation attempt refused with a [WebDriverException]. *)
Definition retryable_refusal (ev : event) : option unit :=
  match ev with
  | Call (Remote _ _) (Fails cls _) =>
      if isinstance_WebDriverException cls then Some tt else None
  | _ => None
  end.

(** A [driver.quit()] that raised. *)
Definition quit_raised (ev : event) : option (exn_class * string) :=
  match ev with
  | Call (Quit _) (Fails cls msg) => Some (cls, msg)
  | _ => None
  end.

(** What [DEBUG_PAUSE_SECONDS] reads as. *)
Definition debug_pause_read (w : World) : res Z := fst (read_debug_pause w []).

(** The navigation records of steps that were all attempted and clicked. *)
Definition all_clicked (ss : list (By * string * string)) : list nav_obs :=
  flat_map (fun s => [Attempt (step_locator s); Clicked (step_desc s)]) ss.

(** A call that diagnostics capture makes: on the artifacts directory, on
    the screenshot, on the page source or on the markup file. *)
Definition artifact_call (ev : event) : option unit :=
  match ev with
  | Call (Makedirs _) _ => Some tt
  | Call (SaveScreenshot _ _) _ => Some tt
  | Call (PageSource _) _ => Some tt
  | Call (OpenW _) _ => Some tt
  | Call (FileWrite _ _) _ => Some tt
  | Call (FileClose _) _ => Some tt
  | _ => None
  end.

(** An observation that sees nothing but the calls of diagnostics capture
    and the timestamp. *)
Definition capture_only {X} (f : event -> option X) : Prop :=
  (forall T (c : callE T) r, artifact_call (Call c r) = None -> f (Call c r) = None) /\
  (forall lvl msg args, f (Log lvl msg args) = None) /\
  (forall ms, f (Sleep ms) = None).

(** The markup file: opened, closed, handed content; the page source as
    the session returned it. *)
Definition file_opened (ev : event) : option TextFile :=
  match ev with
  | Call (OpenW _) (Ok f) => Some f
  | _ => None
  end.

Definition file_closed (ev : event) : option TextFile :=
  match ev with
  | Call (FileClose f) _ => Some f
  | _ => None
  end.

Definition content_handed (ev : event) : option (TextFile * string) :=
  match ev with
  | Call (FileWrite f content) _ => Some (f, content)
  | _ => None
  end.

Definition page_source_requested (ev : event) : option unit :=
  match ev with
  | Call (PageSource _) _ => Some tt
  | _ => None
  end.

Definition page_source_got (ev : event) : option string :=
  match ev with
  | Call (PageSource _) (Ok src) => Some src
  | _ => None
  end.

(** Inside a guarded click: the element the wait returned, the element
    scrolled to, the element a click was tried on, the element clicked. *)
Definition element_found (ev : event) : option WebElement :=
  match ev with
  | Call (Until _ _ (element_to_be_clickable _)) (Ok element) => Some element
  | _ => None
  end.

Definition scrolled_to (ev : event) : option WebElement :=
  match ev with
  | Call (ExecuteScript _ _ element) (Ok _) => Some element
  | _ => None
  end.

Definition click_tried (ev : event) : option WebElement :=
  match ev with
  | Call (Click element) _ => Some element
  | _ => None
  end.

Definition click_done (ev : event) : option WebElement :=
  match ev with
  | Call (Click element) (Ok _) => Some element
  | _ => None
  end.

(** What the script does to a text field: the field a visibility wait
    returned, a field cleared, text sent to a field. *)
Inductive typing_obs :=
| FieldFound (loc : locator) (element : WebElement)
| FieldCleared (element : WebElement)
| TextSent (element : WebElement) (text : option string).

Definition typing_event (ev : event) : option typing_obs :=
  match ev with
  | Call (Until _ _ (visibility_of_element_located loc)) (Ok element) =>
      Some (FieldFound loc element)
  | Call (Clear element) (Ok _) => Some (FieldCleared element)
  | Call (SendKeys element text) _ => Some (TextSent element text)
  | _ => None
  end.


(** The time-out handed to a bounded wait, in milliseconds. *)
Definition wait_budget (ev : event) : option Z :=
  match ev with
  | Call (Until _ timeout _) _ => Some (1000 * timeout)%Z
  | Call (UntilNot _ timeout _) _ => Some (1000 * timeout)%Z
  | _ => None
  end.

Definition sum_Z (l : list Z) : Z := fold_right Z.add 0%Z l.

(** What [f] sees of [m] adds up to [B] at most. *)
Definition budget {A} (f : event -> option Z) (B : Z) (m : M A) : Prop :=
  forall h, (sum_Z (collect f (snd (m h))) <= B)%Z.

(** The screenshot: the path [save_screenshot] returned for, whatever it
    returned, and the path the "Saved screenshot" record names. *)
Definition screenshot_returned (ev : event) : option string :=
  match ev with
  | Call (SaveScreenshot _ path) (Ok _) => Some path
  | _ => None
  end.

Definition screenshot_logged (ev : event) : option string :=
  match ev with
  | Log INFO msg [] => strip_prefix "Saved screenshot to " msg
  | _ => None
  end.

(** The duration of a sleep, in milliseconds. *)
Definition sleep_of (ev : event) : option Z :=
  match ev with
  | Sleep ms => Some ms
  | _ => None
  end.

(** The attempt number and the limit that a retry warning shows. *)
Definition warning_attempt (ev : event) : option (Z * Z) :=
  match ev with
  | Log lvl msg args =>
      if String.eqb msg "Selenium not ready, attempt %d/%d: %s"
      then match lvl, args with
           | WARNING, [AInt attempt; AInt limit; _] => Some (attempt, limit)
           | _, _ => None
           end
      else None
  | _ => None
  end.

(** The retry loop of a run: [create_driver_with_retry] as [main] calls it,
    at the start of the trace. *)
Definition connection (w : World) : res WebDriver * trace :=
  create_driver_with_retry w (environ w "SELENIUM_REMOTE_URL") chrome_options
    create_driver_default_retries create_driver_default_delay [].

(** ** Properties of computations *)

(** [m] shows nothing to the observation [f]. *)
Definition silent {X A} (f : event -> option X) (m : M A) : Prop :=
  forall h, collect f (snd (m h)) = [].

(** The completion of [m] and what [f] sees of it satisfy [Q]. *)
Definition post {X A} (f : event -> option X) (Q : res A -> list X -> Prop) (m : M A) : Prop :=
  forall h, Q (fst (m h)) (collect f (snd (m h))).

(** [m] returns, with a value in [P]. *)
Definition returns {A} (P : A -> Prop) (m : M A) : Prop :=
  forall h, exists a, fst (m h) = Ret a /\ P a.

(** [m] raises. *)
Definition fails {A} (m : M A) : Prop := forall h, exists e, fst (m h) = Raise e.

(** Whatever [m] raises is in [Q]. *)
Definition raises_only {A} (Q : exn -> Prop) (m : M A) : Prop :=
  forall h e, fst (m h) = Raise e -> Q e.

(** The exceptions a library call can raise. *)
Definition is_Exception (e : exn) : Prop := except_Exception e = true.

(** [f] sees something of [m] exactly when [m] raises. *)
Definition told_by {X A} (f : event -> option X) (m : M A) : Prop :=
  forall h,
    match fst (m h) with
    | Ret _ => collect f (snd (m h)) = []
    | Raise _ => collect f (snd (m h)) <> []
    end.

(** ** Example worlds *)

Definition default_outcome (T : Type) (c : callE T) : outcome T :=
  match c in callE T return outcome T with
  | Remote _ _ => Ok (Session 1)
  | Get _ _ => Ok tt
  | Until _ _ cond =>
      match cond in condition T return outcome T with
      | presence_of_element_located _ => Ok (Element 0)
      | visibility_of_element_located _ => Ok (Element 1)
      | invisibility_of_element_located _ => Ok tt
      | element_to_be_clickable _ => Ok (Element 2)
      end
  | UntilNot _ _ _ => Ok tt
  | FindElement _ _ => Ok (Element 3)
  | Clear _ => Ok tt
  | SendKeys _ _ => Ok tt
  | Click _ => Ok tt
  | ExecuteScript _ _ _ => Ok tt
  | SaveScreenshot _ _ => Ok true
  | PageSource _ => Ok "<html></html>"%string
  | Quit _ => Ok tt
  | Makedirs _ => Ok tt
  | OpenW _ => Ok (FileHandle 7)
  | FileWrite _ _ => Ok tt
  | FileClose _ => Ok tt
  end.

(** A remote end that answers every call, except those [sel] selects, which
    raise [cls]. *)
Definition failing (sel : trace -> forall T, callE T -> bool) (cls : exn_class) (msg : string)
    : trace -> forall T, callE T -> outcome T :=
  fun h T c => if sel h T c then Fails cls msg else default_outcome T c.

Definition env_ok (k : string) : option string :=
  if String.eqb k "SELENIUM_REMOTE_URL" then Some "http://selenium:4444/wd/hub"%string
  else if String.eqb k "ROUTER_ADMIN_URL" then Some "http://192.168.1.1"%string
  else if String.eqb k "ROUTER_PASSWORD" then Some "secret"%string
  else None.

Definition world_of (env : string -> option string)
    (resp : trace -> forall T, callE T -> outcome T) : World :=
  {| environ := env;
     int_builtin := fun _ => Fails ValueError "invalid literal for int() with base 10";
     now_strftime := fun _ _ => "20240101-120000"%string;
     respond := resp |}.

(** Every call succeeds. *)
Definition happy : World := world_of env_ok (fun _ => default_outcome).

(** The password is not set. *)
Definition missing_password : World :=
  world_of (fun k => if String.eqb k "ROUTER_PASSWORD" then None else env_ok k)
           (fun _ => default_outcome).

Definition is_remote {T} (c : callE T) : bool :=
  match c with
  | Remote _ _ => true
  | _ => false
  end.

(** Session creation is refused [n] times, then granted. *)
Definition flaky (n : nat) : World :=
  world_of env_ok
    (failing (fun h T c => is_remote c && (remote_count h <? n)%nat)
       WebDriverException "Message: connection refused").

(** Session creation is always refused. *)
Definition always_down : World :=
  world_of env_ok
    (failing (fun _ T c => is_remote c) WebDriverException "Message: connection refused").

Definition is_login_wait {T} (c : callE T) : bool :=
  match c with
  | Until _ _ (invisibility_of_element_located _) => true
  | _ => false
  end.

(** The password field stays visible after the credentials are sent. *)
Definition login_stuck : World :=
  world_of env_ok (failing (fun _ T c => is_login_wait c) TimeoutException "Message: ").

(** The overlay never goes away. *)
Definition overlay_stuck : World :=
  world_of env_ok (failing (fun _ T c => is_until_not c) TimeoutException "Message: ").

Definition is_reboot_button_wait {T} (c : callE T) : bool :=
  match c with
  | Until _ _ (element_to_be_clickable (ID, _)) => true
  | _ => false
  end.

(** The reboot button never becomes clickable. *)
Definition reboot_button_missing : World :=
  world_of env_ok
    (failing (fun _ T c => is_reboot_button_wait c) TimeoutException "Message: ").

Definition is_navigation_click {T} (c : callE T) : bool :=
  match c with
  | Click (Element 2) => true
  | _ => false
  end.

(** The click on the third step, once two steps are clicked and the third
    is found, lands on another element. *)
Definition click_intercepted : World :=
  world_of env_ok
    (failing (fun h T c => is_navigation_click c && (length (collect nav_event h) =? 5)%nat)
       ElementClickInterceptedException "Message: element click intercepted").

Definition is_makedirs {T} (c : callE T) : bool :=
  match c with
  | Makedirs _ => true
  | _ => false
  end.

(** The login times out and the artifacts directory cannot be created. *)
Definition makedirs_denied : World :=
  world_of env_ok
    (fun h T c =>
       if is_login_wait c then Fails TimeoutException "Message: "
       else if is_makedirs c then Fails OSError "[Errno 13] Permission denied: '/app/errors'"
       else default_outcome T c).

(** Session creation raises something that is not a [WebDriverException]. *)
Definition creation_crashes : World :=
  world_of env_ok
    (failing (fun _ T c => is_remote c) OtherException
       "HTTPConnectionPool(host='selenium', port=4444): Max retries exceeded").

(** The service is unreachable when the script starts and reachable from
    the second session request on; the HTTP client reports the first
    request with the same error as in [creation_crashes]. *)
Definition unreachable_once : World :=
  world_of env_ok
    (failing (fun h T c => is_remote c && (remote_count h <? 1)%nat) OtherException
       "HTTPConnectionPool(host='selenium', port=4444): Max retries exceeded").

(** [DEBUG_PAUSE_SECONDS] is set to something [int] rejects. *)
Definition malformed_pause : World :=
  world_of (fun k => if String.eqb k "DEBUG_PAUSE_SECONDS" then Some "soon"%string else env_ok k)
           (fun _ => default_outcome).

Definition is_quit {T} (c : callE T) : bool :=
  match c with
  | Quit _ => true
  | _ => false
  end.

(** Everything goes through, but closing the session raises. *)
Definition quit_fails : World :=
  world_of env_ok
    (failing (fun _ T c => is_quit c) WebDriverException "Message: invalid session id").

(** The login times out and a pause of five seconds is configured. *)
Definition paused_inspection : World :=
  {| environ := fun k => if String.eqb k "DEBUG_PAUSE_SECONDS" then Some "5"%string
                         else env_ok k;
     int_builtin := fun s => if String.eqb s "5" then Ok 5%Z
                             else Fails ValueError "invalid literal for int() with base 10";
     now_strftime := fun _ _ => "20240101-120000"%string;
     respond := failing (fun _ T c => is_login_wait c) TimeoutException "Message: " |}.

Definition is_save_screenshot {T} (c : callE T) : bool :=
  match c with
  | SaveScreenshot _ _ => true
  | _ => false
  end.

(** The login times out and Selenium cannot save the screenshot:
    [save_screenshot] returns [False]. *)
Definition screenshot_not_saved : World :=
  world_of env_ok
    (fun h T c =>
       match c in callE T return outcome T with
       | SaveScreenshot _ _ => Ok false
       | c' => if is_login_wait c' then Fails TimeoutException "Message: "
               else default_outcome _ c'
       end).

(** ** The diagnostics claim, as the specification words it *)

(** Whenever a failure is handled after a session exists, exactly one
    screenshot file and one markup file are written to the artifacts
    directory, with one timestamp. *)
Definition diagnostics_pair_written (w : World) : Prop :=
  collect session_created (run_trace w) <> [] ->
  collect handler_entered (run_trace w) <> [] ->
  exists ts,
    collect file_created (run_trace w) =
    [screenshot_path_of (artifacts_dir w) ts; source_path_of (artifacts_dir w) ts].

(** ** The exit-status claim, as the specification words it *)

(** Every run is in one of three cases, and its status tells which: the
    whole procedure succeeded and the status is 0; validation failed or an
    automation failure was caught at the top level and the status is 1; the
    retry budget was exhausted and the status is 2. *)
Definition exit_status_as_specified (w : World) : Prop :=
  let t := run_trace w in
  (run_status w = 0%Z /\ collect success_record t = [tt]) \/
  (run_status w = 1%Z /\ (required_present w = false \/ collect handler_entered t <> [])) \/
  (run_status w = 2%Z /\ collect exhausted_record t = [tt]).

(** ** The connection claim, as the specification words it *)

(** Session creation that fails [n] times, with whatever error, and then
    succeeds is attempted [n + 1] times; when every attempt fails the run
    exits with status 2 and calls nothing beyond session creation. *)
Definition connection_attempts_as_specified (w : World) : Prop :=
  let url := environ w "SELENIUM_REMOTE_URL" in
  (forall n : nat,
      (n < Z.to_nat create_driver_default_retries)%nat ->
      (forall h, (remote_count h < n)%nat ->
                 exists cls msg, respond w h _ (Remote url chrome_options) = Fails cls msg) ->
      (forall h, remote_count h = n ->
                 exists d, respond w h _ (Remote url chrome_options) = Ok d) ->
      remote_count (run_trace w) = S n) /\
  ((forall h, exists cls msg, respond w h _ (Remote url chrome_options) = Fails cls msg) ->
   run_status w = 2%Z /\ collect call_beyond_connection (run_trace w) = []).

(** ** How the combinators run *)

Lemma collect_app {X} (f : event -> option X) (a b : trace) :
  collect f (a ++ b) = collect f a ++ collect f b.
Proof.
  induction a as [|ev a IH]; simpl; [reflexivity|].
  destruct (f ev); simpl; now rewrite IH.
Qed.

Lemma bind_run {A B} (m : M A) (k : A -> M B) (h : trace) :
  bind m k h =
  match fst (m h) with
  | Ret a => (fst (k a (h ++ snd (m h))), snd (m h) ++ snd (k a (h ++ snd (m h))))
  | Raise e => (Raise e, snd (m h))
  end.
Proof.
  unfold bind. destruct (m h) as [[a|e] t]; simpl; [|reflexivity].
  now destruct (k a (h ++ t)).
Qed.

Lemma try_except_run {A} (body : M A) (catches : exn -> bool) (handler : exn -> M A) h :
  try_except body catches handler h =
  match fst (body h) with
  | Ret a => (Ret a, snd (body h))
  | Raise e =>
      if catches e
      then (fst (handler e (h ++ snd (body h))),
            snd (body h) ++ snd (handler e (h ++ snd (body h))))
      else (Raise e, snd (body h))
  end.
Proof.
  unfold try_except. destruct (body h) as [[a|e] t]; simpl; [reflexivity|].
  destruct (catches e); [|reflexivity].
  now destruct (handler e (h ++ t)).
Qed.

Lemma try_finally_run {A} (body : M A) (fin : M unit) h :
  try_finally body fin h =
  (match fst (fin (h ++ snd (body h))) with
   | Ret _ => fst (body h)
   | Raise e => Raise e
   end,
   snd (body h) ++ snd (fin (h ++ snd (body h)))).
Proof.
  unfold try_finally. destruct (body h) as [r t]; simpl.
  now destruct (fin (h ++ t)) as [[u|e] t'].
Qed.

(** *** Computations that show nothing to an observation *)

Lemma silent_ret {X A} (f : event -> option X) (a : A) : silent f (ret a).
Proof. intro h. reflexivity. Qed.

Lemma silent_raise {X A} (f : event -> option X) e : silent f (@raise A e).
Proof. intro h. reflexivity. Qed.

Lemma silent_reflect {X A} (f : event -> option X) (r : res A) : silent f (reflect r).
Proof. intro h. reflexivity. Qed.

Lemma silent_bind {X A B} (f : event -> option X) (m : M A) (k : A -> M B) :
  silent f m -> (forall a, silent f (k a)) -> silent f (bind m k).
Proof.
  intros Hm Hk h. rewrite bind_run.
  destruct (fst (m h)) as [a|e]; simpl.
  - now rewrite collect_app, Hm, Hk.
  - apply Hm.
Qed.

Lemma silent_try_except {X A} (f : event -> option X) (body : M A) catches handler :
  silent f body -> (forall e, silent f (handler e)) -> silent f (try_except body catches handler).
Proof.
  intros Hb Hh h. rewrite try_except_run.
  destruct (fst (body h)) as [a|e]; simpl; [apply Hb|].
  destruct (catches e); simpl; [|apply Hb].
  now rewrite collect_app, Hb, Hh.
Qed.

Lemma silent_try_finally {X A} (f : event -> option X) (body : M A) fin :
  silent f body -> silent f fin -> silent f (try_finally body fin).
Proof.
  intros Hb Hf h. rewrite try_finally_run. simpl.
  now rewrite collect_app, Hb, Hf.
Qed.

Lemma silent_protect {X A} (f : event -> option X) (m : M A) :
  silent f m -> silent f (protect m).
Proof.
  intros Hm h. unfold protect. specialize (Hm h). now destruct (m h).
Qed.

Lemma silent_when {X} (f : event -> option X) b m :
  silent f m -> silent f (when b m).
Proof. intros Hm. destruct b; [exact Hm | apply silent_ret]. Qed.

Section Facts.

Variable w : World.

Lemma call_run {T} (c : callE T) (h : trace) :
  call w c h =
  (match respond w h T c with Ok v => Ret v | Fails cls msg => Raise (Exc cls msg) end,
   [Call c (respond w h T c)]).
Proof. reflexivity. Qed.

Lemma log_run lvl msg args (h : trace) : log lvl msg args h = (Ret tt, [Log lvl msg args]).
Proof. reflexivity. Qed.

Lemma sleep_run ms (h : trace) :
  sleep_accepts ms = true -> sleep_ms ms h = (Ret tt, [Sleep ms]).
Proof. intros Hms. unfold sleep_ms. now rewrite Hms. Qed.

Lemma sleep_refused ms (h : trace) :
  sleep_accepts ms = false -> sleep_ms ms h = (Raise (sleep_error ms), []).
Proof. intros Hms. unfold sleep_ms. now rewrite Hms. Qed.

Lemma sleep_error_is_Exception ms : is_Exception (sleep_error ms).
Proof. unfold sleep_error. now destruct (sleep_limit_ms <? Z.abs ms)%Z. Qed.

Lemma silent_call {X T} (f : event -> option X) (c : callE T) :
  (forall r, f (Call c r) = None) -> silent f (call w c).
Proof. intros Hc h. unfold call. simpl. now rewrite Hc. Qed.

Lemma silent_log {X} (f : event -> option X) lvl msg args :
  f (Log lvl msg args) = None -> silent f (log lvl msg args).
Proof. intros Hl h. unfold log. simpl. now rewrite Hl. Qed.

Lemma silent_sleep {X} (f : event -> option X) ms :
  f (Sleep ms) = None -> silent f (sleep_ms ms).
Proof.
  intros Hs h. unfold sleep_ms.
  destruct (sleep_accepts ms); cbn [snd collect]; [now rewrite Hs | reflexivity].
Qed.

Lemma silent_strftime {X} (f : event -> option X) fmt :
  (forall s, f (Strftime fmt s) = None) -> silent f (strftime_now w fmt).
Proof. intros Hs h. unfold strftime_now. simpl. now rewrite Hs. Qed.

Lemma silent_with_open {X A} (f : event -> option X) path (body : TextFile -> M A) :
  (forall r, f (Call (OpenW path) r) = None) ->
  (forall fh r, f (Call (FileClose fh) r) = None) ->
  (forall fh, silent f (body fh)) ->
  silent f (with_open w path body).
Proof.
  intros Ho Hc Hb. unfold with_open.
  apply silent_bind; [now apply silent_call|]. intro fh.
  apply silent_try_finally; [apply Hb | apply silent_call; intro r; apply Hc].
Qed.

End Facts.

(** The two fixed sleeps of the script are accepted. *)
Ltac sleep_constants :=
  change (sleep_ms 500) with (fun _ : trace => (@Ret unit tt, [Sleep 500]));
  change (sleep_ms 1000) with (fun _ : trace => (@Ret unit tt, [Sleep 1000])).

(** One step of a silence proof: split the combinator at the head, or close
    a primitive by evaluating the observation on it. *)
Ltac silent_step :=
  match goal with
  | |- silent _ (bind _ _) => apply silent_bind; [|intros ?]
  | |- silent _ (try_except _ _ _) => apply silent_try_except; [|intros ?]
  | |- silent _ (try_finally _ _) => apply silent_try_finally
  | |- silent _ (protect _) => apply silent_protect
  | |- silent _ (when _ _) => apply silent_when
  | |- silent _ (ret _) => apply silent_ret
  | |- silent _ (raise _) => apply silent_raise
  | |- silent _ (exit _) => apply silent_raise
  | |- silent _ (reflect _) => apply silent_reflect
  | |- silent _ (call _ _) => apply silent_call; intros ?; reflexivity
  | |- silent _ (log _ _ _) => apply silent_log; reflexivity
  | |- silent _ (sleep_ms _) => apply silent_sleep; reflexivity
  | |- silent _ (strftime_now _ _) => apply silent_strftime; intros ?; reflexivity
  | |- silent _ (with_open _ _ _) =>
      apply silent_with_open; [intros ?; reflexivity | intros ? ?; reflexivity | intros ?]
  | |- silent _ (if ?b then _ else _) => destruct b
  | |- silent _ (match ?x with Some _ => _ | None => _ end) => destruct x
  end.

Ltac silent_auto := repeat silent_step.

(** *** Completion and observation together *)

Lemma post_bind {X A B} (f : event -> option X)
    (Q1 : res A -> list X -> Prop) (Q2 : A -> res B -> list X -> Prop)
    (Q : res B -> list X -> Prop) (m : M A) (k : A -> M B) :
  post f Q1 m ->
  (forall a, post f (Q2 a) (k a)) ->
  (forall e l, Q1 (Raise e) l -> Q (Raise e) l) ->
  (forall a l1 r l2, Q1 (Ret a) l1 -> Q2 a r l2 -> Q r (l1 ++ l2)) ->
  post f Q (bind m k).
Proof.
  intros Hm Hk Hraise Hret h. rewrite bind_run. specialize (Hm h).
  destruct (fst (m h)) as [a|e]; cbn [fst snd].
  - rewrite collect_app. eapply Hret; [exact Hm | apply Hk].
  - now apply Hraise.
Qed.

(** A silent prefix leaves the observation to what follows it. *)
Lemma post_after_silent {X A B} (f : event -> option X)
    (Q : res B -> list X -> Prop) (m : M A) (k : A -> M B) :
  silent f m ->
  (forall e, Q (Raise e) []) ->
  (forall a, post f Q (k a)) ->
  post f Q (bind m k).
Proof.
  intros Hm Hraise Hk h. rewrite bind_run. specialize (Hm h).
  destruct (fst (m h)) as [a|e]; cbn [fst snd].
  - rewrite collect_app, Hm. apply Hk.
  - rewrite Hm. apply Hraise.
Qed.

(** *** Computations that return *)

Lemma returns_ret {A} (P : A -> Prop) (a : A) : P a -> returns P (ret a).
Proof. intros Ha h. now exists a. Qed.

Lemma returns_bind {A B} (P : A -> Prop) (Q : B -> Prop) (m : M A) (k : A -> M B) :
  returns P m -> (forall a, P a -> returns Q (k a)) -> returns Q (bind m k).
Proof.
  intros Hm Hk h. rewrite bind_run. destruct (Hm h) as (a & -> & Ha). cbn [fst].
  apply (Hk a Ha).
Qed.

Lemma returns_try_except {A} (P : A -> Prop) (body : M A) catches handler :
  returns P body -> returns P (try_except body catches handler).
Proof.
  intros Hb h. rewrite try_except_run. destruct (Hb h) as (a & -> & Ha). now exists a.
Qed.

Lemma returns_when (P : unit -> Prop) b m : P tt -> returns P m -> returns P (when b m).
Proof. intros Ht Hm. destruct b; [exact Hm | now apply returns_ret]. Qed.

(** *** Computations that raise *)

Lemma fails_bind_l {A B} (m : M A) (k : A -> M B) : fails m -> fails (bind m k).
Proof.
  intros Hm h. rewrite bind_run. destruct (Hm h) as [e ->]. now exists e.
Qed.

Lemma fails_bind_r {A B} (m : M A) (k : A -> M B) : (forall a, fails (k a)) -> fails (bind m k).
Proof.
  intros Hk h. rewrite bind_run. destruct (fst (m h)) as [a|e]; cbn [fst].
  - apply Hk.
  - now exists e.
Qed.

(** *** What a computation can raise *)

Lemma raises_ret {A} Q (a : A) : raises_only Q (ret a).
Proof. intros h e H. discriminate. Qed.

Lemma raises_raise {A} (Q : exn -> Prop) e : Q e -> raises_only Q (@raise A e).
Proof. intros He h e' H. injection H as <-. exact He. Qed.

Lemma raises_bind {A B} Q (m : M A) (k : A -> M B) :
  raises_only Q m -> (forall a, raises_only Q (k a)) -> raises_only Q (bind m k).
Proof.
  intros Hm Hk h e. rewrite bind_run.
  destruct (fst (m h)) as [a|e'] eqn:E; cbn [fst].
  - apply Hk.
  - intros H. injection H as <-. now apply (Hm h).
Qed.

Lemma raises_try_except {A} (Q' Q : exn -> Prop) (body : M A) catches handler :
  raises_only Q' body ->
  (forall e, Q' e -> catches e = false -> Q e) ->
  (forall e, raises_only Q (handler e)) ->
  raises_only Q (try_except body catches handler).
Proof.
  intros Hb Hpass Hh h e. rewrite try_except_run.
  destruct (fst (body h)) as [a|e'] eqn:E; cbn [fst]; [discriminate|].
  destruct (catches e') eqn:C; cbn [fst].
  - apply Hh.
  - intros H. injection H as <-. apply Hpass; [now apply (Hb h)|exact C].
Qed.

Lemma raises_try_finally {A} Q (body : M A) fin :
  raises_only Q body -> raises_only Q fin -> raises_only Q (try_finally body fin).
Proof.
  intros Hb Hf h e. rewrite try_finally_run. cbn [fst].
  destruct (fst (fin _)) as [u|e'] eqn:E.
  - apply Hb.
  - intros H. injection H as <-. now apply (Hf _ _ E).
Qed.

Lemma raises_when Q b m : raises_only Q m -> raises_only Q (when b m).
Proof. intros Hm. destruct b; [exact Hm | apply raises_ret]. Qed.

(** A computation of type [unit] that raises nothing returns. *)
Lemma raises_nothing_returns (m : M unit) :
  raises_only (fun _ => False) m -> forall h, fst (m h) = Ret tt.
Proof.
  intros Hm h. destruct (fst (m h)) as [[]|e] eqn:E; [reflexivity|].
  destruct (Hm h e E).
Qed.

(** ** The phases of [main] *)

Section Phases.

Variable w : World.

Lemma protect_run {A} (m : M A) (h : trace) :
  protect m h = (Ret (fst (m h)), snd (m h)).
Proof. unfold protect. now destruct (m h). Qed.

Lemma bind_reflect_Ret {A B} (a : A) (k : A -> M B) (h : trace) :
  bind (reflect (Ret a)) k h = k a h.
Proof.
  unfold bind, reflect. rewrite app_nil_r. now destruct (k a h).
Qed.

Lemma main_run (g : Globals) (h : trace) :
  main w g h =
  let c := create_driver_with_retry w (SELENIUM_REMOTE_URL g) chrome_options
             create_driver_default_retries create_driver_default_delay h in
  match fst c with
  | Ret d =>
      (fst (main_with_session w g d (h ++ snd c)),
       snd c ++ snd (main_with_session w g d (h ++ snd c)))
  | Raise e =>
      (fst (main_without_session w g e (h ++ snd c)),
       snd c ++ snd (main_without_session w g e (h ++ snd c)))
  end.
Proof.
  unfold main. rewrite bind_run, !protect_run. cbn [fst snd].
  destruct (create_driver_with_retry w _ _ _ _ h) as [[d|e] tc]; cbn [fst snd].
  - replace (try_finally _ _ (h ++ tc)) with (main_with_session w g d (h ++ tc));
      [reflexivity|].
    unfold main_with_session, try_finally, try_except.
    now rewrite bind_reflect_Ret.
  - replace (try_finally _ _ (h ++ tc)) with (main_without_session w g e (h ++ tc));
      [reflexivity|].
    unfold main_without_session, try_finally, try_except.
    unfold bind at 1, reflect at 1, raise at 1. reflexivity.
Qed.

Lemma main_without_session_run g e h :
  main_without_session w g e h =
  if except_Exception e
  then (Raise (SystemExit 1),
        [Log ERROR ("Automation failed: " ++ str e) []; Log INFO "Automation finished." []])
  else (Raise e, [Log INFO "Automation finished." []]).
Proof.
  unfold main_without_session, try_finally, try_except, raise.
  destruct (except_Exception e); reflexivity.
Qed.

End Phases.

Section Raises.

Variable w : World.

Lemma raises_call {T} (Q : exn -> Prop) (c : callE T) :
  (forall cls msg, Q (Exc cls msg)) -> raises_only Q (call w c).
Proof.
  intros HQ h e. unfold call. cbn [fst].
  destruct (respond w h T c); [discriminate|].
  intros H. injection H as <-. apply HQ.
Qed.

Lemma raises_log Q lvl msg args : raises_only Q (log lvl msg args).
Proof. intros h e H. discriminate. Qed.

Lemma raises_sleep (Q : exn -> Prop) ms :
  (forall cls msg, Q (Exc cls msg)) -> raises_only Q (sleep_ms ms).
Proof.
  intros HQ h e. unfold sleep_ms, sleep_error.
  destruct (sleep_accepts ms); cbn [fst]; [discriminate|].
  intros H. injection H as <-. now destruct (sleep_limit_ms <? Z.abs ms)%Z.
Qed.

Lemma raises_strftime Q fmt : raises_only Q (strftime_now w fmt).
Proof. intros h e H. discriminate. Qed.

Lemma raises_with_open {A} (Q : exn -> Prop) path (body : TextFile -> M A) :
  (forall cls msg, Q (Exc cls msg)) ->
  (forall fh, raises_only Q (body fh)) ->
  raises_only Q (with_open w path body).
Proof.
  intros HQ Hb. unfold with_open.
  apply raises_bind; [now apply raises_call|]. intro fh.
  apply raises_try_finally; [apply Hb | now apply raises_call].
Qed.

End Raises.

Ltac raises_step :=
  match goal with
  | |- raises_only _ (bind _ _) => apply raises_bind; [|intros ?]
  | |- raises_only _ (try_finally _ _) => apply raises_try_finally
  | |- raises_only _ (when _ _) => apply raises_when
  | |- raises_only _ (ret _) => apply raises_ret
  | |- raises_only _ (raise _) => apply raises_raise; reflexivity
  | |- raises_only _ (call _ _) => apply raises_call; intros ? ?; reflexivity
  | |- raises_only _ (log _ _ _) => apply raises_log
  | |- raises_only _ (sleep_ms _) => apply raises_sleep; intros ? ?; reflexivity
  | |- raises_only _ (strftime_now _ _) => apply raises_strftime
  | |- raises_only _ (with_open _ _ _) =>
      apply raises_with_open; [intros ? ?; reflexivity | intros ?]
  | |- raises_only _ (if ?b then _ else _) => destruct b
  end.

Ltac raises_auto := repeat raises_step.

Section Helpers.

Variable w : World.

(** The overlay wait lets through whatever is not a time-out. *)
Lemma overlay_raises d timeout :
  raises_only is_Exception (wait_for_overlay_to_disappear w d timeout).
Proof.
  unfold wait_for_overlay_to_disappear.
  apply raises_try_except with (Q' := is_Exception); [raises_auto | auto | intros ?; raises_auto].
Qed.

Lemma wait_and_click_raises d by_ value desc timeout :
  raises_only is_Exception (wait_and_click w d by_ value desc timeout).
Proof.
  unfold wait_and_click. raises_step; [raises_auto|].
  apply raises_try_except with (Q' := is_Exception); [raises_auto | auto | intros ?; raises_auto].
Qed.

Lemma navigate_raises d items : raises_only is_Exception (navigate w d items).
Proof.
  induction items as [|[i [[by_ value] desc]] items IH]; cbn [navigate]; [raises_auto|].
  raises_step; [raises_auto|].
  raises_step; [apply wait_and_click_raises|].
  raises_step; [raises_auto|].
  raises_step; [apply raises_when, overlay_raises | exact IH].
Qed.

Lemma login_raises g d : raises_only is_Exception (login w g d).
Proof.
  unfold login. do 7 (raises_step; [raises_auto|]). apply overlay_raises.
Qed.

Lemma main_body_raises g d : raises_only is_Exception (main_body w g d).
Proof.
  unfold main_body. do 2 (raises_step; [raises_auto|]).
  raises_step; [apply login_raises|].
  raises_step; [apply navigate_raises | raises_auto].
Qed.

(** Diagnostics capture never raises. *)
Lemma save_debug_artifacts_returns g d h :
  fst (save_debug_artifacts w g d h) = Ret tt.
Proof.
  apply raises_nothing_returns. unfold save_debug_artifacts.
  do 2 (raises_step; [raises_auto|]).
  apply raises_try_except with (Q' := is_Exception).
  - raises_auto.
  - intros e He Hc. unfold is_Exception in He. congruence.
  - intros e. raises_auto.
Qed.

(** The handler ends in [exit(1)], unless the pause it was asked for is
    longer than [time.sleep] accepts: then the error of the sleep leaves
    the handler. *)
Lemma main_except_result g driver exc h :
  fst (main_except w g driver exc h) =
  match driver with
  | Some _ =>
      if (DEBUG_PAUSE_SECONDS g >? 0)%Z && negb (sleep_accepts (1000 * DEBUG_PAUSE_SECONDS g))
      then Raise (sleep_error (1000 * DEBUG_PAUSE_SECONDS g))
      else Raise (SystemExit 1)
  | None => Raise (SystemExit 1)
  end.
Proof.
  unfold main_except. rewrite bind_run. unfold log at 1. cbn [fst snd].
  rewrite bind_run.
  destruct driver as [d|].
  - rewrite bind_run, save_debug_artifacts_returns.
    destruct (DEBUG_PAUSE_SECONDS g >? 0)%Z; cbn [when andb]; [|reflexivity].
    rewrite bind_run, log_run. cbn [fst snd].
    destruct (sleep_accepts (1000 * DEBUG_PAUSE_SECONDS g)) eqn:Hs; cbn [negb].
    + now rewrite sleep_run.
    + now rewrite sleep_refused.
  - reflexivity.
Qed.

(** Either way the handler raises, and what it raises ends the process
    with status 1. *)
Lemma main_except_exits g driver exc h :
  exists e, fst (main_except w g driver exc h) = Raise e /\ exit_status (@Raise unit e) = 1%Z.
Proof.
  rewrite main_except_result. destruct driver as [d|].
  - destruct (_ && _).
    + exists (sleep_error (1000 * DEBUG_PAUSE_SECONDS g)). split; [reflexivity|].
      unfold sleep_error. now destruct (sleep_limit_ms <? _)%Z.
    + now exists (SystemExit 1).
  - now exists (SystemExit 1).
Qed.

End Helpers.

(** ** Connection phase *)

Section Connection.

Variable w : World.
Variables (url : option string) (options : ChromeOptions) (retries delay : Z).

(** One iteration of the retry loop, whatever the delay: a delay that
    [time.sleep] rejects ends the loop at the first refused attempt, with
    the error of the sleep. *)
Lemma create_driver_loop_iteration attempt rest h :
  create_driver_loop w url options retries delay (attempt :: rest) h =
  match respond w h _ (Remote url options) with
  | Ok d => (Ret d, [Call (Remote url options) (Ok d)])
  | Fails cls msg =>
      if isinstance_WebDriverException cls
      then
        if sleep_accepts (1000 * delay)
        then
          let t := [Call (Remote url options) (Fails cls msg);
                    retry_warning retries attempt msg; Sleep (1000 * delay)] in
          (fst (create_driver_loop w url options retries delay rest (h ++ t)),
           t ++ snd (create_driver_loop w url options retries delay rest (h ++ t)))
        else (Raise (sleep_error (1000 * delay)),
              [Call (Remote url options) (Fails cls msg); retry_warning retries attempt msg])
      else (Raise (Exc cls msg), [Call (Remote url options) (Fails cls msg)])
  end.
Proof.
  cbn [create_driver_loop]. unfold bind at 1, try_except at 1, bind at 1, call at 1.
  destruct (respond w h _ (Remote url options)) as [d|cls msg]; cbn -[Z.mul Z.add Z.of_nat].
  - reflexivity.
  - unfold except_WebDriverException.
    destruct (isinstance_WebDriverException cls); [|reflexivity].
    cbn -[Z.mul Z.add Z.of_nat]. rewrite bind_run. unfold retry_warning.
    destruct (sleep_accepts (1000 * delay)) eqn:Hs.
    + rewrite sleep_run by exact Hs. cbn -[Z.mul Z.add Z.of_nat].
      now destruct (create_driver_loop w url options retries delay rest _).
    + rewrite sleep_refused by exact Hs. reflexivity.
Qed.

(** From here on the delay is one that [time.sleep] accepts, as the
    default of two seconds is. *)
Hypothesis delay_accepted : sleep_accepts (1000 * delay) = true.

(** One iteration of the retry loop. *)
Lemma create_driver_loop_step attempt rest h :
  create_driver_loop w url options retries delay (attempt :: rest) h =
  match respond w h _ (Remote url options) with
  | Ok d => (Ret d, [Call (Remote url options) (Ok d)])
  | Fails cls msg =>
      if isinstance_WebDriverException cls
      then
        let t := [Call (Remote url options) (Fails cls msg);
                  retry_warning retries attempt msg; Sleep (1000 * delay)] in
        (fst (create_driver_loop w url options retries delay rest (h ++ t)),
         t ++ snd (create_driver_loop w url options retries delay rest (h ++ t)))
      else (Raise (Exc cls msg), [Call (Remote url options) (Fails cls msg)])
  end.
Proof. rewrite create_driver_loop_iteration. now rewrite delay_accepted. Qed.

Lemma create_driver_loop_nil h :
  create_driver_loop w url options retries delay [] h =
  (Raise (SystemExit 2),
   [Log CRITICAL "Could not connect to Selenium after %d retries. Exiting." [AInt retries]]).
Proof. reflexivity. Qed.

(** The connection phase makes no call other than session creation. *)
Lemma create_driver_loop_silent attempts :
  silent call_beyond_connection (create_driver_loop w url options retries delay attempts).
Proof.
  induction attempts as [|a rest IH]; cbn [create_driver_loop]; silent_auto. exact IH.
Qed.

(** Every attempt is refused with a [WebDriverException]: the loop runs through all
    its attempts and exits with status 2. *)
Lemma create_driver_loop_exhausted attempts :
  (forall h, remote_fails_at w url options h) ->
  forall h,
    fst (create_driver_loop w url options retries delay attempts h) = Raise (SystemExit 2) /\
    remote_count (snd (create_driver_loop w url options retries delay attempts h))
      = length attempts /\
    collect session_created (snd (create_driver_loop w url options retries delay attempts h)) = [].
Proof.
  intros Hfail. induction attempts as [|a rest IH]; intro h.
  - rewrite create_driver_loop_nil. repeat split.
  - rewrite create_driver_loop_step.
    destruct (Hfail h) as (cls & msg & Hcls & ->). rewrite Hcls. cbn [fst snd].
    set (t := [Call (Remote url options) (Fails cls msg);
               retry_warning retries a msg; Sleep (1000 * delay)]).
    destruct (IH (h ++ t)) as (Hr & Hn & Hs).
    split; [exact Hr|]. unfold remote_count in *. split.
    + rewrite collect_app, length_app, Hn. reflexivity.
    + rewrite collect_app, Hs. reflexivity.
Qed.

(** [n] refusals with a [WebDriverException], then a success, with attempts to
    spare: the loop returns the session after exactly [n + 1] attempts. *)
Lemma create_driver_loop_retry n :
  forall attempts h,
    (n < length attempts)%nat ->
    (forall h', (remote_count h' < remote_count h + n)%nat -> remote_fails_at w url options h') ->
    (forall h', remote_count h' = (remote_count h + n)%nat ->
                exists d, respond w h' _ (Remote url options) = Ok d) ->
    exists d,
      fst (create_driver_loop w url options retries delay attempts h) = Ret d /\
      remote_count (snd (create_driver_loop w url options retries delay attempts h))
        = S n /\
      collect session_created (snd (create_driver_loop w url options retries delay attempts h))
        = [d].
Proof.
  induction n as [|n IH]; intros [|a rest] h Hlen Hfail Hok; cbn [length] in Hlen; try lia.
  - rewrite create_driver_loop_step.
    destruct (Hok h) as [d ->]; [lia|]. exists d. repeat split.
  - rewrite create_driver_loop_step.
    destruct (Hfail h) as (cls & msg & Hcls & ->); [lia|]. rewrite Hcls. cbn [fst snd].
    set (t := [Call (Remote url options) (Fails cls msg);
               retry_warning retries a msg; Sleep (1000 * delay)]).
    assert (Hcount : remote_count (h ++ t) = S (remote_count h)).
    { unfold remote_count. rewrite collect_app, length_app. cbn. lia. }
    destruct (IH rest (h ++ t)) as (d & Hr & Hn & Hs).
    + lia.
    + intros h' Hh'. apply Hfail. lia.
    + intros h' Hh'. apply Hok. lia.
    + exists d. split; [exact Hr|]. unfold remote_count in *. split.
      * rewrite collect_app, length_app, Hn. reflexivity.
      * rewrite collect_app, Hs. reflexivity.
Qed.

(** [n] refusals with a [WebDriverException], then a failure of another class,
    with attempts to spare: the loop raises that failure after exactly
    [n + 1] attempts. *)
Lemma create_driver_loop_crash n cls msg :
  isinstance_WebDriverException cls = false ->
  forall attempts h,
    (n < length attempts)%nat ->
    (forall h', (remote_count h' < remote_count h + n)%nat -> remote_fails_at w url options h') ->
    (forall h', remote_count h' = (remote_count h + n)%nat ->
                respond w h' _ (Remote url options) = Fails cls msg) ->
    fst (create_driver_loop w url options retries delay attempts h) = Raise (Exc cls msg) /\
    remote_count (snd (create_driver_loop w url options retries delay attempts h)) = S n.
Proof.
  intros Hcls.
  induction n as [|n IH]; intros [|a rest] h Hlen Hfail Hcrash; cbn [length] in Hlen; try lia.
  - rewrite create_driver_loop_step.
    rewrite Hcrash by lia. rewrite Hcls. split; reflexivity.
  - rewrite create_driver_loop_step.
    destruct (Hfail h) as (cls' & msg' & Hcls' & ->); [lia|]. rewrite Hcls'. cbn [fst snd].
    set (t := [Call (Remote url options) (Fails cls' msg');
               retry_warning retries a msg'; Sleep (1000 * delay)]).
    assert (Hcount : remote_count (h ++ t) = S (remote_count h)).
    { unfold remote_count. rewrite collect_app, length_app. cbn. lia. }
    destruct (IH rest (h ++ t)) as (Hr & Hn).
    + lia.
    + intros h' Hh'. apply Hfail. lia.
    + intros h' Hh'. apply Hcrash. lia.
    + split; [exact Hr|]. unfold remote_count in *.
      rewrite collect_app, length_app, Hn. reflexivity.
Qed.

End Connection.

(** ** The run, phase by phase *)

Section Run.

Variable w : World.

(** The three ways the module's top level continues. *)
Lemma run_cases :
  run w =
  match debug_pause_read w with
  | Raise e => (Raise e, [])
  | Ret z =>
      if required_present w
      then main w (module_globals w z) []
      else (Raise (SystemExit 1), [Log CRITICAL validation_message []])
  end.
Proof.
  unfold run, script, debug_pause_read, read_debug_pause.
  destruct (environ w "DEBUG_PAUSE_SECONDS") as [s|].
  - destruct (int_builtin w s) as [z|cls msg]; [|reflexivity].
    unfold bind at 1, ret at 1. cbn [fst app].
    destruct (required_present w); cbn [negb].
    + unfold bind, ret. cbn [fst app]. now destruct (main w (module_globals w z) []).
    + reflexivity.
  - unfold bind at 1, ret at 1. cbn [fst app].
    destruct (required_present w); cbn [negb].
    + unfold bind, ret. cbn [fst app]. now destruct (main w (module_globals w 0%Z) []).
    + reflexivity.
Qed.

(** Reading [DEBUG_PAUSE_SECONDS] raises nothing but an [Exception]. *)
Lemma debug_pause_read_raises e : debug_pause_read w = Raise e -> is_Exception e.
Proof.
  unfold debug_pause_read, read_debug_pause.
  destruct (environ w "DEBUG_PAUSE_SECONDS") as [s|]; [|discriminate].
  destruct (int_builtin w s); [discriminate|].
  intros H. injection H as <-. reflexivity.
Qed.

(** After the session exists: the body, then the handler if the body
    raised, then [quit], then the closing record unless [quit] raised. *)
Lemma main_with_session_run g d h :
  let b := main_body w g d h in
  let handled :=
    match fst b with
    | Ret _ => []
    | Raise e => snd (main_except w g (Some d) e (h ++ snd b))
    end in
  let q := respond w (h ++ snd b ++ handled) _ (Quit d) in
  main_with_session w g d h =
  (match q with
   | Fails cls msg => Raise (Exc cls msg)
   | Ok _ =>
       match fst b with
       | Ret u => Ret u
       | Raise e => fst (main_except w g (Some d) e (h ++ snd b))
       end
   end,
   snd b ++ handled ++
   Call (Quit d) q :: match q with Ok _ => [Log INFO "Automation finished." []] | Fails _ _ => [] end).
Proof.
  cbv zeta. unfold main_with_session. rewrite try_finally_run, try_except_run.
  pose proof (main_body_raises w g d h) as Hexc.
  destruct (fst (main_body w g d h)) as [u|e]; cbn [fst snd].
  - rewrite app_nil_r. unfold main_finally, bind, call, log.
    destruct (respond w (h ++ snd (main_body w g d h)) unit (Quit d)); reflexivity.
  - rewrite (Hexc e eq_refl). cbn [fst snd].
    rewrite <- !app_assoc. unfold main_finally, bind, call, log.
    destruct (respond w _ unit (Quit d)); reflexivity.
Qed.

(** *** Silence of the phases, for any observation *)

Lemma navigate_silent {X} (f : event -> option X) d items :
  (forall by_ value desc,
     silent f (wait_and_click w d by_ value desc wait_and_click_default_timeout)) ->
  silent f (wait_for_overlay_to_disappear w d overlay_default_timeout) ->
  f (Sleep 1000) = None ->
  silent f (navigate w d items).
Proof.
  intros Hclick Hoverlay Hsleep.
  induction items as [|[i [[by_ value] desc]] items IH]; cbn [navigate]; [silent_auto|].
  apply silent_bind; [apply silent_when, silent_sleep, Hsleep|]. intros _.
  apply silent_bind; [apply Hclick|]. intros clicked.
  apply silent_bind; [silent_auto|]. intros _.
  apply silent_bind; [apply silent_when, Hoverlay | intros _; exact IH].
Qed.

End Run.

(** Silence of any part of the script other than the retry loop. *)
Ltac silent_script :=
  repeat first
    [ silent_step
    | match goal with
      | |- silent _ (navigate _ _ _) => apply navigate_silent; [intros ? ? ?| |reflexivity]
      | |- silent _ (main_body _ _ _) => unfold main_body
      | |- silent _ (login _ _ _) => unfold login
      | |- silent _ (main_except _ _ _ _) => unfold main_except
      | |- silent _ (main_finally _ _) => unfold main_finally
      | |- silent _ (save_debug_artifacts _ _ _) => unfold save_debug_artifacts
      | |- silent _ (wait_and_click _ _ _ _ _ _) => unfold wait_and_click
      | |- silent _ (wait_for_overlay_to_disappear _ _ _) => unfold wait_for_overlay_to_disappear
      | |- silent _ (match ?x with Some _ => _ | None => _ end ;;; _) => destruct x
      end ].

Section RunFacts.

Variable w : World.

(** The retry loop shows an observation nothing, provided the observation
    ignores session-creation attempts, the loop's records and sleeps. *)
Lemma create_driver_loop_silent_for {X} (f : event -> option X)
    url options retries delay attempts :
  (forall r, f (Call (Remote url options) r) = None) ->
  (forall lvl msg args, lvl = WARNING \/ lvl = CRITICAL -> f (Log lvl msg args) = None) ->
  (forall ms, f (Sleep ms) = None) ->
  silent f (create_driver_loop w url options retries delay attempts).
Proof.
  intros Hcall Hlog Hsleep.
  induction attempts as [|a rest IH]; intro h.
  - rewrite create_driver_loop_nil. cbn [snd collect]. now rewrite Hlog by auto.
  - rewrite create_driver_loop_iteration.
    destruct (respond w h _ (Remote url options)) as [d|cls msg].
    + cbn [snd collect]. now rewrite Hcall.
    + destruct (isinstance_WebDriverException cls);
        [destruct (sleep_accepts (1000 * delay))|]; cbv zeta; cbn [snd app collect].
      * rewrite Hcall. unfold retry_warning. rewrite Hlog by auto. rewrite Hsleep. apply IH.
      * rewrite Hcall. unfold retry_warning. now rewrite Hlog by auto.
      * now rewrite Hcall.
Qed.

(** The sessions the retry loop leaves open: the one it returns. *)
Lemma create_driver_loop_sessions url options retries delay attempts h :
  collect session_created (snd (create_driver_loop w url options retries delay attempts h)) =
  match fst (create_driver_loop w url options retries delay attempts h) with
  | Ret d => [d]
  | Raise _ => []
  end.
Proof.
  revert h. induction attempts as [|a rest IH]; intro h.
  - reflexivity.
  - rewrite create_driver_loop_iteration.
    destruct (respond w h _ (Remote url options)) as [d|cls msg]; [reflexivity|].
    destruct (isinstance_WebDriverException cls); [|reflexivity].
    destruct (sleep_accepts (1000 * delay)); [|reflexivity].
    cbn [fst snd]. apply IH.
Qed.

Lemma main_trace g h :
  let c := create_driver_with_retry w (SELENIUM_REMOTE_URL g) chrome_options
             create_driver_default_retries create_driver_default_delay h in
  snd (main w g h) =
  snd c ++
  match fst c with
  | Ret d => snd (main_with_session w g d (h ++ snd c))
  | Raise e => snd (main_without_session w g e (h ++ snd c))
  end.
Proof.
  cbv zeta. rewrite main_run. cbv zeta.
  now destruct (fst (create_driver_with_retry w _ _ _ _ h)).
Qed.

Lemma main_result g h :
  let c := create_driver_with_retry w (SELENIUM_REMOTE_URL g) chrome_options
             create_driver_default_retries create_driver_default_delay h in
  fst (main w g h) =
  match fst c with
  | Ret d => fst (main_with_session w g d (h ++ snd c))
  | Raise e => fst (main_without_session w g e (h ++ snd c))
  end.
Proof.
  cbv zeta. rewrite main_run. cbv zeta.
  now destruct (fst (create_driver_with_retry w _ _ _ _ h)).
Qed.

(** Exactly one [quit], on the session, once the session exists. *)
Lemma main_with_session_quits g d h :
  collect quit_call (snd (main_with_session w g d h)) = [d].
Proof.
  rewrite main_with_session_run. cbn [snd]. rewrite !collect_app.
  assert (Hb : silent quit_call (main_body w g d)) by silent_script.
  rewrite Hb. cbn [app].
  assert (Hh : forall e, silent quit_call (main_except w g (Some d) e))
    by (intro e; silent_script).
  destruct (fst (main_body w g d h)) as [u|e]; [|rewrite Hh];
    cbn [app collect quit_call];
    now destruct (respond w _ unit (Quit d)).
Qed.

(** No session is created once the session exists. *)
Lemma main_with_session_sessions g d h :
  collect session_created (snd (main_with_session w g d h)) = [].
Proof.
  rewrite main_with_session_run. cbn [snd]. rewrite !collect_app.
  assert (Hb : silent session_created (main_body w g d)) by silent_script.
  rewrite Hb. cbn [app].
  assert (Hh : forall e, silent session_created (main_except w g (Some d) e))
    by (intro e; silent_script).
  destruct (fst (main_body w g d h)) as [u|e]; [|rewrite Hh];
    cbn [app collect session_created];
    now destruct (respond w _ unit (Quit d)).
Qed.

(** The retry loop raises [SystemExit] only with code 2, and only then does
    it leave the record of an exhausted budget. *)
Lemma create_driver_loop_exhaustion url options retries delay attempts h :
  match fst (create_driver_loop w url options retries delay attempts h) with
  | Raise (SystemExit code) =>
      code = 2%Z /\
      collect exhausted_record
        (snd (create_driver_loop w url options retries delay attempts h)) = [tt]
  | _ =>
      collect exhausted_record
        (snd (create_driver_loop w url options retries delay attempts h)) = []
  end.
Proof.
  revert h. induction attempts as [|a rest IH]; intro h.
  - rewrite create_driver_loop_nil. split; reflexivity.
  - rewrite create_driver_loop_iteration.
    destruct (respond w h _ (Remote url options)) as [d|cls msg]; [reflexivity|].
    destruct (isinstance_WebDriverException cls); [|reflexivity].
    destruct (sleep_accepts (1000 * delay)) eqn:Hs.
    + cbv zeta. cbn [fst snd app collect exhausted_record]. apply IH.
    + unfold sleep_error. now destruct (sleep_limit_ms <? _)%Z.
Qed.

(** The success record is the last thing the body does. *)
Lemma main_body_success g d h :
  collect success_record (snd (main_body w g d h)) =
  match fst (main_body w g d h) with Ret _ => [tt] | Raise _ => [] end.
Proof.
  revert h.
  change (post success_record
            (fun r l => l = match r with Ret _ => [tt] | Raise _ => [] end)
            (main_body w g d)).
  unfold main_body.
  do 4 (apply post_after_silent; [silent_script | reflexivity | intros _]).
  intro h. reflexivity.
Qed.

(** How [main] ends once the session exists: it returns after a body that
    succeeded; or the handler ran and what it raised (the exit with 1, or
    the error of a pause that [time.sleep] rejected) ends the run with
    status 1; or [quit] raised. *)
Lemma main_with_session_outcome g d h :
  let r := fst (main_with_session w g d h) in
  let t := snd (main_with_session w g d h) in
  collect exhausted_record t = [] /\
  ((r = Ret tt /\ collect handler_entered t = [] /\
    collect success_record t = [tt] /\ collect finished_record t = [tt]) \/
   ((exists e, r = Raise e) /\ exit_status r = 1%Z /\ collect handler_entered t <> [] /\
    collect success_record t = [] /\ collect finished_record t = [tt]) \/
   ((exists cls msg, r = Raise (Exc cls msg)) /\ collect finished_record t = [])).
Proof.
  cbv zeta. rewrite main_with_session_run. cbn [fst snd]. rewrite !collect_app.
  assert (Hbx : silent exhausted_record (main_body w g d)) by silent_script.
  assert (Hbh : silent handler_entered (main_body w g d)) by silent_script.
  assert (Hbf : silent finished_record (main_body w g d)) by silent_script.
  assert (Hhx : forall e, silent exhausted_record (main_except w g (Some d) e))
    by (intro e; silent_script).
  assert (Hhs : forall e, silent success_record (main_except w g (Some d) e))
    by (intro e; silent_script).
  assert (Hhf : forall e, silent finished_record (main_except w g (Some d) e))
    by (intro e; silent_script).
  assert (Hhh : forall e h', collect handler_entered (snd (main_except w g (Some d) e h')) <> []).
  { intros e h'. unfold main_except. rewrite bind_run. unfold log at 1 2. cbn [fst snd].
    rewrite collect_app. cbn. discriminate. }
  rewrite Hbx, Hbh, Hbf, main_body_success.
  destruct (fst (main_body w g d h)) as [[]|e].
  - cbn [app collect].
    destruct (respond w _ unit (Quit d)) as [[]|cls msg]; (split; [reflexivity|]).
    + left. repeat split.
    + right. right. split; [now exists cls, msg | reflexivity].
  - rewrite Hhx, Hhs, Hhf. cbn [app].
    destruct (respond w _ unit (Quit d)) as [[]|cls msg]; (split; [reflexivity|]).
    + right. left.
      destruct (main_except_exits w g (Some d) e (h ++ snd (main_body w g d h)))
        as (e' & -> & He').
      split; [now exists e'|]. split; [exact He'|]. split; [|split; reflexivity].
      rewrite app_nil_r. apply Hhh.
    + right. right. split; [now exists cls, msg | reflexivity].
Qed.

(** The body opens with the page load. *)
Lemma main_body_opens g d h :
  exists r rest,
    snd (main_body w g d h) =
    Log INFO "Opening router admin page: %s" [arg_of_opt (ROUTER_ADMIN_URL g)]
    :: Call (Get d (ROUTER_ADMIN_URL g)) r :: rest.
Proof.
  unfold main_body. rewrite bind_run, log_run. cbn [fst snd app].
  rewrite bind_run, call_run. cbn [fst snd].
  destruct (respond w _ unit (Get d (ROUTER_ADMIN_URL g))) as [[]|cls msg];
    cbn [fst snd app]; eauto.
Qed.

End RunFacts.

(** ** Navigation phase *)

Section Navigation.

Variable w : World.

(** A guarded click shows its wait, then how it returned. *)
Lemma wait_and_click_shape d by_ value desc timeout :
  post nav_event
    (fun r obs =>
       obs = match r with
             | Ret true => [Attempt (by_, value); Clicked desc]
             | Ret false => [Attempt (by_, value); NotClicked desc]
             | Raise _ => [Attempt (by_, value)]
             end)
    (wait_and_click w d by_ value desc timeout).
Proof.
  intro h. unfold wait_and_click. sleep_constants. unfold bind, try_except, call, log, ret.
  repeat match goal with
         | |- context [respond w ?h' ?T ?c] =>
             destruct (respond w h' T c) as [?|[] ?]
         end; reflexivity.
Qed.

Lemma overlay_silent_nav d timeout :
  silent nav_event (wait_for_overlay_to_disappear w d timeout).
Proof. silent_script. Qed.

(** The navigation loop leaves one of the shapes of [nav_shape]. *)
Lemma navigate_shape d items :
  post nav_event (fun _ obs => nav_shape (map snd items) obs) (navigate w d items).
Proof.
  induction items as [|[i [[by_ value] desc]] items IH]; cbn [navigate map snd].
  - intro h. constructor.
  - apply post_after_silent; [silent_script | intros; constructor | intros _].
    eapply post_bind; [apply wait_and_click_shape | | |].
    + intros clicked.
      instantiate (1 := fun clicked _ obs =>
                          if clicked then nav_shape (map snd items) obs else obs = []).
      destruct clicked; cbn [negb].
      * apply post_after_silent; [silent_script | intros; constructor | intros _].
        apply post_after_silent;
          [apply silent_when, overlay_silent_nav | intros; constructor | intros _; exact IH].
      * intro h. reflexivity.
    + cbn beta. intros e obs ->. apply (shape_raised (by_, value, desc)).
    + cbn beta. intros [|] l1 r l2 -> H2.
      * apply (shape_clicked (by_, value, desc)). exact H2.
      * subst l2. apply (shape_failed (by_, value, desc)).
Qed.

End Navigation.

(** *** What a navigation shape implies *)

Lemma nav_shape_attempts ss obs :
  nav_shape ss obs ->
  exists n, (n <= length ss)%nat /\ attempts_of obs = firstn n (map step_locator ss).
Proof.
  induction 1 as [ss | s ss | s ss | s ss obs H IH].
  - exists 0%nat. split; [lia | reflexivity].
  - exists 1%nat. cbn. split; [lia | reflexivity].
  - exists 1%nat. cbn. split; [lia | reflexivity].
  - destruct IH as (n & Hn & IH). exists (S n). cbn. split; [lia | now rewrite IH].
Qed.

Lemma nav_shape_descs ss obs desc :
  nav_shape ss obs -> In (NotClicked desc) obs -> In desc (map step_desc ss).
Proof.
  induction 1 as [ss | s ss | s ss | s ss obs H IH]; cbn [In map].
  - intros [].
  - intros [H | []]. discriminate.
  - intros [H | [H | []]]; [discriminate | injection H as <-; now left].
  - intros [H0 | [H0 | H0]]; [discriminate | discriminate | right; now apply IH].
Qed.

(** A failure record for step [k] ends the attempts at step [k]. *)
Lemma nav_shape_failed_stops ss obs :
  nav_shape ss obs ->
  NoDup (map step_desc ss) ->
  forall k s,
    nth_error ss k = Some s ->
    In (NotClicked (step_desc s)) obs ->
    attempts_of obs = firstn (S k) (map step_locator ss).
Proof.
  induction 1 as [ss | s0 ss | s0 ss | s0 ss obs H IH]; intros Hnd k s Hk Hin.
  - destruct Hin.
  - destruct Hin as [Hin | []]. discriminate.
  - destruct Hin as [Hin | [Hin | []]]; [discriminate|].
    injection Hin as Hdesc. destruct k as [|k]; [reflexivity|].
    cbn [nth_error] in Hk. apply nth_error_In in Hk.
    cbn [map] in Hnd. inversion Hnd as [|? ? Hnotin _]; subst.
    exfalso. apply Hnotin. rewrite Hdesc. now apply in_map.
  - destruct Hin as [Hin | [Hin | Hin]]; [discriminate | discriminate |].
    cbn [map] in Hnd. inversion Hnd as [|? ? Hnotin Hnd']; subst.
    destruct k as [|k].
    + cbn [nth_error] in Hk. injection Hk as <-.
      exfalso. apply Hnotin. eapply nav_shape_descs; eassumption.
    + cbn [nth_error] in Hk. cbn [attempts_of map].
      rewrite (IH Hnd' k s Hk Hin). reflexivity.
Qed.

(** A step that is followed by a later attempt was clicked. *)
Lemma nav_shape_clicked_before ss obs :
  nav_shape ss obs ->
  forall k s,
    nth_error ss k = Some s ->
    (S k < length (attempts_of obs))%nat ->
    In (Clicked (step_desc s)) obs.
Proof.
  induction 1 as [ss | s0 ss | s0 ss | s0 ss obs H IH]; intros k s Hk Hlen;
    cbn [attempts_of length] in Hlen; try lia.
  destruct k as [|k]; cbn [nth_error] in Hk.
  - injection Hk as <-. right. now left.
  - right. right. apply (IH k s Hk). lia.
Qed.

Section NavigationRun.

Variable w : World.

Lemma main_body_shape g d :
  post nav_event (fun _ obs => nav_shape steps obs) (main_body w g d).
Proof.
  unfold main_body.
  do 3 (apply post_after_silent; [silent_script | intros; apply shape_stop | intros _]).
  eapply post_bind; [apply (navigate_shape w d (enumerate steps)) | | |].
  - instantiate (1 := fun _ _ obs => obs = []). intros u h. reflexivity.
  - cbn beta. intros e obs H. exact H.
  - cbn beta. intros _ l1 r l2 H ->. rewrite app_nil_r. exact H.
Qed.

(** Whatever the world does, the navigation records of a run form a
    navigation shape over the five steps. *)
Lemma run_nav_shape : nav_shape steps (collect nav_event (run_trace w)).
Proof.
  unfold run_trace. rewrite run_cases.
  destruct (debug_pause_read w) as [z|e]; [|constructor].
  destruct (required_present w); [|constructor].
  rewrite main_trace. cbv zeta. rewrite collect_app.
  unfold create_driver_with_retry.
  set (loop := create_driver_loop w _ _ _ _ _ []).
  assert (Hl : collect nav_event (snd loop) = []).
  { apply create_driver_loop_silent_for; try reflexivity.
    intros lvl msg args [-> | ->]; unfold nav_event;
      repeat match goal with |- context [if ?b then _ else _] => destruct b end;
      reflexivity. }
  rewrite Hl. cbn [app].
  destruct (fst loop) as [d|e].
  - rewrite main_with_session_run. cbn [snd]. rewrite !collect_app.
    assert (Hh : forall e, silent nav_event (main_except w (module_globals w z) (Some d) e))
      by (intro e; silent_script).
    assert (Hq : forall q : outcome unit,
               collect nav_event
                 (Call (Quit d) q ::
                  match q with Ok _ => [Log INFO "Automation finished." []] | Fails _ _ => [] end)
               = []) by (intros [?|? ?]; reflexivity).
    rewrite Hq, app_nil_r.
    pose proof (main_body_shape (module_globals w z) d (snd loop)) as Hb. cbn beta in Hb.
    destruct (fst (main_body w (module_globals w z) d (snd loop))).
    + now rewrite app_nil_r.
    + now rewrite Hh, app_nil_r.
  - rewrite main_without_session_run. destruct (except_Exception e); constructor.
Qed.

End NavigationRun.

(** ** Runs in which nothing fails but, possibly, the overlay waits *)

Section OverlayOnly.

Variable w : World.

Hypothesis others_return :
  forall h T (c : callE T), is_until_not c = false -> exists v, respond w h T c = Ok v.

Hypothesis overlay_returns_or_times_out :
  forall h d timeout,
    let wait := UntilNot d timeout (presence_of_element_located overlay_locator) in
    respond w h _ wait = Ok tt \/ exists msg, respond w h _ wait = Fails TimeoutException msg.

Lemma returns_call {T} (c : callE T) :
  is_until_not c = false -> returns (fun _ => True) (call w c).
Proof.
  intros Hc h. rewrite call_run. destruct (others_return h T c Hc) as [v ->].
  now exists v.
Qed.

Lemma returns_log lvl msg args : returns (fun _ => True) (log lvl msg args).
Proof. intro h. now exists tt. Qed.

Lemma returns_sleep ms :
  sleep_accepts ms = true -> returns (fun _ => True) (sleep_ms ms).
Proof. intros Hms h. rewrite sleep_run by exact Hms. now exists tt. Qed.

Lemma overlay_returns d timeout :
  returns (fun _ => True) (wait_for_overlay_to_disappear w d timeout).
Proof.
  intro h. unfold wait_for_overlay_to_disappear. rewrite try_except_run, call_run.
  destruct (overlay_returns_or_times_out h d timeout) as [-> | [msg ->]];
    cbn; now exists tt.
Qed.

Lemma wait_and_click_returns d by_ value desc timeout :
  returns (eq true) (wait_and_click w d by_ value desc timeout).
Proof.
  unfold wait_and_click.
  eapply returns_bind; [apply returns_log|]. intros _ _.
  apply returns_try_except.
  eapply returns_bind; [now apply returns_call|]. intros element _.
  eapply returns_bind; [now apply returns_call|]. intros _ _.
  eapply returns_bind; [now apply returns_sleep|]. intros _ _.
  eapply returns_bind; [now apply returns_call|]. intros _ _.
  eapply returns_bind; [apply returns_log|]. intros _ _.
  now apply returns_ret.
Qed.

Lemma navigate_returns d items : returns (fun _ => True) (navigate w d items).
Proof.
  induction items as [|[i [[by_ value] desc]] items IH]; cbn [navigate].
  - now apply returns_ret.
  - eapply returns_bind;
      [apply (returns_when (fun _ => True)); [exact I | now apply returns_sleep]|]. intros _ _.
    eapply returns_bind; [apply wait_and_click_returns|]. intros clicked <-. cbn [negb].
    eapply returns_bind; [now apply (returns_ret (fun _ => True))|]. intros _ _.
    eapply returns_bind;
      [apply (returns_when (fun _ => True)); [exact I | apply overlay_returns]|].
    intros _ _. exact IH.
Qed.

Lemma login_returns g d : returns (fun _ => True) (login w g d).
Proof.
  unfold login.
  do 6 (eapply returns_bind; [now apply returns_call|]; intros ? _).
  eapply returns_bind; [apply returns_log|]. intros _ _.
  apply overlay_returns.
Qed.

Lemma main_body_returns g d h : fst (main_body w g d h) = Ret tt.
Proof.
  assert (H : returns (fun _ => True) (main_body w g d)).
  { unfold main_body.
    eapply returns_bind; [apply returns_log|]. intros _ _.
    eapply returns_bind; [now apply returns_call|]. intros _ _.
    eapply returns_bind; [apply login_returns|]. intros _ _.
    eapply returns_bind; [apply navigate_returns|]. intros _ _.
    apply returns_log. }
  destruct (H h) as ([] & -> & _). reflexivity.
Qed.

(** Such a run ends with status 0 and never enters the handler. *)
Lemma overlay_only_run :
  required_present w = true ->
  (exists z, debug_pause_read w = Ret z) ->
  run_status w = 0%Z /\ collect handler_entered (run_trace w) = [].
Proof.
  intros Hreq [z Hz]. unfold run_status, run_trace. rewrite run_cases, Hz, Hreq.
  rewrite main_result, main_trace. cbv zeta. rewrite collect_app.
  unfold create_driver_with_retry.
  set (g := module_globals w z).
  set (loop := create_driver_loop w (SELENIUM_REMOTE_URL g) chrome_options
                 create_driver_default_retries create_driver_default_delay
                 (range create_driver_default_retries) []).
  assert (Hl : collect handler_entered (snd loop) = []).
  { apply create_driver_loop_silent_for; try reflexivity.
    intros lvl msg args [-> | ->]; reflexivity. }
  destruct (create_driver_loop_retry w (SELENIUM_REMOTE_URL g) chrome_options
              create_driver_default_retries create_driver_default_delay eq_refl 0
              (range create_driver_default_retries) []) as (d & Hr & _).
  - unfold range. rewrite length_seq. change (0 < 10)%nat. lia.
  - intros h' Hh'. cbn in Hh'. lia.
  - intros h' _. now apply others_return.
  - fold loop in Hr. rewrite Hr, Hl. cbn [app].
    destruct (main_with_session_outcome w g d (snd loop))
      as (_ & [(Hret & Hh & _) | [((e & Hret) & _) | ((cls & msg & Hret) & _)]]).
    + rewrite Hret, Hh. split; reflexivity.
    + exfalso. rewrite main_with_session_run in Hret. cbn [fst] in Hret.
      rewrite main_body_returns in Hret.
      destruct (others_return (snd loop ++ snd (main_body w g d (snd loop)) ++ []) unit (Quit d)
                  eq_refl) as [v Hv].
      rewrite Hv in Hret. discriminate.
    + exfalso. rewrite main_with_session_run in Hret. cbn [fst] in Hret.
      rewrite main_body_returns in Hret.
      destruct (others_return (snd loop ++ snd (main_body w g d (snd loop)) ++ []) unit (Quit d)
                  eq_refl) as [v Hv].
      rewrite Hv in Hret. discriminate.
Qed.

End OverlayOnly.

(** ** Runs in which the password field never becomes invisible *)

Section LoginTimeout.

Variable w : World.

Hypothesis never_invisible :
  forall h d timeout,
    exists msg,
      respond w h _ (Until d timeout (invisibility_of_element_located password_locator))
      = Fails TimeoutException msg.

Lemma login_fails g d : fails (login w g d).
Proof.
  unfold login. do 5 (apply fails_bind_r; intros ?). apply fails_bind_l.
  intro h. rewrite call_run. destruct (never_invisible h d 15) as [msg ->].
  now exists (Exc TimeoutException msg).
Qed.

Lemma main_body_fails g d : fails (main_body w g d).
Proof.
  unfold main_body. do 2 (apply fails_bind_r; intros ?). apply fails_bind_l, login_fails.
Qed.

(** The body stops in the login block: no navigation record. *)
Lemma main_body_no_navigation g d h : collect nav_event (snd (main_body w g d h)) = [].
Proof.
  revert h. change (post nav_event (fun _ obs => obs = []) (main_body w g d)).
  unfold main_body.
  do 2 (apply post_after_silent; [silent_script | reflexivity | intros _]).
  intro h. rewrite bind_run. destruct (login_fails g d h) as [e ->]. cbn [snd].
  assert (Hs : silent nav_event (login w g d)) by silent_script. apply Hs.
Qed.

(** With a session, the run ends in the handler. *)
Lemma login_timeout_with_session g d h :
  exit_status (fst (main_with_session w g d h)) = 1%Z /\
  collect handler_entered (snd (main_with_session w g d h)) <> [] /\
  collect nav_event (snd (main_with_session w g d h)) = [] /\
  collect success_record (snd (main_with_session w g d h)) = [].
Proof.
  rewrite main_with_session_run. cbn [fst snd]. rewrite !collect_app.
  rewrite main_body_no_navigation, main_body_success.
  assert (Hbh : silent handler_entered (main_body w g d)) by silent_script.
  assert (Hhn : forall e, silent nav_event (main_except w g (Some d) e))
    by (intro e; silent_script).
  assert (Hhs : forall e, silent success_record (main_except w g (Some d) e))
    by (intro e; silent_script).
  rewrite Hbh. destruct (main_body_fails g d h) as [e ->]. rewrite Hhn, Hhs. cbn [app].
  assert (Hhh : collect handler_entered
                  (snd (main_except w g (Some d) e (h ++ snd (main_body w g d h)))) <> []).
  { unfold main_except. rewrite bind_run, log_run. cbn [fst snd].
    rewrite collect_app. cbn. discriminate. }
  destruct (main_except_exits w g (Some d) e (h ++ snd (main_body w g d h)))
    as (e' & He' & Hst).
  destruct (respond w _ unit (Quit d)) as [[]|cls msg]; rewrite ?He'; cbn [collect];
    (split; [first [exact Hst | reflexivity]|]);
    repeat split; try reflexivity;
    (intro Hnil; apply app_eq_nil in Hnil; destruct Hnil as [Hnil _]; now apply Hhh).
Qed.

Lemma login_timeout_run :
  collect nav_event (run_trace w) = [] /\
  collect success_record (run_trace w) = [] /\
  (run_status w = 1 \/ run_status w = 2)%Z /\
  (collect login_wait (run_trace w) <> [] ->
   run_status w = 1%Z /\ collect handler_entered (run_trace w) <> []).
Proof.
  unfold run_status, run_trace. rewrite run_cases.
  pose proof (debug_pause_read_raises w) as Hexc.
  destruct (debug_pause_read w) as [z|e].
  2:{ specialize (Hexc e eq_refl). destruct e as [cls msg|code]; [|discriminate].
      cbn. repeat split; auto; congruence. }
  clear Hexc. destruct (required_present w).
  2:{ cbn. repeat split; auto; congruence. }
  rewrite main_result, main_trace. cbv zeta. rewrite !collect_app.
  unfold create_driver_with_retry.
  set (g := module_globals w z).
  set (loop := create_driver_loop w (SELENIUM_REMOTE_URL g) chrome_options
                 create_driver_default_retries create_driver_default_delay
                 (range create_driver_default_retries) []).
  pose proof (create_driver_loop_exhaustion w (SELENIUM_REMOTE_URL g)
                chrome_options create_driver_default_retries create_driver_default_delay
                (range create_driver_default_retries) []) as Hx.
  fold loop in Hx.
  assert (Hn : collect nav_event (snd loop) = []).
  { apply create_driver_loop_silent_for; try reflexivity.
    intros lvl msg args [-> | ->]; unfold nav_event;
      repeat match goal with |- context [if ?b then _ else _] => destruct b end;
      reflexivity. }
  assert (Hs : collect success_record (snd loop) = []).
  { apply create_driver_loop_silent_for; try reflexivity.
    intros lvl msg args [-> | ->]; reflexivity. }
  assert (Hw : collect login_wait (snd loop) = []).
  { apply create_driver_loop_silent_for; reflexivity. }
  rewrite Hn, Hs, Hw. cbn [app].
  destruct (fst loop) as [d|[cls msg|code]].
  - destruct (login_timeout_with_session g d (snd loop)) as (H1 & H2 & H3 & H4).
    rewrite H1, H3, H4. repeat split; auto.
    intro Hnil. apply app_eq_nil in Hnil. destruct Hnil as [_ Hnil]. now apply H2.
  - rewrite main_without_session_run. cbn. repeat split; auto; congruence.
  - destruct Hx as [-> _]. rewrite main_without_session_run. cbn.
    repeat split; auto; congruence.
Qed.

End LoginTimeout.

(** ** Diagnostics capture *)

Section Diagnostics.

Variable w : World.

(** What one diagnostics capture leaves behind. *)
Lemma save_debug_artifacts_trace g d h :
  let t := snd (save_debug_artifacts w g d h) in
  let ts := now_strftime w h "%Y%m%d-%H%M%S" in
  let png := screenshot_path_of (ERROR_ARTIFACTS_DIR g) ts in
  let html := source_path_of (ERROR_ARTIFACTS_DIR g) ts in
  collect timestamp_taken t = [ts] /\
  (exists keep_png keep_html : bool,
      collect file_created t =
      (if keep_png then [png] else []) ++ (if keep_html then [html] else [])) /\
  (collect capture_failed t = [] -> collect screenshot_refused t = [] ->
   collect file_created t = [png; html]) /\
  (collect artifact_call_failed t = [] <-> collect capture_failed t = []).
Proof.
  cbv zeta. unfold screenshot_path_of, source_path_of.
  unfold save_debug_artifacts, strftime_now, with_open, bind, try_except, try_finally,
    call, log.
  set (ts := now_strftime w h "%Y%m%d-%H%M%S").
  set (png := path_join (ERROR_ARTIFACTS_DIR g) ("error_" ++ ts ++ ".png")).
  set (html := path_join (ERROR_ARTIFACTS_DIR g) ("error_src_" ++ ts ++ ".html")).
  repeat match goal with
         | |- context [respond w ?h' ?T ?c] =>
             let r := fresh "r" in
             destruct (respond w h' T c) as [r|? ?]; try destruct r
         end;
    cbn -[path_join];
    (split; [reflexivity|]);
    (split; [first [ now exists true, true | now exists true, false
                   | now exists false, true | now exists false, false ]|]);
    (split; [intros; (reflexivity || discriminate) | split; intros; (reflexivity || discriminate)]).
Qed.

(** An observation that sees nothing of the handler but the capture. *)
Lemma main_except_capture {X} (f : event -> option X) g d e h :
  (forall msg, f (Log ERROR ("Automation failed: " ++ msg) []) = None) ->
  (forall msg, f (Log INFO msg []) = None) ->
  (forall ms, f (Sleep ms) = None) ->
  collect f (snd (main_except w g (Some d) e h)) =
  collect f (snd (save_debug_artifacts w g d
                    (h ++ [Log ERROR ("Automation failed: " ++ str e) []]))).
Proof.
  intros Herr Hinfo Hsleep.
  unfold main_except. rewrite bind_run, log_run. cbn [fst snd app collect].
  rewrite Herr. rewrite bind_run.
  set (h' := h ++ [Log ERROR ("Automation failed: " ++ str e) []]).
  set (capture := save_debug_artifacts w g d).
  assert (Hc : fst (capture h') = Ret tt) by apply save_debug_artifacts_returns.
  rewrite (bind_run capture). rewrite Hc. cbn [fst snd].
  destruct (DEBUG_PAUSE_SECONDS g >? 0)%Z; cbn [when].
  - rewrite bind_run, log_run. cbn [fst snd].
    destruct (sleep_accepts (1000 * DEBUG_PAUSE_SECONDS g)) eqn:Hs.
    + rewrite sleep_run by exact Hs. cbn [fst snd].
      unfold exit, raise. cbn [snd]. rewrite !collect_app. cbn [collect].
      rewrite Hinfo, Hsleep. now rewrite !app_nil_r.
    + rewrite sleep_refused by exact Hs. cbn [fst snd].
      rewrite !collect_app. cbn [collect]. rewrite Hinfo. now rewrite !app_nil_r.
  - unfold ret, exit, raise. cbn [fst snd]. now rewrite !app_nil_r.
Qed.

(** With a session and a body that raised: the run ends with status 1
    whatever the capture did, and an observation that sees only the capture
    sees the one capture of the handler. *)
Lemma failed_body_status g d h e :
  fst (main_body w g d h) = Raise e ->
  exit_status (fst (main_with_session w g d h)) = 1%Z.
Proof.
  intros Hb. rewrite main_with_session_run. cbn [fst]. rewrite Hb.
  destruct (main_except_exits w g (Some d) e (h ++ snd (main_body w g d h)))
    as (e' & -> & Hst).
  now destruct (respond w _ unit (Quit d)).
Qed.

Lemma failed_body_capture {X} (f : event -> option X) g d h e :
  fst (main_body w g d h) = Raise e ->
  silent f (main_body w g d) ->
  (forall q, f (Call (Quit d) q) = None) ->
  (forall msg, f (Log ERROR ("Automation failed: " ++ msg) []) = None) ->
  (forall msg, f (Log INFO msg []) = None) ->
  (forall ms, f (Sleep ms) = None) ->
  collect f (snd (main_with_session w g d h)) =
  collect f (snd (save_debug_artifacts w g d
                    ((h ++ snd (main_body w g d h))
                     ++ [Log ERROR ("Automation failed: " ++ str e) []]))).
Proof.
  intros Hb Hsilent Hquit Herr Hinfo Hsleep.
  rewrite main_with_session_run. cbn [snd]. rewrite Hb. rewrite !collect_app, Hsilent.
  rewrite (main_except_capture f g d e _ Herr Hinfo Hsleep). cbn [app collect].
  rewrite Hquit.
  destruct (respond w _ unit (Quit d)); cbn [collect]; rewrite ?Hinfo; now rewrite app_nil_r.
Qed.

(** A run that created a session and entered the handler: the body raised
    after the connection phase. *)
Lemma failure_with_session :
  collect session_created (run_trace w) <> [] ->
  collect handler_entered (run_trace w) <> [] ->
  exists z d tc e,
    let g := module_globals w z in
    run w = (fst (main_with_session w g d tc), tc ++ snd (main_with_session w g d tc)) /\
    fst (main_body w g d tc) = Raise e /\
    (forall X (f : event -> option X),
        (forall r, f (Call (Remote (SELENIUM_REMOTE_URL g) chrome_options) r) = None) ->
        (forall lvl msg args, lvl = WARNING \/ lvl = CRITICAL -> f (Log lvl msg args) = None) ->
        (forall ms, f (Sleep ms) = None) ->
        collect f tc = []).
Proof.
  unfold run_trace. rewrite run_cases.
  destruct (debug_pause_read w) as [z|e]; [|intros H; now destruct H].
  destruct (required_present w); [|intros H; now destruct H].
  rewrite main_run. cbv zeta. unfold create_driver_with_retry.
  set (g := module_globals w z).
  set (loop := create_driver_loop w (SELENIUM_REMOTE_URL g) chrome_options
                 create_driver_default_retries create_driver_default_delay
                 (range create_driver_default_retries) []).
  pose proof (create_driver_loop_sessions w (SELENIUM_REMOTE_URL g) chrome_options
                create_driver_default_retries create_driver_default_delay
                (range create_driver_default_retries) []) as Hsess.
  fold loop in Hsess.
  assert (Hl : collect handler_entered (snd loop) = []).
  { apply create_driver_loop_silent_for; try reflexivity.
    intros lvl msg args [-> | ->]; reflexivity. }
  destruct (fst loop) as [d|e] eqn:Hloop; cbn [fst snd app].
  - intros _ Hhandler.
    destruct (fst (main_body w g d (snd loop))) as [[]|e] eqn:Hbody.
    + exfalso. apply Hhandler. rewrite collect_app, Hl. cbn [app].
      destruct (main_with_session_outcome w g d (snd loop))
        as (_ & [(_ & Hh & _) | [(_ & Hst & _) | ((cls & msg & Hret) & Hfin)]]).
      * exact Hh.
      * rewrite main_with_session_run. cbn [snd]. rewrite Hbody, !collect_app. cbn [app].
        assert (Hb : silent handler_entered (main_body w g d)) by silent_script.
        rewrite Hb. now destruct (respond w _ unit (Quit d)).
      * rewrite main_with_session_run. cbn [snd]. rewrite Hbody, !collect_app. cbn [app].
        assert (Hb : silent handler_entered (main_body w g d)) by silent_script.
        rewrite Hb. now destruct (respond w _ unit (Quit d)).
    + exists z, d, (snd loop), e. cbv zeta. fold g. split; [reflexivity|]. split; [exact Hbody|].
      intros X f Hcall Hlog Hsleep. now apply create_driver_loop_silent_for.
  - intros Hs. exfalso. apply Hs. rewrite collect_app, Hsess. cbn [app].
    rewrite main_without_session_run. now destruct (except_Exception e).
Qed.

End Diagnostics.

(** ** Which calls decide the exit status *)

Lemma told_bind {X A B} (f : event -> option X) (m : M A) (k : A -> M B) :
  told_by f m -> (forall a, told_by f (k a)) -> told_by f (bind m k).
Proof.
  intros Hm Hk h. rewrite bind_run. specialize (Hm h).
  destruct (fst (m h)) as [a|e]; cbn [fst snd].
  - rewrite collect_app, Hm. apply Hk.
  - exact Hm.
Qed.

Lemma told_ret {X A} (f : event -> option X) (a : A) : told_by f (ret a).
Proof. intro h. reflexivity. Qed.

Section ExitStatus.

Variable w : World.

Lemma told_log lvl msg args : told_by hard_failure (log lvl msg args).
Proof. intro h. reflexivity. Qed.

Lemma told_call {T} (c : callE T) :
  (forall cls, tolerated c cls = false) -> told_by hard_failure (call w c).
Proof.
  intros Hc h. unfold call. cbn [fst snd].
  destruct (respond w h T c) as [v|cls msg]; cbn [collect hard_failure].
  - reflexivity.
  - rewrite Hc. discriminate.
Qed.

(** The overlay wait raises exactly when its call fails with something
    other than a time-out. *)
Lemma told_overlay d timeout :
  told_by hard_failure (wait_for_overlay_to_disappear w d timeout).
Proof.
  intro h. unfold wait_for_overlay_to_disappear, try_except, call, log.
  destruct (respond w h unit _) as [?|[] ?]; cbn; first [reflexivity | discriminate].
Qed.

(** A guarded click returns [True] exactly when none of its calls failed. *)
Lemma wait_and_click_hard d by_ value desc timeout :
  post hard_failure
    (fun r l => match r with Ret true => l = [] | _ => l <> [] end)
    (wait_and_click w d by_ value desc timeout).
Proof.
  intro h. unfold wait_and_click. sleep_constants. unfold bind, try_except, call, log, ret.
  repeat match goal with
         | |- context [respond w ?h' ?T ?c] =>
             destruct (respond w h' T c) as [?|[] ?]
         end; cbn; first [reflexivity | discriminate].
Qed.

Lemma told_login g d : told_by hard_failure (login w g d).
Proof.
  intro h. unfold login, wait_for_overlay_to_disappear, bind, try_except, call, log.
  repeat match goal with
         | |- context [respond w ?h' ?T ?c] =>
             destruct (respond w h' T c) as [?|[] ?]
         end; cbn; first [reflexivity | discriminate].
Qed.

Lemma told_navigate d items : told_by hard_failure (navigate w d items).
Proof.
  induction items as [|[i [[by_ value] desc]] items IH]; cbn [navigate]; [apply told_ret|].
  apply told_bind.
  { destruct (0 <? i)%nat; intro h; reflexivity. }
  intros _ h. rewrite bind_run.
  pose proof (wait_and_click_hard d by_ value desc wait_and_click_default_timeout h) as Hw.
  cbv beta in Hw.
  destruct (fst (wait_and_click w d by_ value desc wait_and_click_default_timeout h))
    as [[|]|e]; cbn [fst snd negb].
  - rewrite collect_app, Hw. cbn [app].
    assert (Hk : told_by hard_failure
                   (ret tt ;;;
                    when (i =? 0)%nat (wait_for_overlay_to_disappear w d overlay_default_timeout) ;;;
                    navigate w d items)).
    { apply told_bind; [apply told_ret | intros _].
      apply told_bind; [|intros _; exact IH].
      destruct (i =? 0)%nat; [apply told_overlay | apply told_ret]. }
    apply Hk.
  - unfold bind at 1, raise at 1. cbn [fst snd]. rewrite collect_app.
    intros Hnil. apply app_eq_nil in Hnil. now destruct Hnil.
  - exact Hw.
Qed.

(** The body raises exactly when one of its calls failed with something
    other than an overlay time-out. *)
Lemma told_main_body g d : told_by hard_failure (main_body w g d).
Proof.
  unfold main_body.
  apply told_bind; [apply told_log | intros _].
  apply told_bind; [now apply told_call | intros _].
  apply told_bind; [apply told_login | intros _].
  apply told_bind; [apply told_navigate | intros _].
  apply told_log.
Qed.

(** The retry loop, by how it ends: it returns after fewer refusals than
    it has attempts, none of them other than retryable; it exits, with 2,
    after as many retryable refusals as it has attempts; it raises anything
    else on a refusal that is not retryable. *)
Lemma create_driver_loop_refusals url options retries delay attempts :
  sleep_accepts (1000 * delay) = true ->
  forall h,
    let r := fst (create_driver_loop w url options retries delay attempts h) in
    let t := snd (create_driver_loop w url options retries delay attempts h) in
    match r with
    | Ret _ =>
        collect hard_failure t = [] /\
        (length (collect retryable_refusal t) < length attempts)%nat
    | Raise (SystemExit code) =>
        code = 2%Z /\ collect hard_failure t = [] /\
        length (collect retryable_refusal t) = length attempts
    | Raise (Exc _ _) =>
        collect hard_failure t <> [] /\
        (length (collect retryable_refusal t) < length attempts)%nat
    end.
Proof.
  intros Hdelay.
  induction attempts as [|a rest IH]; intro h; cbv zeta.
  - rewrite create_driver_loop_nil. cbn. repeat split.
  - rewrite create_driver_loop_step by exact Hdelay.
    destruct (respond w h _ (Remote url options)) as [d|cls msg].
    + cbn. split; [reflexivity | lia].
    + destruct (isinstance_WebDriverException cls) eqn:Hcls.
      * cbv zeta. cbn [fst snd]. unfold retry_warning.
        cbn [app collect hard_failure retryable_refusal tolerated]. rewrite Hcls.
        cbn [length].
        specialize (IH (h ++ [Call (Remote url options) (Fails cls msg);
                              Log WARNING "Selenium not ready, attempt %d/%d: %s"
                                [AInt (Z.of_nat a + 1); AInt retries; AStr (first_line msg)];
                              Sleep (1000 * delay)])).
        cbv zeta in IH.
        destruct (fst (create_driver_loop w url options retries delay rest _))
          as [d|[cls' msg'|code]].
        -- destruct IH as [Hh Hn]. split; [exact Hh | lia].
        -- destruct IH as [Hh Hn]. split; [exact Hh | lia].
        -- destruct IH as (Hc & Hh & Hn). split; [exact Hc|]. split; [exact Hh | lia].
      * cbn [fst snd collect hard_failure retryable_refusal tolerated]. rewrite Hcls.
        cbn [length]. split; [discriminate | lia].
Qed.

(** Once the session exists: [main] returns when no call failed hard, and
    then the handler is not entered; otherwise a call failed hard, the run
    ends with status 1, and either the handler was entered or [quit]
    raised. *)
Lemma main_with_session_status g d h :
  let r := fst (main_with_session w g d h) in
  let t := snd (main_with_session w g d h) in
  (r = Ret tt /\ collect hard_failure t = [] /\ collect handler_entered t = []) \/
  (exit_status r = 1%Z /\ collect hard_failure t <> [] /\
   (collect handler_entered t <> [] \/ collect quit_raised t <> [])).
Proof.
  cbv zeta. rewrite main_with_session_run. cbn [fst snd]. rewrite !collect_app.
  pose proof (told_main_body g d h) as Hb.
  assert (Hbh : silent handler_entered (main_body w g d)) by silent_script.
  assert (Hbq : silent quit_raised (main_body w g d)) by silent_script.
  rewrite Hbh, Hbq.
  destruct (fst (main_body w g d h)) as [[]|e].
  - rewrite Hb. cbn [app].
    destruct (respond w _ unit (Quit d)) as [[]|cls msg].
    + left. repeat split.
    + right. cbn. split; [reflexivity|]. split; [discriminate | right; discriminate].
  - right.
    assert (Hhh : collect handler_entered
                    (snd (main_except w g (Some d) e (h ++ snd (main_body w g d h)))) <> []).
    { unfold main_except. rewrite bind_run, log_run. cbn [fst snd].
      rewrite collect_app. cbn. discriminate. }
    destruct (main_except_exits w g (Some d) e (h ++ snd (main_body w g d h)))
      as (e' & He' & Hst).
    split; [|split].
    + destruct (respond w _ unit (Quit d)) as [[]|cls msg]; [|reflexivity].
      rewrite He'. exact Hst.
    + intros Hnil. apply app_eq_nil in Hnil. now destruct Hnil.
    + left. cbn [app]. intros Hnil. apply app_eq_nil in Hnil. now destruct Hnil.
Qed.

(** Every run, by its exit status. *)
Lemma exit_status_cases :
  let t := run_trace w in
  let limit := Z.to_nat create_driver_default_retries in
  (run_status w = 0%Z /\ required_present w = true /\
   collect session_created t <> [] /\ collect hard_failure t = [] /\
   collect handler_entered t = [] /\
   (length (collect retryable_refusal t) < limit)%nat) \/
  (run_status w = 2%Z /\ required_present w = true /\
   collect session_created t = [] /\ collect hard_failure t = [] /\
   collect handler_entered t = [] /\ collect call_beyond_connection t = [] /\
   length (collect retryable_refusal t) = limit) \/
  (run_status w = 1%Z /\
   (collect session_created t = [] \/ collect hard_failure t <> []) /\
   (length (collect retryable_refusal t) < limit)%nat /\
   (required_present w = true -> collect handler_entered t = [] ->
    (exists cls msg, debug_pause_read w = Raise (Exc cls msg)) \/
    collect quit_raised t <> [])).
Proof.
  cbv zeta. unfold run_status, run_trace. rewrite run_cases.
  pose proof (debug_pause_read_raises w) as Hexc.
  destruct (debug_pause_read w) as [z|e].
  2:{ specialize (Hexc e eq_refl). destruct e as [cls msg|code]; [|discriminate].
      right. right. cbn. split; [reflexivity|]. split; [now left|]. split; [lia|].
      intros _ _. left. now exists cls, msg. }
  clear Hexc. destruct (required_present w) eqn:Hreq.
  2:{ right. right. cbn. split; [reflexivity|]. split; [now left|]. split; [lia|].
      intros H. discriminate. }
  rewrite main_result, main_trace. cbv zeta. rewrite !collect_app.
  unfold create_driver_with_retry.
  set (g := module_globals w z).
  set (loop := create_driver_loop w (SELENIUM_REMOTE_URL g) chrome_options
                 create_driver_default_retries create_driver_default_delay
                 (range create_driver_default_retries) []).
  pose proof (create_driver_loop_refusals (SELENIUM_REMOTE_URL g) chrome_options
                create_driver_default_retries create_driver_default_delay
                (range create_driver_default_retries) eq_refl []) as Hl.
  cbv zeta in Hl. fold loop in Hl.
  unfold range in Hl. rewrite length_seq in Hl.
  pose proof (create_driver_loop_sessions w (SELENIUM_REMOTE_URL g) chrome_options
                create_driver_default_retries create_driver_default_delay
                (range create_driver_default_retries) []) as Hsess.
  fold loop in Hsess.
  assert (Hlh : collect handler_entered (snd loop) = []).
  { apply create_driver_loop_silent_for; try reflexivity.
    intros lvl msg args [-> | ->]; reflexivity. }
  assert (Hlb : collect call_beyond_connection (snd loop) = [])
    by apply create_driver_loop_silent.
  rewrite Hsess, Hlh, Hlb.
  destruct (fst loop) as [d|[cls msg|code]].
  - destruct Hl as [Hhard Hn]. rewrite Hhard. cbn [app].
    assert (Hr : silent retryable_refusal (main_with_session w g d))
      by (unfold main_with_session; silent_script).
    rewrite Hr, app_nil_r.
    destruct (main_with_session_status g d (snd loop))
      as [(-> & Hh & Hhe) | (Hst & Hh & Hcause)].
    + left. rewrite Hh, Hhe. repeat split; [discriminate | exact Hn].
    + right. right. split; [exact Hst|]. split; [now right|]. split; [exact Hn|].
      intros _ Hhe. destruct Hcause as [Hc | Hc]; [contradiction | right].
      intros Hnil. apply app_eq_nil in Hnil. now destruct Hnil.
  - destruct Hl as [Hhard Hn]. rewrite main_without_session_run.
    cbn [except_Exception fst snd].
    right. right. split; [reflexivity|]. split; [now left|].
    split; [cbn [collect retryable_refusal]; now rewrite app_nil_r|].
    intros _ Hhe. cbn in Hhe. discriminate.
  - destruct Hl as (-> & Hhard & Hn). rewrite main_without_session_run.
    cbn [except_Exception fst snd].
    right. left. rewrite Hhard. cbn [collect hard_failure retryable_refusal handler_entered
                                        call_beyond_connection session_created app].
    rewrite app_nil_r. repeat split. exact Hn.
Qed.

End ExitStatus.

(** ** The claims *)

(** C4. If any of the three required values (SELENIUM_REMOTE_URL,
    ROUTER_ADMIN_URL, ROUTER_PASSWORD) is absent or the empty string, the run
    ends with exit status 1 and its trace holds no external call: no
    session-creation attempt and no other call. *)
Theorem C4_missing_configuration (w : World) :
  (exists k,
      In k ["SELENIUM_REMOTE_URL"; "ROUTER_ADMIN_URL"; "ROUTER_PASSWORD"]%string /\
      (environ w k = None \/ environ w k = Some ""%string)) ->
  run_status w = 1%Z /\ collect external_call (run_trace w) = [].
Proof.
  intros (k & Hk & Hmissing).
  assert (Hreq : required_present w = false).
  { unfold required_present, all. cbn [forallb].
    assert (Ht : truthy (environ w k) = false) by (destruct Hmissing as [-> | ->]; reflexivity).
    cbn [In] in Hk. destruct Hk as [<- | [<- | [<- | []]]]; rewrite Ht;
      rewrite ?andb_false_r; reflexivity. }
  unfold run_status, run_trace. rewrite run_cases, Hreq.
  pose proof (debug_pause_read_raises w) as Hexc.
  destruct (debug_pause_read w) as [z|e]; [split; reflexivity|].
  specialize (Hexc e eq_refl). destruct e; [split; reflexivity | discriminate].
Qed.

(** C5. The [quit] calls of a run are exactly the sessions it created, and
    a run creates at most one session: with a session, [quit] is invoked
    exactly once, on that session, whatever path the run takes; without
    one, never. *)
Theorem C5_teardown_once (w : World) :
  collect quit_call (run_trace w) = collect session_created (run_trace w) /\
  (length (collect session_created (run_trace w)) <= 1)%nat.
Proof.
  unfold run_trace. rewrite run_cases.
  destruct (debug_pause_read w) as [z|e]; [|split; [reflexivity | cbn; lia]].
  destruct (required_present w); [|split; [reflexivity | cbn; lia]].
  rewrite main_trace. cbv zeta. rewrite !collect_app.
  unfold create_driver_with_retry.
  rewrite create_driver_loop_sessions.
  assert (Hq : silent quit_call
                 (create_driver_loop w (SELENIUM_REMOTE_URL (module_globals w z)) chrome_options
                    create_driver_default_retries create_driver_default_delay
                    (range create_driver_default_retries))).
  { apply create_driver_loop_silent_for; reflexivity. }
  rewrite Hq. cbn [app].
  destruct (fst (create_driver_loop w _ _ _ _ _ [])) as [d|e].
  - now rewrite main_with_session_quits, main_with_session_sessions.
  - rewrite main_without_session_run.
    destruct (except_Exception e); split; cbn; (reflexivity || lia).
Qed.

(** C2. The exit status of every run is 0, 1 or 2.  It is 0 exactly when a
    session was created and no call raised other than session refusals that
    were retried and overlay time-outs.  It is 2 exactly when all ten
    session-creation attempts were refused with a [WebDriverException]; the
    handler is then not entered, no session exists and nothing but session
    creation was called.  It is 1 when validation fails and whenever the
    top-level handler is entered; and a run that ends with 1 for neither
    reason ends on an exception that nothing catches: [int] rejected
    [DEBUG_PAUSE_SECONDS], or [quit] raised. *)
Theorem C2_exit_status (w : World) :
  let t := run_trace w in
  (run_status w = 0 \/ run_status w = 1 \/ run_status w = 2)%Z /\
  (run_status w = 0%Z <->
     collect session_created t <> [] /\ collect hard_failure t = []) /\
  (run_status w = 2%Z <->
     length (collect retryable_refusal t) = Z.to_nat create_driver_default_retries) /\
  (run_status w = 2%Z ->
     collect handler_entered t = [] /\ collect session_created t = [] /\
     collect call_beyond_connection t = []) /\
  (required_present w = false -> run_status w = 1%Z) /\
  (collect handler_entered t <> [] -> run_status w = 1%Z) /\
  (run_status w = 1%Z ->
     required_present w = false \/ collect handler_entered t <> [] \/
     (exists cls msg, debug_pause_read w = Raise (Exc cls msg)) \/
     collect quit_raised t <> []).
Proof.
  cbv zeta.
  destruct (exit_status_cases w)
    as [(Hst & Hreq & Hs & Hh & Hhe & Hn) |
        [(Hst & Hreq & Hs & Hh & Hhe & Hb & Hn) | (Hst & Hsh & Hn & Hcause)]];
    cbv zeta in *; rewrite Hst.
  - split; [now left|].
    split; [split; [intros _; now split | reflexivity]|].
    split; [split; [discriminate | intros H; lia]|].
    split; [discriminate|].
    split; [congruence|].
    split; [intros H; contradiction | discriminate].
  - split; [now right; right|].
    split; [split; [discriminate | intros [H _]; contradiction]|].
    split; [split; [intros _; exact Hn | reflexivity]|].
    split; [intros _; now repeat split|].
    split; [congruence|].
    split; [intros H; contradiction | discriminate].
  - split; [now right; left|].
    split; [split; [discriminate | intros [H1 H2]; destruct Hsh; contradiction]|].
    split; [split; [discriminate | intros H; lia]|].
    split; [discriminate|].
    split; [reflexivity|].
    split; [reflexivity|].
    intros _. destruct (required_present w); [|now left].
    destruct (collect handler_entered (run_trace w)) as [|x l] eqn:Hhe.
    + right. right. now apply Hcause.
    + right. left. discriminate.
Qed.

(** C3. With a valid configuration: if session creation fails with a
    [WebDriverException] [n] times ([n] below the retry limit) and then
    succeeds, the trace splits into a connection part with exactly [n + 1]
    session-creation attempts and nothing else external, and a rest that
    opens with the page load on the new session and holds no further
    attempt; if every attempt fails with a [WebDriverException], the run
    makes as many attempts as the limit, exits with status 2 and makes no
    other external call; a failure of any other class is not retried: the
    attempt it ends is the last, the run exits with status 1 and makes no
    other external call. *)
Theorem C3_connection_attempts (w : World) :
  required_present w = true ->
  (exists z, debug_pause_read w = Ret z) ->
  let url := environ w "SELENIUM_REMOTE_URL" in
  (forall n : nat,
      (n < Z.to_nat create_driver_default_retries)%nat ->
      (forall h, (remote_count h < n)%nat -> remote_fails_at w url chrome_options h) ->
      (forall h, remote_count h = n ->
                 exists d, respond w h _ (Remote url chrome_options) = Ok d) ->
      exists d connection rest,
        run_trace w = connection ++ rest /\
        remote_count connection = S n /\
        collect call_beyond_connection connection = [] /\
        collect session_created connection = [d] /\
        remote_count rest = 0%nat /\
        exists r rest',
          rest = Log INFO "Opening router admin page: %s" [arg_of_opt (environ w "ROUTER_ADMIN_URL")]
                 :: Call (Get d (environ w "ROUTER_ADMIN_URL")) r :: rest') /\
  ((forall h, remote_fails_at w url chrome_options h) ->
   run_status w = 2%Z /\
   remote_count (run_trace w) = Z.to_nat create_driver_default_retries /\
   collect call_beyond_connection (run_trace w) = []) /\
  (forall (n : nat) cls msg,
      (n < Z.to_nat create_driver_default_retries)%nat ->
      (forall h, (remote_count h < n)%nat -> remote_fails_at w url chrome_options h) ->
      (forall h, remote_count h = n ->
                 respond w h _ (Remote url chrome_options) = Fails cls msg) ->
      isinstance_WebDriverException cls = false ->
      run_status w = 1%Z /\
      remote_count (run_trace w) = S n /\
      collect call_beyond_connection (run_trace w) = []).
Proof.
  intros Hreq [z Hz] url. unfold run_status, run_trace. rewrite run_cases, Hz, Hreq.
  rewrite main_result, main_trace. cbv zeta.
  unfold create_driver_with_retry. cbn [SELENIUM_REMOTE_URL module_globals]. fold url.
  set (loop := create_driver_loop w url chrome_options create_driver_default_retries
                 create_driver_default_delay (range create_driver_default_retries) []).
  assert (Hsilent : collect call_beyond_connection (snd loop) = [])
    by apply create_driver_loop_silent.
  split; [|split].
  - intros n Hn Hfail Hok.
    destruct (create_driver_loop_retry w url chrome_options create_driver_default_retries
                create_driver_default_delay eq_refl n (range create_driver_default_retries) [])
      as (d & Hr & Hcount & Hsess).
    + unfold range. now rewrite length_seq.
    + exact Hfail.
    + exact Hok.
    + fold loop in Hr, Hcount, Hsess. rewrite Hr. cbn [app].
      exists d, (snd loop), (snd (main_with_session w (module_globals w z) d (snd loop))).
      repeat split; auto.
      * assert (Hs : silent remote_attempt (main_with_session w (module_globals w z) d))
          by (unfold main_with_session; silent_script).
        unfold remote_count. now rewrite Hs.
      * rewrite main_with_session_run. cbn [snd].
        destruct (main_body_opens w (module_globals w z) d (snd loop)) as (r & rest' & ->).
        cbn [app ROUTER_ADMIN_URL module_globals]. eauto.
  - intros Hfail.
    destruct (create_driver_loop_exhausted w url chrome_options create_driver_default_retries
                create_driver_default_delay eq_refl (range create_driver_default_retries) Hfail [])
      as (Hr & Hcount & _).
    fold loop in Hr, Hcount. rewrite Hr, main_without_session_run. cbn [except_Exception fst snd].
    split; [reflexivity|]. unfold remote_count in *. rewrite !collect_app, Hsilent, length_app, Hcount.
    split; reflexivity.
  - intros n cls msg Hn Hfail Hcrash Hcls.
    destruct (create_driver_loop_crash w url chrome_options create_driver_default_retries
                create_driver_default_delay eq_refl n cls msg Hcls
                (range create_driver_default_retries) [])
      as (Hr & Hcount).
    + unfold range. now rewrite length_seq.
    + exact Hfail.
    + exact Hcrash.
    + fold loop in Hr, Hcount.
      rewrite Hr, main_without_session_run. cbn [except_Exception fst snd].
      split; [reflexivity|]. unfold remote_count in *.
      rewrite !collect_app, Hsilent, length_app, Hcount.
      split; [cbn; lia | reflexivity].
Qed.

(** C1. The navigation records of any run follow the five steps in their
    fixed order: the attempted locators are an initial segment of the
    steps' locators; a step followed by a later attempt was clicked; and a
    failure record for step [k] means the attempts end with step [k]. *)
Theorem C1_navigation_order (w : World) :
  let obs := collect nav_event (run_trace w) in
  (exists n, (n <= 5)%nat /\ attempts_of obs = firstn n (map step_locator steps)) /\
  (forall k s,
      nth_error steps k = Some s ->
      (S k < length (attempts_of obs))%nat ->
      In (Clicked (step_desc s)) obs) /\
  (forall k s,
      nth_error steps k = Some s ->
      In (NotClicked (step_desc s)) obs ->
      attempts_of obs = firstn (S k) (map step_locator steps)).
Proof.
  cbv zeta. pose proof (run_nav_shape w) as Hshape.
  split; [|split].
  - exact (nav_shape_attempts _ _ Hshape).
  - exact (nav_shape_clicked_before _ _ Hshape).
  - apply (nav_shape_failed_stops _ _ Hshape).
    cbn. repeat constructor; cbn; intuition discriminate.
Qed.

(** C8. The guarded click, called with a locator, a description and a
    time-out (10 seconds by default): when the wait yields the element and
    the scroll and the click go through, it has waited for the element to be
    clickable with that time-out, scrolled it to the centre of the viewport,
    slept half a second, clicked, and returns [True]; when the wait times
    out it returns [False] to its caller, having logged the error, and
    raises nothing. *)
Theorem C8_guarded_click (w : World) (driver : WebDriver) (by_ : By) (value desc : string)
    (timeout : Z) (h : trace) :
  let waiting := Log INFO "Waiting for %s..." [AStr desc] in
  let wait := Until driver timeout (element_to_be_clickable (by_, value)) in
  wait_and_click_default_timeout = 10%Z /\
  (forall element,
      let scroll := ExecuteScript driver "arguments[0].scrollIntoView({block: 'center'});" element in
      respond w (h ++ [waiting]) _ wait = Ok element ->
      respond w (h ++ [waiting; Call wait (Ok element)]) _ scroll = Ok tt ->
      respond w (h ++ [waiting; Call wait (Ok element); Call scroll (Ok tt); Sleep 500]) _
        (Click element) = Ok tt ->
      wait_and_click w driver by_ value desc timeout h =
      (Ret true,
       [waiting; Call wait (Ok element); Call scroll (Ok tt); Sleep 500;
        Call (Click element) (Ok tt); Log INFO "Successfully clicked %s." [AStr desc]])) /\
  (forall msg,
      respond w (h ++ [waiting]) _ wait = Fails TimeoutException msg ->
      wait_and_click w driver by_ value desc timeout h =
      (Ret false,
       [waiting; Call wait (Fails TimeoutException msg);
        Log ERROR "Error finding or clicking %s: %s" [AStr desc; AStr msg]])).
Proof.
  cbv zeta. split; [reflexivity|]. split.
  - intros element Hwait Hscroll Hclick.
    unfold wait_and_click. sleep_constants. unfold bind, try_except, call, log, ret. cbn [app].
    rewrite Hwait. cbn [app]. rewrite <- ?app_assoc. cbn [app].
    unfold scroll_script. rewrite Hscroll. cbn [app]. rewrite <- ?app_assoc. cbn [app].
    rewrite Hclick. reflexivity.
  - intros msg Hwait.
    unfold wait_and_click. sleep_constants. unfold bind, try_except, call, log, ret. cbn [app].
    rewrite Hwait. reflexivity.
Qed.

(** C9, first half: a time-out of the overlay wait is logged as a warning
    and the wait returns.  Second half below, on whole runs. *)
Lemma overlay_timeout_returns (w : World) d timeout h msg :
  let wait := UntilNot d timeout (presence_of_element_located overlay_locator) in
  respond w h _ wait = Fails TimeoutException msg ->
  wait_for_overlay_to_disappear w d timeout h =
  (Ret tt,
   [Call wait (Fails TimeoutException msg);
    Log WARNING "Overlay may still be visible after %ds, proceeding..." [AInt timeout]]).
Proof.
  cbv zeta. intros Hwait.
  unfold wait_for_overlay_to_disappear, try_except, call, log. now rewrite Hwait.
Qed.

(** C9. When the overlay wait times out it logs a warning and returns, so
    execution proceeds; and a run in which the overlay waits return or time
    out, while every other call returns, ends with status 0 and never enters
    the failure handler: an overlay that stays is not by itself a failure. *)
Theorem C9_overlay_wait_not_fatal (w : World) :
  (forall d timeout h msg,
      let wait := UntilNot d timeout (presence_of_element_located overlay_locator) in
      respond w h _ wait = Fails TimeoutException msg ->
      wait_for_overlay_to_disappear w d timeout h =
      (Ret tt,
       [Call wait (Fails TimeoutException msg);
        Log WARNING "Overlay may still be visible after %ds, proceeding..." [AInt timeout]])) /\
  (required_present w = true ->
   (exists z, debug_pause_read w = Ret z) ->
   (forall h T (c : callE T), is_until_not c = false -> exists v, respond w h T c = Ok v) ->
   (forall h d timeout,
       let wait := UntilNot d timeout (presence_of_element_located overlay_locator) in
       respond w h _ wait = Ok tt \/
       exists msg, respond w h _ wait = Fails TimeoutException msg) ->
   run_status w = 0%Z /\ collect handler_entered (run_trace w) = []).
Proof.
  split.
  - intros d timeout h msg. apply overlay_timeout_returns.
  - intros Hreq Hz Hothers Hoverlay. now apply overlay_only_run.
Qed.

(** C7. If the wait for the password field to become invisible always
    times out, the run makes no navigation attempt and writes no success
    record, and its status is 1 or 2; once that wait has been issued
    (credentials were submitted), the run enters the failure handler and
    ends with status 1. *)
Theorem C7_login_timeout (w : World) :
  (forall h d timeout,
      exists msg,
        respond w h _ (Until d timeout (invisibility_of_element_located password_locator))
        = Fails TimeoutException msg) ->
  collect nav_event (run_trace w) = [] /\
  collect success_record (run_trace w) = [] /\
  (run_status w = 1 \/ run_status w = 2)%Z /\
  (collect login_wait (run_trace w) <> [] ->
   run_status w = 1%Z /\ collect handler_entered (run_trace w) <> []).
Proof.
  intros Hnever. now apply login_timeout_run.
Qed.

(** C6, as the code has it.  When the handler runs with a session, the run
    takes one timestamp; the files it creates are among the screenshot
    [error_<ts>.png] and the markup [error_src_<ts>.html] of the artifacts
    directory, each at most once and in that order; they are exactly these
    two when no capture failure is logged and the screenshot was not
    refused; an artifact operation that raises is caught and logged; and
    the exit status is 1 whatever the capture did. *)
Theorem C6_diagnostics_best_effort (w : World) :
  collect session_created (run_trace w) <> [] ->
  collect handler_entered (run_trace w) <> [] ->
  run_status w = 1%Z /\
  exists ts,
    let png := screenshot_path_of (artifacts_dir w) ts in
    let html := source_path_of (artifacts_dir w) ts in
    collect timestamp_taken (run_trace w) = [ts] /\
    (exists keep_png keep_html : bool,
        collect file_created (run_trace w) =
        (if keep_png then [png] else []) ++ (if keep_html then [html] else [])) /\
    (collect capture_failed (run_trace w) = [] ->
     collect screenshot_refused (run_trace w) = [] ->
     collect file_created (run_trace w) = [png; html]) /\
    (collect artifact_call_failed (run_trace w) = [] <->
     collect capture_failed (run_trace w) = []).
Proof.
  intros Hsession Hhandler.
  destruct (failure_with_session w Hsession Hhandler) as (z & d & tc & e & Hrun & Hbody & Htc).
  cbv zeta in Hrun, Hbody, Htc.
  set (g := module_globals w z) in *.
  unfold run_status, run_trace. rewrite Hrun. cbn [fst snd].
  split; [now apply (failed_body_status w g d tc e)|].
  destruct (save_debug_artifacts_trace w g d
              ((tc ++ snd (main_body w g d tc))
               ++ [Log ERROR ("Automation failed: " ++ str e) []]))
    as (Hts & Hfiles & Hboth & Hlogged).
  cbv zeta in Hts, Hfiles, Hboth, Hlogged.
  change (ERROR_ARTIFACTS_DIR g) with (artifacts_dir w) in *.
  assert (Ets : collect timestamp_taken (tc ++ snd (main_with_session w g d tc)) =
                collect timestamp_taken
                  (snd (save_debug_artifacts w g d
                          ((tc ++ snd (main_body w g d tc))
                           ++ [Log ERROR ("Automation failed: " ++ str e) []])))).
  { rewrite collect_app, Htc by (intros; reflexivity).
    apply (failed_body_capture w timestamp_taken g d tc e Hbody);
      try (intros; reflexivity). silent_script. }
  assert (Efiles : collect file_created (tc ++ snd (main_with_session w g d tc)) =
                   collect file_created
                     (snd (save_debug_artifacts w g d
                             ((tc ++ snd (main_body w g d tc))
                              ++ [Log ERROR ("Automation failed: " ++ str e) []])))).
  { rewrite collect_app, Htc by (intros; reflexivity).
    apply (failed_body_capture w file_created g d tc e Hbody);
      try (intros; reflexivity). silent_script. }
  assert (Efailed : collect capture_failed (tc ++ snd (main_with_session w g d tc)) =
                    collect capture_failed
                      (snd (save_debug_artifacts w g d
                              ((tc ++ snd (main_body w g d tc))
                               ++ [Log ERROR ("Automation failed: " ++ str e) []])))).
  { rewrite collect_app, Htc
      by (try (intros; reflexivity); intros lvl msg args [-> | ->]; reflexivity).
    apply (failed_body_capture w capture_failed g d tc e Hbody);
      try (intros; reflexivity). silent_script. }
  assert (Erefused : collect screenshot_refused (tc ++ snd (main_with_session w g d tc)) =
                     collect screenshot_refused
                       (snd (save_debug_artifacts w g d
                               ((tc ++ snd (main_body w g d tc))
                                ++ [Log ERROR ("Automation failed: " ++ str e) []])))).
  { rewrite collect_app, Htc by (intros; reflexivity).
    apply (failed_body_capture w screenshot_refused g d tc e Hbody);
      try (intros; reflexivity). silent_script. }
  assert (Ecalls : collect artifact_call_failed (tc ++ snd (main_with_session w g d tc)) =
                   collect artifact_call_failed
                     (snd (save_debug_artifacts w g d
                             ((tc ++ snd (main_body w g d tc))
                              ++ [Log ERROR ("Automation failed: " ++ str e) []])))).
  { rewrite collect_app, Htc by (intros; reflexivity).
    apply (failed_body_capture w artifact_call_failed g d tc e Hbody);
      try (intros; reflexivity). silent_script. }
  rewrite Ets, Efiles, Efailed, Erefused, Ecalls.
  eexists. split; [exact Hts|]. split; [exact Hfiles|]. split; [exact Hboth | exact Hlogged].
Qed.

(** C10. The guarded click turns exactly two exception classes, the wait
    time-out and the invalid selector, into a [False] return.  An exception
    of another class raised by the wait, by the scroll script or by the
    click leaves the guarded click as an exception, with no failure record.
    There is a run (the third step's click is intercepted) that ends in the
    handler with status 1 whose failure record carries the text of that
    exception and not the step's description. *)
Theorem C10_unhandled_click_errors :
  (forall cls msg,
      except_Timeout_InvalidSelector (Exc cls msg) = true <->
      cls = TimeoutException \/ cls = InvalidSelectorException) /\
  (forall (w : World) (driver : WebDriver) (by_ : By) (value desc : string)
          (timeout : Z) (h : trace),
      let waiting := Log INFO "Waiting for %s..." [AStr desc] in
      let wait := Until driver timeout (element_to_be_clickable (by_, value)) in
      (forall cls msg,
          respond w (h ++ [waiting]) _ wait = Fails cls msg ->
          fst (wait_and_click w driver by_ value desc timeout h) =
          if except_Timeout_InvalidSelector (Exc cls msg)
          then Ret false else Raise (Exc cls msg)) /\
      (forall element cls msg,
          let scroll := ExecuteScript driver scroll_script element in
          respond w (h ++ [waiting]) _ wait = Ok element ->
          respond w (h ++ [waiting; Call wait (Ok element)]) _ scroll = Fails cls msg ->
          except_Timeout_InvalidSelector (Exc cls msg) = false ->
          wait_and_click w driver by_ value desc timeout h =
          (Raise (Exc cls msg),
           [waiting; Call wait (Ok element); Call scroll (Fails cls msg)])) /\
      (forall element cls msg,
          let scroll := ExecuteScript driver scroll_script element in
          respond w (h ++ [waiting]) _ wait = Ok element ->
          respond w (h ++ [waiting; Call wait (Ok element)]) _ scroll = Ok tt ->
          respond w (h ++ [waiting; Call wait (Ok element); Call scroll (Ok tt); Sleep 500]) _
            (Click element) = Fails cls msg ->
          except_Timeout_InvalidSelector (Exc cls msg) = false ->
          wait_and_click w driver by_ value desc timeout h =
          (Raise (Exc cls msg),
           [waiting; Call wait (Ok element); Call scroll (Ok tt); Sleep 500;
            Call (Click element) (Fails cls msg)]))) /\
  (exists w : World,
      let obs := collect nav_event (run_trace w) in
      run_status w = 1%Z /\
      attempts_of obs = firstn 3 (map step_locator steps) /\
      ~ In (Clicked "Reboot button") obs /\
      ~ In (NotClicked "Reboot button") obs /\
      collect handler_entered (run_trace w) = ["Message: element click intercepted"%string]).
Proof.
  split; [|split].
  - intros cls msg. destruct cls; cbn; split; intros H;
      try discriminate; auto; destruct H as [H | H]; discriminate.
  - intros w driver by_ value desc timeout h. cbv zeta. split; [|split].
    + intros cls msg Hwait.
      unfold wait_and_click. sleep_constants. unfold bind, try_except, call, log, ret. cbn [app].
      rewrite Hwait. now destruct cls.
    + intros element cls msg Hwait Hscroll Hclass.
      unfold wait_and_click. sleep_constants. unfold bind, try_except, call, log, ret. cbn [app].
      rewrite Hwait. cbn [app]. rewrite <- ?app_assoc. cbn [app].
      rewrite Hscroll. cbn [app]. now rewrite Hclass.
    + intros element cls msg Hwait Hscroll Hclick Hclass.
      unfold wait_and_click. sleep_constants. unfold bind, try_except, call, log, ret. cbn [app].
      rewrite Hwait. cbn [app]. rewrite <- ?app_assoc. cbn [app].
      rewrite Hscroll. cbn [app]. rewrite <- ?app_assoc. cbn [app].
      rewrite Hclick. cbn [app]. now rewrite Hclass.
  - exists click_intercepted. cbv zeta.
    assert (E : collect nav_event (run_trace click_intercepted) =
                [Attempt (XPATH, "//div[@id='nav']//a[contains(text(), 'Advanced')]"%string);
                 Clicked "Advanced navbar item";
                 Attempt (XPATH,
                   "//div[contains(@class, 'cpe-set-nav')]//li[.//span[text()='System settings']]"%string);
                 Clicked "System settings menu";
                 Attempt (ID, "btnReboot"%string)]) by (vm_compute; reflexivity).
    rewrite E. split; [vm_compute; reflexivity|]. split; [reflexivity|].
    split; [cbn; intuition discriminate|]. split; [cbn; intuition discriminate|].
    vm_compute. reflexivity.
Qed.

(** ** The claims at concrete worlds *)

(** The two end-to-end scenarios: everything answers, and the run logs the
    success record and ends with status 0; the third step never becomes
    clickable, and the run logs a failure that names it, writes both
    artifacts and ends with status 1. *)
Example end_to_end_success :
  run_status happy = 0%Z /\
  collect success_record (run_trace happy) = [tt] /\
  attempts_of (collect nav_event (run_trace happy)) = map step_locator steps /\
  collect quit_call (run_trace happy) = [Session 1].
Proof. vm_compute. repeat split. Qed.

Example end_to_end_reboot_button_missing :
  run_status reboot_button_missing = 1%Z /\
  collect handler_entered (run_trace reboot_button_missing)
  = ["Failed at step: Reboot button"%string] /\
  collect file_created (run_trace reboot_button_missing)
  = ["/app/errors/error_20240101-120000.png"%string;
     "/app/errors/error_src_20240101-120000.html"%string] /\
  collect quit_call (run_trace reboot_button_missing) = [Session 1].
Proof. vm_compute. repeat split. Qed.

(** C6 as the specification words it fails when the artifacts directory
    cannot be created: the handler runs with a session and no file is
    written. *)
Lemma C6_counterexample : ~ diagnostics_pair_written makedirs_denied.
Proof.
  intros H. destruct H as [ts Hts].
  - vm_compute. discriminate.
  - vm_compute. discriminate.
  - assert (E : collect file_created (run_trace makedirs_denied) = [])
      by (vm_compute; reflexivity).
    rewrite E in Hts. discriminate.
Qed.

(** In that run the status is still 1 and the capture failure is logged. *)
Lemma makedirs_denied_run :
  run_status makedirs_denied = 1%Z /\
  collect capture_failed (run_trace makedirs_denied)
  = ["[Errno 13] Permission denied: '/app/errors'"%string] /\
  collect quit_call (run_trace makedirs_denied) = [Session 1].
Proof. vm_compute. repeat split. Qed.

Lemma C1_witness :
  In (NotClicked "Reboot button") (collect nav_event (run_trace reboot_button_missing)) /\
  attempts_of (collect nav_event (run_trace reboot_button_missing))
  = firstn 3 (map step_locator steps).
Proof.
  assert (H : In (NotClicked "Reboot button")
                (collect nav_event (run_trace reboot_button_missing))).
  { vm_compute. do 5 right. left. reflexivity. }
  split; [exact H|].
  exact (proj2 (proj2 (C1_navigation_order reboot_button_missing))
           2%nat (ID, "btnReboot", "Reboot button")%string eq_refl H).
Defined.

Lemma C3_witness :
  required_present (flaky 2) = true /\
  (exists z, debug_pause_read (flaky 2) = Ret z) /\
  (exists d connection rest,
      run_trace (flaky 2) = connection ++ rest /\
      remote_count connection = 3%nat /\
      collect call_beyond_connection connection = [] /\
      collect session_created connection = [d] /\
      remote_count rest = 0%nat /\
      exists r rest',
        rest = Log INFO "Opening router admin page: %s"
                 [arg_of_opt (environ (flaky 2) "ROUTER_ADMIN_URL")]
               :: Call (Get d (environ (flaky 2) "ROUTER_ADMIN_URL")) r :: rest') /\
  required_present always_down = true /\
  (exists z, debug_pause_read always_down = Ret z) /\
  (run_status always_down = 2%Z /\
   remote_count (run_trace always_down) = 10%nat /\
   collect call_beyond_connection (run_trace always_down) = []) /\
  required_present unreachable_once = true /\
  (exists z, debug_pause_read unreachable_once = Ret z) /\
  isinstance_WebDriverException OtherException = false /\
  run_status unreachable_once = 1%Z /\
  remote_count (run_trace unreachable_once) = 1%nat /\
  collect call_beyond_connection (run_trace unreachable_once) = [].
Proof.
  assert (Hreq : required_present (flaky 2) = true) by reflexivity.
  assert (Hz : exists z, debug_pause_read (flaky 2) = Ret z) by (exists 0%Z; reflexivity).
  assert (Hreq' : required_present always_down = true) by reflexivity.
  assert (Hz' : exists z, debug_pause_read always_down = Ret z) by (exists 0%Z; reflexivity).
  split; [exact Hreq|]. split; [exact Hz|]. split.
  - apply (proj1 (C3_connection_attempts (flaky 2) Hreq Hz) 2%nat).
    + vm_compute. lia.
    + intros h Hh. exists WebDriverException, "Message: connection refused"%string.
      split; [reflexivity|].
      unfold flaky, world_of, failing. cbn [respond environ env_ok is_remote andb].
      apply Nat.ltb_lt in Hh. now rewrite Hh.
    + intros h Hh. exists (Session 1).
      unfold flaky, world_of, failing. cbn [respond environ env_ok is_remote andb].
      rewrite Hh. reflexivity.
  - assert (Hreq'' : required_present unreachable_once = true) by reflexivity.
    assert (Hz'' : exists z, debug_pause_read unreachable_once = Ret z)
      by (exists 0%Z; reflexivity).
    split; [exact Hreq'|]. split; [exact Hz'|]. split.
    + apply (proj1 (proj2 (C3_connection_attempts always_down Hreq' Hz'))).
      intros h. exists WebDriverException, "Message: connection refused"%string.
      split; reflexivity.
    + split; [exact Hreq''|]. split; [exact Hz''|]. split; [reflexivity|].
      apply (proj2 (proj2 (C3_connection_attempts unreachable_once Hreq'' Hz''))
               0%nat OtherException
               "HTTPConnectionPool(host='selenium', port=4444): Max retries exceeded"%string).
      * vm_compute. lia.
      * intros h Hh. lia.
      * intros h Hh.
        unfold unreachable_once, world_of, failing. cbn [respond environ env_ok is_remote andb].
        rewrite Hh. reflexivity.
      * reflexivity.
Defined.

(** The connection claim as the specification words it fails when the
    failure is not a [WebDriverException].  In [creation_crashes] every
    attempt fails, yet the run exits with status 1, not 2; in
    [unreachable_once] the first attempt fails and the second would
    succeed, yet the run makes one attempt, not two. *)
Lemma C3_counterexample :
  ~ connection_attempts_as_specified creation_crashes /\
  ~ connection_attempts_as_specified unreachable_once.
Proof.
  split; intros [Hretry Hexhaust].
  - destruct Hexhaust as [Hst _].
    + intros h. eexists _, _. reflexivity.
    + vm_compute in Hst. discriminate.
  - specialize (Hretry 1%nat).
    assert (Hcount : remote_count (run_trace unreachable_once) = 2%nat).
    { apply Hretry.
      - vm_compute. lia.
      - intros h Hh. eexists _, _.
        unfold unreachable_once, world_of, failing. cbn [respond environ env_ok is_remote andb].
        apply Nat.ltb_lt in Hh. rewrite Hh. reflexivity.
      - intros h Hh. exists (Session 1).
        unfold unreachable_once, world_of, failing. cbn [respond environ env_ok is_remote andb].
        rewrite Hh. reflexivity. }
    vm_compute in Hcount. discriminate.
Qed.

(** The exit-status claim as the specification words it fails when an
    exception escapes.  In [quit_fails] every step is clicked and the
    success record written, the configuration is valid, the handler is not
    entered and no session-creation attempt is refused, yet the exit
    status is 1: the run is in none of the three cases. *)
Lemma C2_counterexample :
  collect nav_event (run_trace quit_fails) = all_clicked steps /\
  collect success_record (run_trace quit_fails) = [tt] /\
  required_present quit_fails = true /\
  collect handler_entered (run_trace quit_fails) = [] /\
  collect retryable_refusal (run_trace quit_fails) = [] /\
  run_status quit_fails = 1%Z /\
  ~ exit_status_as_specified quit_fails.
Proof.
  do 6 (split; [vm_compute; reflexivity|]).
  intros [[H _] | [[_ [H | H]] | [H _]]].
  - vm_compute in H. discriminate.
  - vm_compute in H. discriminate.
  - apply H. vm_compute. reflexivity.
  - vm_compute in H. discriminate.
Qed.

(** The amended claim at two runs: everything answers (status 0); every
    session request is refused with a [WebDriverException] (status 2, the
    handler not entered). *)
Lemma C2_witness :
  (collect session_created (run_trace happy) <> [] /\
   collect hard_failure (run_trace happy) = []) /\
  run_status happy = 0%Z /\
  length (collect retryable_refusal (run_trace always_down)) = 10%nat /\
  run_status always_down = 2%Z /\
  collect handler_entered (run_trace always_down) = [].
Proof.
  assert (Hhappy : collect session_created (run_trace happy) <> [] /\
                   collect hard_failure (run_trace happy) = [])
    by (split; vm_compute; [discriminate | reflexivity]).
  assert (Hdown : length (collect retryable_refusal (run_trace always_down)) = 10%nat)
    by (vm_compute; reflexivity).
  assert (Hst : run_status always_down = 2%Z)
    by exact (proj2 (proj1 (proj2 (proj2 (C2_exit_status always_down)))) Hdown).
  split; [exact Hhappy|].
  split; [exact (proj2 (proj1 (proj2 (C2_exit_status happy))) Hhappy)|].
  split; [exact Hdown|].
  split; [exact Hst|].
  exact (proj1 (proj1 (proj2 (proj2 (proj2 (C2_exit_status always_down)))) Hst)).
Defined.

Lemma C4_witness :
  (exists k,
      In k ["SELENIUM_REMOTE_URL"; "ROUTER_ADMIN_URL"; "ROUTER_PASSWORD"]%string /\
      (environ missing_password k = None \/ environ missing_password k = Some ""%string)) /\
  run_status missing_password = 1%Z /\
  collect external_call (run_trace missing_password) = [].
Proof.
  assert (H : exists k,
             In k ["SELENIUM_REMOTE_URL"; "ROUTER_ADMIN_URL"; "ROUTER_PASSWORD"]%string /\
             (environ missing_password k = None \/
              environ missing_password k = Some ""%string)).
  { exists "ROUTER_PASSWORD"%string. split; [cbn; auto | left; reflexivity]. }
  split; [exact H|]. exact (C4_missing_configuration missing_password H).
Defined.

Lemma C6_witness :
  collect session_created (run_trace login_stuck) <> [] /\
  collect handler_entered (run_trace login_stuck) <> [] /\
  run_status login_stuck = 1%Z.
Proof.
  assert (H1 : collect session_created (run_trace login_stuck) <> [])
    by (vm_compute; discriminate).
  assert (H2 : collect handler_entered (run_trace login_stuck) <> [])
    by (vm_compute; discriminate).
  split; [exact H1|]. split; [exact H2|].
  exact (proj1 (C6_diagnostics_best_effort login_stuck H1 H2)).
Defined.

Lemma C7_witness :
  (forall h d timeout,
      exists msg,
        respond login_stuck h _
          (Until d timeout (invisibility_of_element_located password_locator))
        = Fails TimeoutException msg) /\
  collect nav_event (run_trace login_stuck) = [] /\
  collect login_wait (run_trace login_stuck) <> [] /\
  run_status login_stuck = 1%Z.
Proof.
  assert (H : forall h d timeout,
             exists msg,
               respond login_stuck h _
                 (Until d timeout (invisibility_of_element_located password_locator))
               = Fails TimeoutException msg).
  { intros h d timeout. exists "Message: "%string. reflexivity. }
  assert (Hw : collect login_wait (run_trace login_stuck) <> [])
    by (vm_compute; discriminate).
  split; [exact H|]. split; [exact (proj1 (C7_login_timeout login_stuck H))|].
  split; [exact Hw|].
  exact (proj1 (proj2 (proj2 (proj2 (C7_login_timeout login_stuck H))) Hw)).
Defined.

Lemma C8_witness :
  let waiting := Log INFO "Waiting for %s..." [AStr "Reboot button"] in
  let wait := Until (Session 1) 10 (element_to_be_clickable (ID, "btnReboot"%string)) in
  wait_and_click reboot_button_missing (Session 1) ID "btnReboot" "Reboot button" 10 [] =
  (Ret false,
   [waiting; Call wait (Fails TimeoutException "Message: ");
    Log ERROR "Error finding or clicking %s: %s" [AStr "Reboot button"; AStr "Message: "]]).
Proof.
  exact (proj2 (proj2 (C8_guarded_click reboot_button_missing (Session 1) ID
                         "btnReboot" "Reboot button" 10 []))
           "Message: "%string eq_refl).
Defined.

Lemma C9_witness :
  required_present overlay_stuck = true /\
  (exists z, debug_pause_read overlay_stuck = Ret z) /\
  run_status overlay_stuck = 0%Z /\
  collect handler_entered (run_trace overlay_stuck) = [].
Proof.
  assert (Hreq : required_present overlay_stuck = true) by reflexivity.
  assert (Hz : exists z, debug_pause_read overlay_stuck = Ret z) by (exists 0%Z; reflexivity).
  split; [exact Hreq|]. split; [exact Hz|].
  apply (proj2 (C9_overlay_wait_not_fatal overlay_stuck) Hreq Hz).
  - intros h T c Hc. cbn. unfold failing. rewrite Hc.
    destruct c; try (eexists; reflexivity); try discriminate.
    destruct c; eexists; reflexivity.
  - intros h d timeout. right. exists "Message: "%string. reflexivity.
Defined.

(** ** Further properties of the script *)

(** The four ways a run goes: reading [DEBUG_PAUSE_SECONDS] raises;
    validation fails; the connection phase raises; the connection phase
    returns a session. *)
Lemma run_paths (w : World) :
  (exists cls msg,
      debug_pause_read w = Raise (Exc cls msg) /\
      run w = (Raise (Exc cls msg), [])) \/
  ((exists z, debug_pause_read w = Ret z) /\
   required_present w = false /\
   run w = (Raise (SystemExit 1), [Log CRITICAL validation_message []])) \/
  (exists z e tc,
      debug_pause_read w = Ret z /\ required_present w = true /\
      connection w = (Raise e, tc) /\
      run w =
      if except_Exception e
      then (Raise (SystemExit 1),
            tc ++ [Log ERROR ("Automation failed: " ++ str e) [];
                   Log INFO "Automation finished." []])
      else (Raise e, tc ++ [Log INFO "Automation finished." []])) \/
  (exists z d tc,
      debug_pause_read w = Ret z /\ required_present w = true /\
      connection w = (Ret d, tc) /\
      run w = (fst (main_with_session w (module_globals w z) d tc),
               tc ++ snd (main_with_session w (module_globals w z) d tc))).
Proof.
  rewrite run_cases.
  pose proof (debug_pause_read_raises w) as Hexc.
  destruct (debug_pause_read w) as [z|e].
  2:{ left. specialize (Hexc e eq_refl). destruct e as [cls msg|code]; [|discriminate].
      now exists cls, msg. }
  clear Hexc. right. destruct (required_present w).
  2:{ left. split; [now exists z|]. split; reflexivity. }
  right. rewrite main_run. cbv zeta.
  change (create_driver_with_retry w (SELENIUM_REMOTE_URL (module_globals w z)) chrome_options
            create_driver_default_retries create_driver_default_delay [])
    with (connection w).
  destruct (connection w) as [[d|e] tc]; cbn [fst snd app].
  - right. exists z, d, tc. repeat split.
  - left. exists z, e, tc. repeat split.
    rewrite main_without_session_run. now destruct (except_Exception e).
Qed.

(** *** The retry schedule *)

(** What the retry loop leaves behind, for any list of attempt numbers: it
    fails [k] times, each failure followed by a warning that shows the
    attempt's number and by one sleep of the fixed delay; it then either
    makes one more attempt that ends the loop, or has run out of attempts
    and exits with 2. *)
Lemma create_driver_loop_structure (w : World) url options retries delay attempts :
  sleep_accepts (1000 * delay) = true ->
  forall h,
    let r := fst (create_driver_loop w url options retries delay attempts h) in
    let t := snd (create_driver_loop w url options retries delay attempts h) in
    exists k,
      (k <= length attempts)%nat /\
      collect sleep_of t = repeat (1000 * delay)%Z k /\
      collect warning_attempt t
      = map (fun a => (Z.of_nat a + 1, retries)%Z) (firstn k attempts) /\
      match r with
      | Raise (SystemExit code) =>
          code = 2%Z /\ k = length attempts /\ remote_count t = k
      | _ => (k < length attempts)%nat /\ remote_count t = S k
      end.
Proof.
  intros Hdelay.
  induction attempts as [|a rest IH]; intro h; cbv zeta.
  - rewrite create_driver_loop_nil. exists 0%nat. cbn. repeat split; lia.
  - rewrite create_driver_loop_step by exact Hdelay.
    destruct (respond w h _ (Remote url options)) as [d|cls msg].
    + exists 0%nat. cbn. repeat split; lia.
    + destruct (isinstance_WebDriverException cls).
      * cbv zeta. cbn [fst snd].
        destruct (IH (h ++ [Call (Remote url options) (Fails cls msg);
                            retry_warning retries a msg; Sleep (1000 * delay)]))
          as (k & Hk & Hsleep & Hwarn & Hres).
        cbv zeta in Hsleep, Hwarn, Hres.
        exists (S k). split; [cbn; lia|].
        split; [cbn [app collect sleep_of retry_warning repeat]; now rewrite Hsleep|].
        split.
        { cbn [app collect]. change (warning_attempt (Call (Remote url options) (Fails cls msg)))
            with (@None (Z * Z)).
          change (warning_attempt (retry_warning retries a msg))
            with (Some (Z.of_nat a + 1, retries)%Z).
          cbn [warning_attempt firstn map]. now rewrite Hwarn. }
        unfold remote_count in *. cbn [app collect remote_attempt retry_warning length].
        destruct (fst (create_driver_loop w url options retries delay rest _))
          as [d|[cls' msg'|code]].
        -- destruct Hres as [Hlt Hn]. split; [cbn; lia | now rewrite Hn].
        -- destruct Hres as [Hlt Hn]. split; [cbn; lia | now rewrite Hn].
        -- destruct Hres as (Hc & Hlen & Hn). split; [exact Hc|].
           split; [cbn; lia | now rewrite Hn].
      * exists 0%nat. cbn. repeat split; lia.
Qed.


(** Nothing after the connection phase attempts to create a session. *)
Lemma main_with_session_no_attempt (w : World) g d h :
  collect remote_attempt (snd (main_with_session w g d h)) = [].
Proof.
  assert (H : silent remote_attempt (main_with_session w g d))
    by (unfold main_with_session; silent_script).
  apply H.
Qed.




(** X2.  A run never makes more session-creation attempts than the retry limit
    of 10. *)
Theorem attempts_within_budget (w : World) :
  (remote_count (run_trace w) <= Z.to_nat create_driver_default_retries)%nat.
Proof.
  unfold run_trace.
  destruct (run_paths w) as [(cls & msg & _ & ->) | [(_ & _ & ->) |
    [(z & e & tc & _ & _ & Hconn & ->) | (z & d & tc & _ & _ & Hconn & ->)]]];
    try (cbn; lia).
  - pose proof (create_driver_loop_structure w (environ w "SELENIUM_REMOTE_URL") chrome_options
                  create_driver_default_retries create_driver_default_delay
                  (range create_driver_default_retries) eq_refl []) as (k & Hk & _ & _ & Hres).
    cbv zeta in Hres. unfold connection, create_driver_with_retry in Hconn.
    rewrite Hconn in Hres. cbn [fst snd] in Hres.
    unfold range in Hk, Hres. rewrite length_seq in Hk, Hres.
    assert (Htc : (remote_count tc <= Z.to_nat create_driver_default_retries)%nat).
    { destruct e as [cls msg|code]; cbv iota in Hres; [lia|]. destruct Hres as (_ & -> & Hn). lia. }
    destruct (except_Exception e); cbn [snd]; unfold remote_count in *;
      rewrite collect_app, length_app; cbn [collect remote_attempt length]; lia.
  - pose proof (create_driver_loop_structure w (environ w "SELENIUM_REMOTE_URL") chrome_options
                  create_driver_default_retries create_driver_default_delay
                  (range create_driver_default_retries) eq_refl []) as (k & Hk & _ & _ & Hres).
    cbv zeta in Hres. unfold connection, create_driver_with_retry in Hconn.
    rewrite Hconn in Hres. cbn [fst snd] in Hres.
    unfold range in Hk, Hres. rewrite length_seq in Hk, Hres.
    cbn [snd]. unfold remote_count in *.
    rewrite collect_app, length_app, main_with_session_no_attempt. cbn [length]. lia.
Qed.

(** *** Configuration and the first call *)

(** The connection phase opens with a session-creation attempt on the
    configured endpoint, with the script's Chrome options. *)
Lemma connection_first_attempt (w : World) :
  exists r rest,
    snd (connection w)
    = Call (Remote (environ w "SELENIUM_REMOTE_URL") chrome_options) r :: rest.
Proof.
  unfold connection, create_driver_with_retry.
  change (range create_driver_default_retries) with (0%nat :: seq 1 9).
  rewrite create_driver_loop_step by reflexivity.
  destruct (respond w [] _ (Remote (environ w "SELENIUM_REMOTE_URL") chrome_options))
    as [d|cls msg]; [cbn [snd]; eauto|].
  destruct (isinstance_WebDriverException cls); cbv zeta; cbn [snd app]; eauto.
Qed.

(** X3.  A run makes an external call exactly when the three required values
    are present and [DEBUG_PAUSE_SECONDS] reads as an integer; its first
    event is then the session-creation attempt on the configured endpoint
    with the three Chrome arguments and insecure certificates accepted.
    When [int] rejects [DEBUG_PAUSE_SECONDS] the run ends with status 1 and
    an empty trace: not even the validation message is logged. *)
Theorem network_iff_configured (w : World) :
  (collect external_call (run_trace w) <> [] <->
   required_present w = true /\ exists z, debug_pause_read w = Ret z) /\
  (required_present w = true -> (exists z, debug_pause_read w = Ret z) ->
   exists r rest,
     run_trace w =
     Call (Remote (environ w "SELENIUM_REMOTE_URL")
             {| arguments := ["--no-sandbox"; "--disable-dev-shm-usage";
                              "--ignore-certificate-errors"]%string;
                accept_insecure_certs := true |}) r :: rest) /\
  (forall s cls msg,
      environ w "DEBUG_PAUSE_SECONDS" = Some s ->
      int_builtin w s = Fails cls msg ->
      run_trace w = [] /\ run_status w = 1%Z).
Proof.
  assert (Hfirst : required_present w = true -> (exists z, debug_pause_read w = Ret z) ->
                   exists r rest,
                     run_trace w =
                     Call (Remote (environ w "SELENIUM_REMOTE_URL") chrome_options) r :: rest).
  { intros Hreq [z Hz]. unfold run_trace.
    destruct (connection_first_attempt w) as (r & rest & Hconn).
    destruct (run_paths w) as [(cls & msg & Hp & _) | [(_ & Hr & _) |
      [(z' & e & tc & _ & _ & Hc & ->) | (z' & d & tc & _ & _ & Hc & ->)]]];
      try congruence.
    - rewrite Hc in Hconn. cbn [snd] in Hconn. subst tc.
      destruct (except_Exception e); cbn [snd app]; eauto.
    - rewrite Hc in Hconn. cbn [snd] in Hconn. subst tc. cbn [snd app]. eauto. }
  split; [|split].
  - split.
    + unfold run_trace.
      destruct (run_paths w) as [(cls & msg & _ & ->) | [(_ & _ & ->) |
        [(z & e & tc & Hz & Hreq & _) | (z & d & tc & Hz & Hreq & _)]]].
      * intros H. now destruct H.
      * intros H. now destruct H.
      * intros _. split; [exact Hreq | now exists z].
      * intros _. split; [exact Hreq | now exists z].
    + intros [Hreq Hz]. destruct (Hfirst Hreq Hz) as (r & rest & ->). cbn. discriminate.
  - exact Hfirst.
  - intros s cls msg Hs Hint. unfold run_trace, run_status. rewrite run_cases.
    unfold debug_pause_read, read_debug_pause. rewrite Hs, Hint. split; reflexivity.
Qed.

Lemma network_iff_configured_witness :
  environ malformed_pause "DEBUG_PAUSE_SECONDS" = Some "soon"%string /\
  run_trace malformed_pause = [] /\ run_status malformed_pause = 1%Z.
Proof.
  split; [reflexivity|].
  exact (proj2 (proj2 (network_iff_configured malformed_pause))
           "soon"%string ValueError "invalid literal for int() with base 10"%string
           eq_refl eq_refl).
Defined.

(** X4.  An exception on session creation that is not a [WebDriverException]
    is not retried: the run makes that one attempt, logs the failure
    without capturing diagnostics (there is no session), and exits with
    1. *)
Theorem creation_error_not_retried (w : World) (cls : exn_class) (msg : string) :
  required_present w = true ->
  (exists z, debug_pause_read w = Ret z) ->
  respond w [] _ (Remote (environ w "SELENIUM_REMOTE_URL") chrome_options) = Fails cls msg ->
  isinstance_WebDriverException cls = false ->
  run w =
  (Raise (SystemExit 1),
   [Call (Remote (environ w "SELENIUM_REMOTE_URL") chrome_options) (Fails cls msg);
    Log ERROR ("Automation failed: " ++ msg) [];
    Log INFO "Automation finished." []]).
Proof.
  intros Hreq [z Hz] Hresp Hcls.
  assert (Hconn : connection w =
                  (Raise (Exc cls msg),
                   [Call (Remote (environ w "SELENIUM_REMOTE_URL") chrome_options)
                      (Fails cls msg)])).
  { unfold connection, create_driver_with_retry.
    change (range create_driver_default_retries) with (0%nat :: seq 1 9).
    now rewrite create_driver_loop_step, Hresp, Hcls. }
  destruct (run_paths w) as [(cls' & msg' & Hp & _) | [(_ & Hr & _) |
    [(z' & e & tc & _ & _ & Hc & ->) | (z' & d & tc & _ & _ & Hc & _)]]];
    try congruence.
  rewrite Hconn in Hc. injection Hc as <- <-. reflexivity.
Qed.

Lemma creation_error_not_retried_witness :
  required_present creation_crashes = true /\
  (exists z, debug_pause_read creation_crashes = Ret z) /\
  isinstance_WebDriverException OtherException = false /\
  remote_count (run_trace creation_crashes) = 1%nat /\
  run_status creation_crashes = 1%Z /\
  collect timestamp_taken (run_trace creation_crashes) = [] /\
  collect quit_call (run_trace creation_crashes) = [].
Proof.
  assert (Hreq : required_present creation_crashes = true) by reflexivity.
  assert (Hz : exists z, debug_pause_read creation_crashes = Ret z)
    by (exists 0%Z; reflexivity).
  assert (Hcls : isinstance_WebDriverException OtherException = false) by reflexivity.
  split; [exact Hreq|]. split; [exact Hz|]. split; [exact Hcls|].
  assert (H : run creation_crashes = _) by
    exact (creation_error_not_retried creation_crashes OtherException
             "HTTPConnectionPool(host='selenium', port=4444): Max retries exceeded"%string
             Hreq Hz eq_refl Hcls).
  unfold run_trace, run_status. rewrite H. repeat split.
Defined.

(** *** How a navigation failure is reported *)

Lemma connection_silent {X} (f : event -> option X) (w : World) :
  (forall r, f (Call (Remote (environ w "SELENIUM_REMOTE_URL") chrome_options) r) = None) ->
  (forall lvl msg args, lvl = WARNING \/ lvl = CRITICAL -> f (Log lvl msg args) = None) ->
  (forall ms, f (Sleep ms) = None) ->
  collect f (snd (connection w)) = [].
Proof.
  intros Hcall Hlog Hsleep. unfold connection, create_driver_with_retry.
  now apply create_driver_loop_silent_for.
Qed.

Lemma connection_silent_nav (w : World) : collect nav_event (snd (connection w)) = [].
Proof.
  apply connection_silent; try reflexivity.
  intros lvl msg args [-> | ->]; unfold nav_event;
    repeat match goal with |- context [if ?b then _ else _] => destruct b end;
    reflexivity.
Qed.

Lemma connection_silent_handler (w : World) :
  collect handler_entered (snd (connection w)) = [].
Proof.
  apply connection_silent; try reflexivity.
  intros lvl msg args [-> | ->]; reflexivity.
Qed.

(** The connection phase exits only with code 2. *)
Lemma connection_exit_code (w : World) code tc :
  connection w = (Raise (SystemExit code), tc) -> code = 2%Z.
Proof.
  intros Hc.
  pose proof (create_driver_loop_exhaustion w (environ w "SELENIUM_REMOTE_URL") chrome_options
                create_driver_default_retries create_driver_default_delay
                (range create_driver_default_retries) []) as Hx.
  unfold connection, create_driver_with_retry in Hc. rewrite Hc in Hx.
  cbn [fst] in Hx. now destruct Hx.
Qed.

(** The navigation loop raises the step-failure error for the step whose
    failure it recorded, and returns only after every step was clicked. *)
Lemma navigate_result (w : World) d items :
  post nav_event
    (fun r obs =>
       (forall desc, In (NotClicked desc) obs ->
                     r = Raise (Exc RuntimeError ("Failed at step: " ++ desc))) /\
       (forall u, r = Ret u -> obs = all_clicked (map snd items)))
    (navigate w d items).
Proof.
  induction items as [|[i [[by_ value] desc]] items IH]; cbn [navigate map snd].
  - intro h. cbn. split; [intros ? [] | reflexivity].
  - apply post_after_silent; [silent_script | | intros _].
    { intros e. split; [intros ? [] | discriminate]. }
    eapply post_bind; [apply wait_and_click_shape | | |].
    + intros clicked.
      instantiate (1 := fun clicked r obs =>
        if clicked
        then (forall desc', In (NotClicked desc') obs ->
                            r = Raise (Exc RuntimeError ("Failed at step: " ++ desc'))) /\
             (forall u, r = Ret u -> obs = all_clicked (map snd items))
        else obs = [] /\ r = Raise (Exc RuntimeError ("Failed at step: " ++ desc))).
      destruct clicked; cbn [negb].
      * apply post_after_silent; [silent_script | | intros _].
        { intros e. split; [intros ? [] | discriminate]. }
        apply post_after_silent; [apply silent_when, overlay_silent_nav | | intros _; exact IH].
        intros e. split; [intros ? [] | discriminate].
      * intro h. split; reflexivity.
    + cbn beta. intros e obs ->. split; [|discriminate].
      intros desc' [H | []]. discriminate.
    + cbn beta. intros [|] l1 r l2 -> H2.
      * destruct H2 as [Hfail Hret]. split.
        -- intros desc' [H | [H | H]]; [discriminate | discriminate | now apply Hfail].
        -- intros u Hu. cbn [all_clicked flat_map app step_locator step_desc].
           now rewrite (Hret u Hu).
      * destruct H2 as [-> ->]. split; [|discriminate].
        intros desc' [H | [H | []]]; [discriminate|]. now injection H as <-.
Qed.

Lemma main_body_result (w : World) g d :
  post nav_event
    (fun r obs =>
       (forall desc, In (NotClicked desc) obs ->
                     r = Raise (Exc RuntimeError ("Failed at step: " ++ desc))) /\
       (forall u, r = Ret u -> obs = all_clicked steps))
    (main_body w g d).
Proof.
  unfold main_body.
  do 3 (apply post_after_silent;
        [silent_script | intros e; split; [intros ? [] | discriminate] | intros _]).
  eapply post_bind; [apply (navigate_result w d (enumerate steps)) | | |].
  - instantiate (1 := fun _ r obs => obs = []). intros u h. reflexivity.
  - cbn beta. intros e obs H. exact H.
  - cbn beta. intros u l1 r l2 [Hfail Hret] ->. rewrite app_nil_r. split.
    + intros desc Hin. specialize (Hfail desc Hin). discriminate.
    + intros _ _. exact (Hret u eq_refl).
Qed.

(** The handler's opening record carries the text of what it caught, and
    nothing else in the handler looks like it. *)
Lemma main_except_record (w : World) g driver e h :
  collect handler_entered (snd (main_except w g driver e h)) = [str e].
Proof.
  unfold main_except. rewrite bind_run, log_run. cbn [fst snd app collect].
  change (handler_entered (Log ERROR ("Automation failed: " ++ str e) []))
    with (Some (str e)).
  cbv iota. f_equal.
  assert (Hs : silent handler_entered
                 (match driver with
                  | Some d =>
                      save_debug_artifacts w g d ;;;
                      when (DEBUG_PAUSE_SECONDS g >? 0)%Z
                        (log INFO ("Pausing " ++ fmt_d (DEBUG_PAUSE_SECONDS g)
                                   ++ " seconds for manual inspection...") [] ;;;
                         sleep_ms (1000 * DEBUG_PAUSE_SECONDS g))
                  | None => ret tt
                  end ;;; @exit unit 1)).
  { destruct driver; silent_script. }
  apply Hs.
Qed.

(** With a session: what the navigation records and the handler records of
    the whole of [main] are, in terms of the body. *)
Lemma main_with_session_records (w : World) g d h :
  collect nav_event (snd (main_with_session w g d h))
  = collect nav_event (snd (main_body w g d h)) /\
  collect handler_entered (snd (main_with_session w g d h))
  = match fst (main_body w g d h) with
    | Ret _ => []
    | Raise e => [str e]
    end.
Proof.
  rewrite main_with_session_run. cbn [snd]. rewrite !collect_app.
  assert (Hbh : silent handler_entered (main_body w g d)) by silent_script.
  assert (Hhn : forall e, silent nav_event (main_except w g (Some d) e))
    by (intro e; silent_script).
  rewrite Hbh. cbn [app].
  destruct (fst (main_body w g d h)) as [u|e].
  - cbn [app]. destruct (respond w _ unit (Quit d)); cbn; rewrite ?app_nil_r; split; reflexivity.
  - rewrite Hhn, main_except_record.
    destruct (respond w _ unit (Quit d)); cbn; rewrite ?app_nil_r; split; reflexivity.
Qed.

(** X5.  When a guarded click of the navigation returns [False], the run ends
    in the handler with status 1 and the handler's record is exactly
    "Failed at step: " followed by that step's description, which is the
    description of one of the five steps. *)
Theorem step_failure_reported (w : World) (desc : string) :
  In (NotClicked desc) (collect nav_event (run_trace w)) ->
  In desc (map step_desc steps) /\
  collect handler_entered (run_trace w) = ["Failed at step: " ++ desc]%string /\
  run_status w = 1%Z.
Proof.
  intros Hin. split; [exact (nav_shape_descs _ _ _ (run_nav_shape w) Hin)|].
  unfold run_trace, run_status in *.
  destruct (run_paths w) as [(cls & msg & _ & Hrun) | [(_ & _ & Hrun) |
    [(z & e & tc & _ & _ & Hc & Hrun) | (z & d & tc & _ & _ & Hc & Hrun)]]];
    rewrite Hrun in *; clear Hrun.
  - destruct Hin.
  - destruct Hin.
  - exfalso. pose proof (connection_silent_nav w) as Hs. rewrite Hc in Hs. cbn [snd] in Hs.
    destruct (except_Exception e); cbn [snd] in Hin; rewrite collect_app, Hs in Hin;
      destruct Hin.
  - cbn [fst snd] in *.
    pose proof (connection_silent_nav w) as Hsn.
    pose proof (connection_silent_handler w) as Hsh.
    rewrite Hc in Hsn, Hsh. cbn [snd] in Hsn, Hsh.
    destruct (main_with_session_records w (module_globals w z) d tc) as [Hnav Hhandler].
    rewrite collect_app, Hsn, Hnav in Hin. cbn [app] in Hin.
    destruct (main_body_result w (module_globals w z) d tc) as [Hfail _].
    specialize (Hfail desc Hin).
    rewrite collect_app, Hsh, Hhandler, Hfail. cbn [app str]. split; [reflexivity|].
    now apply (failed_body_status w _ d tc _ Hfail).
Qed.

Lemma step_failure_reported_witness :
  In (NotClicked "Reboot button") (collect nav_event (run_trace reboot_button_missing)) /\
  collect handler_entered (run_trace reboot_button_missing)
  = ["Failed at step: Reboot button"%string] /\
  run_status reboot_button_missing = 1%Z.
Proof.
  assert (H : In (NotClicked "Reboot button")
                (collect nav_event (run_trace reboot_button_missing))).
  { vm_compute. do 5 right. left. reflexivity. }
  split; [exact H|].
  exact (proj2 (step_failure_reported reboot_button_missing "Reboot button" H)).
Defined.

(** X6.  A run that ends with status 0 attempted and clicked all five steps, in
    their order, and never entered the handler. *)
Theorem exit_zero_means_all_clicked (w : World) :
  run_status w = 0%Z ->
  collect nav_event (run_trace w) = all_clicked steps /\
  collect handler_entered (run_trace w) = [].
Proof.
  unfold run_trace, run_status.
  destruct (run_paths w) as [(cls & msg & _ & Hrun) | [(_ & _ & Hrun) |
    [(z & e & tc & _ & _ & Hc & Hrun) | (z & d & tc & _ & _ & Hc & Hrun)]]];
    rewrite Hrun; clear Hrun.
  - discriminate.
  - discriminate.
  - destruct e as [cls msg|code]; cbn [except_Exception fst exit_status]; [discriminate|].
    rewrite (connection_exit_code w code tc Hc). discriminate.
  - cbn [fst snd]. intros Hstatus.
    pose proof (connection_silent_nav w) as Hsn.
    pose proof (connection_silent_handler w) as Hsh.
    rewrite Hc in Hsn, Hsh. cbn [snd] in Hsn, Hsh.
    destruct (main_with_session_records w (module_globals w z) d tc) as [Hnav Hhandler].
    rewrite !collect_app, Hsn, Hsh, Hnav, Hhandler. cbn [app].
    destruct (main_body_result w (module_globals w z) d tc) as [_ Hret].
    destruct (fst (main_body w (module_globals w z) d tc)) as [u|e] eqn:Hbody.
    + split; [exact (Hret u eq_refl) | reflexivity].
    + rewrite (failed_body_status w _ d tc e Hbody) in Hstatus. discriminate.
Qed.

Lemma exit_zero_means_all_clicked_witness :
  run_status happy = 0%Z /\
  collect nav_event (run_trace happy) = all_clicked steps.
Proof.
  assert (H : run_status happy = 0%Z) by reflexivity.
  split; [exact H|]. exact (proj1 (exit_zero_means_all_clicked happy H)).
Defined.

(** *** Where diagnostics capture happens *)

Section CaptureOnly.

Variable w : World.
Context {X : Type} (f : event -> option X).
Hypothesis f_capture_only : capture_only f.

Lemma capture_only_call {T} (c : callE T) :
  (forall r, artifact_call (Call c r) = None) -> silent f (call w c).
Proof.
  intros Hc. apply silent_call. intros r. now apply (proj1 f_capture_only).
Qed.

Lemma capture_only_log lvl msg args : silent f (log lvl msg args).
Proof. apply silent_log. apply (proj1 (proj2 f_capture_only)). Qed.

Lemma capture_only_sleep ms : silent f (sleep_ms ms).
Proof. apply silent_sleep. apply (proj2 (proj2 f_capture_only)). Qed.

Lemma capture_only_overlay d timeout :
  silent f (wait_for_overlay_to_disappear w d timeout).
Proof.
  unfold wait_for_overlay_to_disappear.
  apply silent_try_except; [now apply capture_only_call | intros e; apply capture_only_log].
Qed.

Lemma capture_only_wait_and_click d by_ value desc timeout :
  silent f (wait_and_click w d by_ value desc timeout).
Proof.
  unfold wait_and_click.
  apply silent_bind; [apply capture_only_log | intros _].
  apply silent_try_except.
  - apply silent_bind; [now apply capture_only_call | intros element].
    apply silent_bind; [now apply capture_only_call | intros _].
    apply silent_bind; [apply capture_only_sleep | intros _].
    apply silent_bind; [now apply capture_only_call | intros _].
    apply silent_bind; [apply capture_only_log | intros _]. apply silent_ret.
  - intros e. apply silent_bind; [apply capture_only_log | intros _]. apply silent_ret.
Qed.

Lemma capture_only_main_body g d : silent f (main_body w g d).
Proof.
  unfold main_body.
  apply silent_bind; [apply capture_only_log | intros _].
  apply silent_bind; [now apply capture_only_call | intros _].
  apply silent_bind.
  - unfold login.
    do 6 (apply silent_bind; [now apply capture_only_call | intros ?]).
    apply silent_bind; [apply capture_only_log | intros _]. apply capture_only_overlay.
  - intros _. apply silent_bind; [|intros _; apply capture_only_log].
    apply navigate_silent.
    + intros by_ value desc. apply capture_only_wait_and_click.
    + apply capture_only_overlay.
    + apply (proj2 (proj2 f_capture_only)).
Qed.

Lemma capture_only_connection : collect f (snd (connection w)) = [].
Proof.
  apply connection_silent.
  - intros r. now apply (proj1 f_capture_only).
  - intros lvl msg args _. apply (proj1 (proj2 f_capture_only)).
  - apply (proj2 (proj2 f_capture_only)).
Qed.

(** With a session, such an observation sees the capture of the handler if
    the body raised, and nothing otherwise. *)
Lemma capture_only_with_session g d h :
  collect f (snd (main_with_session w g d h)) =
  match fst (main_body w g d h) with
  | Ret _ => []
  | Raise e =>
      collect f (snd (save_debug_artifacts w g d
                        ((h ++ snd (main_body w g d h))
                         ++ [Log ERROR ("Automation failed: " ++ str e) []])))
  end.
Proof.
  destruct f_capture_only as (Hcall & Hlog & Hsleep).
  destruct (fst (main_body w g d h)) as [u|e] eqn:Hbody.
  - rewrite main_with_session_run. cbn [snd]. rewrite Hbody, !collect_app.
    rewrite capture_only_main_body. cbn [app collect].
    rewrite Hcall by reflexivity.
    destruct (respond w _ unit (Quit d)); cbn [collect]; now rewrite ?Hlog.
  - apply (failed_body_capture w f g d h e Hbody).
    + apply capture_only_main_body.
    + intros q. now apply Hcall.
    + intros msg. apply Hlog.
    + intros msg. apply Hlog.
    + apply Hsleep.
Qed.

End CaptureOnly.

(** Either the run has no session or never enters the handler, and then
    it makes no capture; or it enters the handler with a session, and then
    what there is of capture in the run is one call of
    [save_debug_artifacts]. *)
Lemma run_capture (w : World) :
  ((collect session_created (run_trace w) = [] \/
    collect handler_entered (run_trace w) = []) /\
   forall X (f : event -> option X), capture_only f -> collect f (run_trace w) = []) \/
  (collect session_created (run_trace w) <> [] /\
   collect handler_entered (run_trace w) <> [] /\
   exists g d h,
     ERROR_ARTIFACTS_DIR g = artifacts_dir w /\
     forall X (f : event -> option X),
       capture_only f ->
       collect f (run_trace w) = collect f (snd (save_debug_artifacts w g d h))).
Proof.
  unfold run_trace.
  destruct (run_paths w) as [(cls & msg & _ & Hrun) | [(_ & _ & Hrun) |
    [(z & e & tc & _ & _ & Hc & Hrun) | (z & d & tc & _ & _ & Hc & Hrun)]]];
    rewrite Hrun; clear Hrun.
  - left. split; [now left | reflexivity].
  - left. split; [now left|]. intros X f (_ & Hlog & _). cbn. now rewrite Hlog.
  - left.
    pose proof (create_driver_loop_sessions w (environ w "SELENIUM_REMOTE_URL") chrome_options
                  create_driver_default_retries create_driver_default_delay
                  (range create_driver_default_retries) []) as Hsess.
    unfold connection, create_driver_with_retry in Hc. rewrite Hc in Hsess.
    cbn [fst snd] in Hsess.
    split.
    + left. destruct (except_Exception e); cbn [snd]; rewrite collect_app, Hsess; reflexivity.
    + intros X f Hf. pose proof (capture_only_connection w f Hf) as Hs.
      unfold connection, create_driver_with_retry in Hs. rewrite Hc in Hs. cbn [snd] in Hs.
      destruct Hf as (_ & Hlog & _).
      destruct (except_Exception e); cbn [snd]; rewrite collect_app, Hs; cbn;
        now rewrite ?Hlog.
  - cbn [snd].
    pose proof (create_driver_loop_sessions w (environ w "SELENIUM_REMOTE_URL") chrome_options
                  create_driver_default_retries create_driver_default_delay
                  (range create_driver_default_retries) []) as Hsess.
    pose proof (connection_silent_handler w) as Hsh.
    assert (Hcap : forall X (f : event -> option X), capture_only f -> collect f tc = []).
    { intros X f Hf. pose proof (capture_only_connection w f Hf) as Hs.
      now rewrite Hc in Hs. }
    rewrite Hc in Hsh. cbn [snd] in Hsh.
    unfold connection, create_driver_with_retry in Hc. rewrite Hc in Hsess.
    cbn [fst snd] in Hsess.
    destruct (main_with_session_records w (module_globals w z) d tc) as [_ Hhandler].
    destruct (fst (main_body w (module_globals w z) d tc)) as [u|e] eqn:Hbody.
    + left. split.
      * right. now rewrite collect_app, Hsh, Hhandler.
      * intros X f Hf.
        rewrite collect_app, (Hcap X f Hf), (capture_only_with_session w f Hf), Hbody.
        reflexivity.
    + right. split; [rewrite collect_app, Hsess; discriminate|].
      split; [rewrite collect_app, Hsh, Hhandler; discriminate|].
      eexists (module_globals w z), d, _. split; [reflexivity|].
      intros X f Hf.
      rewrite collect_app, (Hcap X f Hf), (capture_only_with_session w f Hf), Hbody.
      reflexivity.
Qed.

Lemma capture_only_artifact_call : capture_only artifact_call.
Proof. repeat split. intros T c r H. exact H. Qed.

Lemma capture_only_timestamp : capture_only timestamp_taken.
Proof. repeat split. Qed.

Lemma capture_only_file_created : capture_only file_created.
Proof. repeat split. intros T c r H. destruct c; try reflexivity; discriminate H. Qed.

Lemma capture_only_file_opened : capture_only file_opened.
Proof. repeat split. intros T c r H. destruct c; try reflexivity; discriminate H. Qed.

Lemma capture_only_file_closed : capture_only file_closed.
Proof. repeat split. intros T c r H. destruct c; try reflexivity; discriminate H. Qed.

Lemma capture_only_content_handed : capture_only content_handed.
Proof. repeat split. intros T c r H. destruct c; try reflexivity; discriminate H. Qed.

Lemma capture_only_page_source_requested : capture_only page_source_requested.
Proof. repeat split. intros T c r H. destruct c; try reflexivity; discriminate H. Qed.

Lemma capture_only_page_source_got : capture_only page_source_got.
Proof. repeat split. intros T c r H. destruct c; try reflexivity; discriminate H. Qed.

(** X7.  The handler is entered at most once per run; and a run that has no
    session, or that never enters the handler, captures nothing: it takes
    no timestamp, makes no call on the artifacts directory, the screenshot,
    the page source or the markup file, and so creates no file. *)
Theorem capture_only_after_handled_failure (w : World) :
  (length (collect handler_entered (run_trace w)) <= 1)%nat /\
  (collect session_created (run_trace w) = [] \/
   collect handler_entered (run_trace w) = [] ->
   collect timestamp_taken (run_trace w) = [] /\
   collect artifact_call (run_trace w) = [] /\
   collect file_created (run_trace w) = []).
Proof.
  split.
  - unfold run_trace.
    destruct (run_paths w) as [(cls & msg & _ & Hrun) | [(_ & _ & Hrun) |
      [(z & e & tc & _ & _ & Hc & Hrun) | (z & d & tc & _ & _ & Hc & Hrun)]]];
      rewrite Hrun; clear Hrun; try (cbn; lia).
    + pose proof (connection_silent_handler w) as Hsh. rewrite Hc in Hsh. cbn [snd] in Hsh.
      destruct (except_Exception e); cbn [snd]; rewrite collect_app, Hsh; cbn; lia.
    + pose proof (connection_silent_handler w) as Hsh. rewrite Hc in Hsh. cbn [snd] in Hsh.
      destruct (main_with_session_records w (module_globals w z) d tc) as [_ Hhandler].
      cbn [snd]. rewrite collect_app, Hsh, Hhandler.
      destruct (fst (main_body w (module_globals w z) d tc)); cbn; lia.
  - intros Hnone.
    destruct (run_capture w) as [[_ Hcap] | (Hs & Hh & _)].
    + split; [apply Hcap, capture_only_timestamp|].
      split; [apply Hcap, capture_only_artifact_call | apply Hcap, capture_only_file_created].
    + destruct Hnone as [Hnone | Hnone]; contradiction.
Qed.

Lemma capture_only_after_handled_failure_witness :
  collect handler_entered (run_trace happy) = [] /\
  collect artifact_call (run_trace happy) = [].
Proof.
  assert (H : collect handler_entered (run_trace happy) = []) by reflexivity.
  split; [exact H|].
  exact (proj1 (proj2 (proj2 (capture_only_after_handled_failure happy) (or_intror H)))).
Defined.

(** *** The markup file *)

(** One capture: the file it opens it closes, once, whatever happens in
    between; it asks for the page source only with the file open; and what
    it hands to the file is the page source it got, on the file it
    opened. *)
Lemma save_debug_artifacts_file (w : World) g d h :
  let t := snd (save_debug_artifacts w g d h) in
  collect file_closed t = collect file_opened t /\
  (length (collect file_opened t) <= 1)%nat /\
  (collect page_source_requested t <> [] -> collect file_opened t <> []) /\
  (forall f content,
      In (f, content) (collect content_handed t) ->
      In f (collect file_opened t) /\ In content (collect page_source_got t)).
Proof.
  cbv zeta.
  unfold save_debug_artifacts, strftime_now, with_open, bind, try_except, try_finally,
    call, log.
  set (ts := now_strftime w h "%Y%m%d-%H%M%S").
  set (png := path_join (ERROR_ARTIFACTS_DIR g) ("error_" ++ ts ++ ".png")).
  set (html := path_join (ERROR_ARTIFACTS_DIR g) ("error_src_" ++ ts ++ ".html")).
  repeat match goal with
         | |- context [respond w ?h' ?T ?c] =>
             let r := fresh "r" in
             destruct (respond w h' T c) as [r|? ?]; try destruct r
         end;
    cbn -[path_join];
    (split; [reflexivity|]);
    (split; [lia|]);
    (split; [intros H; first [discriminate | now contradiction H] |]);
    intros f content Hin;
    repeat match goal with
           | H : _ \/ _ |- _ => destruct H
           | H : False |- _ => destruct H
           | H : (_, _) = (_, _) |- _ => injection H as <- <-
           end;
    split; left; reflexivity.
Qed.

(** X8.  In every run, the markup file is closed exactly as often as it was
    opened (at most once), also when reading the page source or writing
    fails; the page source is requested only once the file is open; and
    whatever is handed to the file is the page source the session
    returned, on the file that was opened. *)
Theorem markup_file_discipline (w : World) :
  let t := run_trace w in
  collect file_closed t = collect file_opened t /\
  (length (collect file_opened t) <= 1)%nat /\
  (collect page_source_requested t <> [] -> collect file_opened t <> []) /\
  (forall f content,
      In (f, content) (collect content_handed t) ->
      In f (collect file_opened t) /\ In content (collect page_source_got t)).
Proof.
  cbv zeta.
  destruct (run_capture w) as [[_ Hcap] | (_ & _ & g & d & h & _ & Hcap)].
  - rewrite (Hcap _ _ capture_only_file_closed), (Hcap _ _ capture_only_file_opened),
      (Hcap _ _ capture_only_page_source_requested), (Hcap _ _ capture_only_content_handed).
    split; [reflexivity|]. split; [cbn; lia|]. split; [intros H; now contradiction H|].
    intros f content [].
  - rewrite (Hcap _ _ capture_only_file_closed), (Hcap _ _ capture_only_file_opened),
      (Hcap _ _ capture_only_page_source_requested), (Hcap _ _ capture_only_content_handed),
      (Hcap _ _ capture_only_page_source_got).
    apply save_debug_artifacts_file.
Qed.

(** *** Teardown *)

Lemma connection_silent_quit (w : World) : collect quit_call (snd (connection w)) = [].
Proof. apply connection_silent; reflexivity. Qed.

(** X9.  In a run with a session, [quit] is the last call: after it comes only
    the closing record, and not even that when [quit] raises, in which case
    the run ends with status 1 whatever came before. *)
Theorem quit_ends_the_run (w : World) :
  collect quit_call (run_trace w) = [] \/
  exists before d q,
    run_trace w =
    before ++ Call (Quit d) q ::
      match q with
      | Ok _ => [Log INFO "Automation finished." []]
      | Fails _ _ => []
      end /\
    collect quit_call before = [] /\
    (forall cls msg, q = Fails cls msg -> run_status w = 1%Z).
Proof.
  unfold run_trace, run_status.
  destruct (run_paths w) as [(cls & msg & _ & Hrun) | [(_ & _ & Hrun) |
    [(z & e & tc & _ & _ & Hc & Hrun) | (z & d & tc & _ & _ & Hc & Hrun)]]];
    rewrite Hrun; clear Hrun.
  - now left.
  - now left.
  - left. pose proof (connection_silent_quit w) as Hs. rewrite Hc in Hs. cbn [snd] in Hs.
    destruct (except_Exception e); cbn [snd]; rewrite collect_app, Hs; reflexivity.
  - right. pose proof (connection_silent_quit w) as Hs. rewrite Hc in Hs. cbn [snd] in Hs.
    set (g := module_globals w z).
    rewrite main_with_session_run. cbn [fst snd].
    set (b := main_body w g d tc).
    set (handled := match fst b with
                    | Ret _ => []
                    | Raise e => snd (main_except w g (Some d) e (tc ++ snd b))
                    end).
    exists (tc ++ snd b ++ handled), d, (respond w (tc ++ snd b ++ handled) unit (Quit d)).
    split; [now rewrite <- !app_assoc|]. split.
    + rewrite !collect_app, Hs. cbn [app].
      assert (Hb : silent quit_call (main_body w g d)) by silent_script.
      assert (Hh : forall e, silent quit_call (main_except w g (Some d) e))
        by (intro e; silent_script).
      unfold handled, b. rewrite Hb. cbn [app].
      destruct (fst (main_body w g d tc)); [reflexivity | apply Hh].
    + intros cls msg ->. reflexivity.
Qed.

(** At [quit_fails] every step is clicked and the success record is
    written, yet the status is 1 and the closing record is missing. *)
Example quit_fails_after_success :
  collect success_record (run_trace quit_fails) = [tt] /\
  collect nav_event (run_trace quit_fails) = all_clicked steps /\
  collect finished_record (run_trace quit_fails) = [] /\
  run_status quit_fails = 1%Z.
Proof. vm_compute. repeat split. Qed.

(** *** The guarded click, call by call *)

(** X10.  The guarded click returns [True] exactly when its click went through.
    It tries at most one click, and only on the element its wait returned,
    after the scroll to that element went through. *)
Theorem guarded_click_true_iff_clicked (w : World) (driver : WebDriver) (by_ : By)
    (value desc : string) (timeout : Z) (h : trace) :
  let r := fst (wait_and_click w driver by_ value desc timeout h) in
  let t := snd (wait_and_click w driver by_ value desc timeout h) in
  (r = Ret true <-> collect click_done t <> []) /\
  (length (collect click_tried t) <= 1)%nat /\
  (forall element,
      In element (collect click_tried t) ->
      collect element_found t = [element] /\ collect scrolled_to t = [element]).
Proof.
  cbv zeta. unfold wait_and_click. sleep_constants. unfold bind, try_except, call, log, ret.
  repeat match goal with
         | |- context [respond w ?h' ?T ?c] =>
             let v := fresh "v" in
             destruct (respond w h' T c) as [v|[] ?]; try destruct v
         end;
    cbn;
    (split; [split; intros H; first [discriminate | reflexivity | now contradiction H]|]);
    (split; [lia|]);
    intros element Hin;
    repeat match goal with
           | H : _ \/ _ |- _ => destruct H
           | H : False |- _ => destruct H
           end;
    subst; split; reflexivity.
Qed.

(** *** The pause for manual inspection *)

(** The handler with a session, event by event: its record, one capture,
    and, when a pause is configured, its announcement and the pause itself
    if [time.sleep] accepts it. *)
Lemma main_except_trace (w : World) g d e h :
  snd (main_except w g (Some d) e h) =
  Log ERROR ("Automation failed: " ++ str e) [] ::
  snd (save_debug_artifacts w g d (h ++ [Log ERROR ("Automation failed: " ++ str e) []])) ++
  (if (DEBUG_PAUSE_SECONDS g >? 0)%Z
   then Log INFO ("Pausing " ++ fmt_d (DEBUG_PAUSE_SECONDS g)
                  ++ " seconds for manual inspection...") []
        :: (if sleep_accepts (1000 * DEBUG_PAUSE_SECONDS g)
            then [Sleep (1000 * DEBUG_PAUSE_SECONDS g)]
            else [])
   else []).
Proof.
  unfold main_except. rewrite bind_run, log_run. cbn [fst snd app].
  f_equal. rewrite bind_run.
  set (h' := h ++ [Log ERROR ("Automation failed: " ++ str e) []]).
  set (capture := save_debug_artifacts w g d).
  assert (Hc : fst (capture h') = Ret tt) by apply save_debug_artifacts_returns.
  rewrite (bind_run capture). rewrite Hc. cbn [fst snd].
  destruct (DEBUG_PAUSE_SECONDS g >? 0)%Z; cbn [when].
  - rewrite bind_run, log_run. cbn [fst snd].
    destruct (sleep_accepts (1000 * DEBUG_PAUSE_SECONDS g)) eqn:Hs.
    + rewrite sleep_run by exact Hs. cbn [fst snd].
      unfold exit, raise. cbn [snd app]. now rewrite !app_nil_r.
    + rewrite sleep_refused by exact Hs. cbn [fst snd app]. now rewrite ?app_nil_r.
  - unfold ret, exit, raise. cbn [fst snd]. now rewrite !app_nil_r.
Qed.




(** *** What the script types *)

(** The login block: it finds the password field, clears it and sends the
    configured password to it, in that order, stopping at the first of
    these that fails. *)
Lemma login_typing (w : World) g d h :
  let obs := collect typing_event (snd (login w g d h)) in
  obs = [] \/
  exists element,
    obs = [FieldFound password_locator element] \/
    obs = [FieldFound password_locator element; FieldCleared element;
           TextSent element (ROUTER_PASSWORD g)].
Proof.
  cbv zeta. unfold login, wait_for_overlay_to_disappear, bind, try_except, call, log.
  repeat match goal with
         | |- context [respond w ?h' ?T ?c] =>
             let v := fresh "v" in
             destruct (respond w h' T c) as [v|[] ?]
         end;
    cbn; eauto.
Qed.

Lemma main_body_typing (w : World) g d :
  post typing_event
    (fun _ obs =>
       obs = [] \/
       exists element,
         obs = [FieldFound password_locator element] \/
         obs = [FieldFound password_locator element; FieldCleared element;
                TextSent element (ROUTER_PASSWORD g)])
    (main_body w g d).
Proof.
  unfold main_body.
  do 2 (apply post_after_silent; [silent_script | intros; now left | intros _]).
  apply post_bind with
    (Q1 := fun _ obs =>
             obs = [] \/
             exists element,
               obs = [FieldFound password_locator element] \/
               obs = [FieldFound password_locator element; FieldCleared element;
                      TextSent element (ROUTER_PASSWORD g)])
    (Q2 := fun _ _ obs => obs = []).
  - intro h. exact (login_typing w g d h).
  - intros u.
    assert (Hs : silent typing_event
                   (navigate w d (enumerate steps) ;;;
                    log INFO "Reboot command sent successfully!" [])) by silent_script.
    exact Hs.
  - cbn beta. intros e obs H. exact H.
  - cbn beta. intros u l1 r l2 H ->. now rewrite app_nil_r.
Qed.

(** X12.  In every run the script types at most once: the configured password,
    into the element that the visibility wait on the password field
    returned, after clearing that element. *)
Theorem only_the_password_is_typed (w : World) :
  let obs := collect typing_event (run_trace w) in
  obs = [] \/
  exists element,
    obs = [FieldFound (ID, "loginDialogPassword"%string) element] \/
    obs = [FieldFound (ID, "loginDialogPassword"%string) element; FieldCleared element;
           TextSent element (environ w "ROUTER_PASSWORD")].
Proof.
  cbv zeta. unfold run_trace.
  destruct (run_paths w) as [(cls & msg & _ & Hrun) | [(_ & _ & Hrun) |
    [(z & e & tc & _ & _ & Hc & Hrun) | (z & d & tc & _ & _ & Hc & Hrun)]]];
    rewrite Hrun; clear Hrun.
  - now left.
  - now left.
  - left. assert (Hs : collect typing_event (snd (connection w)) = [])
      by (apply connection_silent; reflexivity).
    rewrite Hc in Hs. cbn [snd] in Hs.
    destruct (except_Exception e); cbn [snd]; rewrite collect_app, Hs; reflexivity.
  - assert (Hs : collect typing_event (snd (connection w)) = [])
      by (apply connection_silent; reflexivity).
    rewrite Hc in Hs. cbn [snd] in Hs.
    set (g := module_globals w z).
    cbn [snd]. rewrite main_with_session_run. cbn [snd]. rewrite collect_app, Hs.
    cbn [app]. rewrite collect_app.
    assert (Hh : forall e, silent typing_event (main_except w g (Some d) e))
      by (intro e; silent_script).
    assert (Hrest : forall h' (q : outcome unit),
               collect typing_event
                 (match fst (main_body w g d tc) with
                  | Ret _ => []
                  | Raise e => snd (main_except w g (Some d) e h')
                  end ++
                  Call (Quit d) q ::
                  match q with
                  | Ok _ => [Log INFO "Automation finished." []]
                  | Fails _ _ => []
                  end) = []).
    { intros h' q. rewrite collect_app.
      destruct (fst (main_body w g d tc)); [|rewrite Hh]; now destruct q. }
    rewrite Hrest, app_nil_r.
    exact (main_body_typing w g d tc).
Qed.

(** *** The names of the artifacts *)

Lemma string_length_append (a b : string) :
  String.length (a ++ b) = (String.length a + String.length b)%nat.
Proof. induction a as [|c a IH]; cbn; [reflexivity | now rewrite IH]. Qed.

(** The markup path is five characters longer than the screenshot path. *)
Lemma artifact_path_lengths (dir ts : string) :
  String.length (source_path_of dir ts)
  = (String.length (screenshot_path_of dir ts) + 5)%nat.
Proof.
  unfold screenshot_path_of, source_path_of, path_join.
  cbn [append].
  destruct dir as [|c dir].
  - cbn [String.length]. rewrite !string_length_append. cbn. lia.
  - destruct (endswith_sep (String c dir));
      rewrite ?string_length_append; cbn [String.length];
      rewrite ?string_length_append; cbn [String.length]; lia.
Qed.

(** X13.  Whatever the artifacts directory and the timestamp, the screenshot and
    the markup go to different paths: the second write never replaces the
    first. *)
Theorem artifact_paths_differ (dir ts : string) :
  screenshot_path_of dir ts <> source_path_of dir ts.
Proof.
  intros H. pose proof (artifact_path_lengths dir ts) as Hlen.
  rewrite <- H in Hlen. lia.
Qed.

(** *** How long the script can sleep and wait *)

Lemma sum_Z_app (a b : list Z) : sum_Z (a ++ b) = (sum_Z a + sum_Z b)%Z.
Proof.
  induction a as [|x a IH]; [reflexivity|].
  cbn [app]. unfold sum_Z in *. cbn [fold_right]. lia.
Qed.

Lemma sum_Z_repeat (x : Z) (n : nat) : sum_Z (repeat x n) = (x * Z.of_nat n)%Z.
Proof.
  induction n as [|n IH]; [cbn; lia|].
  cbn [repeat]. unfold sum_Z in *. cbn [fold_right]. lia.
Qed.

Lemma budget_of_silent {A} (f : event -> option Z) (B : Z) (m : M A) :
  silent f m -> (0 <= B)%Z -> budget f B m.
Proof. intros Hs HB h. now rewrite Hs. Qed.

Lemma budget_bind {A B} (f : event -> option Z) (B1 B2 : Z) (m : M A) (k : A -> M B) :
  budget f B1 m -> (forall a, budget f B2 (k a)) -> (0 <= B2)%Z ->
  budget f (B1 + B2) (bind m k).
Proof.
  intros Hm Hk HB h. rewrite bind_run. specialize (Hm h).
  destruct (fst (m h)) as [a|e]; cbn [snd].
  - rewrite collect_app, sum_Z_app. specialize (Hk a (h ++ snd (m h))). lia.
  - lia.
Qed.

Lemma budget_weaken {A} (f : event -> option Z) (B B' : Z) (m : M A) :
  budget f B m -> (B <= B')%Z -> budget f B' m.
Proof. intros Hm HB h. specialize (Hm h). lia. Qed.

Section Budgets.

Variable w : World.

(** The navigation loop on steps that are not the first: per step, the
    pause before it and its guarded click. *)
Lemma navigate_tail_budget (f : event -> option Z) (s c : Z) d items :
  (0 <= s)%Z -> (0 <= c)%Z ->
  budget f s (sleep_ms 1000) ->
  (forall by_ value desc,
      budget f c (wait_and_click w d by_ value desc wait_and_click_default_timeout)) ->
  Forall (fun item => fst item <> 0%nat) items ->
  budget f ((s + c) * Z.of_nat (length items)) (navigate w d items).
Proof.
  intros Hs Hc Hsleep Hclick Hidx.
  induction Hidx as [|[i [[by_ value] desc]] items Hi Hidx IH]; cbn [navigate length].
  - intro h. cbn. lia.
  - cbn [fst] in Hi.
    assert (Hpos : (0 <? i)%nat = true) by (apply Nat.ltb_lt; lia).
    assert (Hnz : (i =? 0)%nat = false) by (apply Nat.eqb_neq; lia).
    rewrite Hpos, Hnz. cbn [when].
    eapply budget_weaken.
    + apply budget_bind with (B1 := s); [exact Hsleep | intros _ | ].
      * apply budget_bind with (B1 := c); [apply Hclick | intros clicked | ].
        -- apply budget_bind with (B1 := 0%Z).
           ++ apply budget_of_silent; [destruct clicked; cbn [negb]; silent_step | lia].
           ++ intros _. apply budget_bind with (B1 := 0%Z);
                [apply budget_of_silent; [apply silent_ret | lia] | intros _; exact IH | nia].
           ++ nia.
        -- nia.
      * nia.
    + nia.
Qed.

(** The whole loop: the first step has no pause before it and an overlay
    wait after it. *)
Lemma navigate_budget (f : event -> option Z) (s c o : Z) d first rest :
  (0 <= s)%Z -> (0 <= c)%Z -> (0 <= o)%Z ->
  budget f s (sleep_ms 1000) ->
  (forall by_ value desc,
      budget f c (wait_and_click w d by_ value desc wait_and_click_default_timeout)) ->
  budget f o (wait_for_overlay_to_disappear w d overlay_default_timeout) ->
  Forall (fun item => fst item <> 0%nat) rest ->
  budget f (c + o + (s + c) * Z.of_nat (length rest))
    (navigate w d ((0%nat, first) :: rest)).
Proof.
  intros Hs Hc Ho Hsleep Hclick Hoverlay Hidx.
  destruct first as [[by_ value] desc]. cbn [navigate Nat.ltb Nat.leb Nat.eqb when].
  pose proof (navigate_tail_budget f s c d rest Hs Hc Hsleep Hclick Hidx) as Htail.
  eapply budget_weaken.
  - apply budget_bind with (B1 := 0%Z);
      [apply budget_of_silent; [apply silent_ret | lia] | intros _ | ].
    + apply budget_bind with (B1 := c); [apply Hclick | intros clicked | ].
      * apply budget_bind with (B1 := 0%Z).
        -- apply budget_of_silent; [destruct clicked; cbn [negb]; silent_step | lia].
        -- intros _. apply budget_bind with (B1 := o);
             [exact Hoverlay | intros _; exact Htail | nia].
        -- nia.
      * nia.
    + nia.
  - nia.
Qed.

(** A guarded click sleeps half a second at most, and waits once, with
    its time-out. *)
Lemma wait_and_click_sleep d by_ value desc timeout :
  budget sleep_of 500 (wait_and_click w d by_ value desc timeout).
Proof.
  intro h. unfold wait_and_click. sleep_constants. unfold bind, try_except, call, log, ret.
  repeat match goal with
         | |- context [respond w ?h' ?T ?c] =>
             destruct (respond w h' T c) as [?|[] ?]
         end; cbn; lia.
Qed.

Lemma wait_and_click_wait d by_ value desc timeout :
  forall h,
    collect wait_budget (snd (wait_and_click w d by_ value desc timeout h))
    = [(1000 * timeout)%Z].
Proof.
  intro h. unfold wait_and_click. sleep_constants. unfold bind, try_except, call, log, ret.
  repeat match goal with
         | |- context [respond w ?h' ?T ?c] =>
             destruct (respond w h' T c) as [?|[] ?]
         end; reflexivity.
Qed.

Lemma overlay_wait d timeout :
  forall h,
    collect wait_budget (snd (wait_for_overlay_to_disappear w d timeout h))
    = [(1000 * timeout)%Z].
Proof.
  intro h. unfold wait_for_overlay_to_disappear, try_except, call, log.
  destruct (respond w h unit _) as [?|[] ?]; reflexivity.
Qed.

(** The login block waits for 38 seconds at most: twice 15 for the
    password field, 8 for the overlay. *)
Lemma login_wait_budget g d : budget wait_budget 38000 (login w g d).
Proof.
  intro h. unfold login, wait_for_overlay_to_disappear, bind, try_except, call, log.
  repeat match goal with
         | |- context [respond w ?h' ?T ?c] =>
             destruct (respond w h' T c) as [?|[] ?]
         end; cbn; lia.
Qed.

Lemma enumerate_steps_tail :
  Forall (fun item : nat * (By * string * string) => fst item <> 0%nat)
    (tl (enumerate steps)).
Proof. cbn. repeat constructor; cbn; discriminate. Qed.

(** The body sleeps 6.5 seconds at most: half a second in each of the five
    guarded clicks, one second before each step but the first. *)
Lemma main_body_sleep g d : budget sleep_of 6500 (main_body w g d).
Proof.
  unfold main_body.
  eapply budget_weaken.
  - apply budget_bind with (B1 := 0%Z);
      [apply budget_of_silent; [silent_script | lia] | intros _ | ].
    + apply budget_bind with (B1 := 0%Z);
        [apply budget_of_silent; [silent_script | lia] | intros _ | ].
      * apply budget_bind with (B1 := 0%Z);
          [apply budget_of_silent; [silent_script | lia] | intros _ | ].
        -- apply budget_bind with (B1 := 6500%Z) (B2 := 0%Z).
           ++ change (enumerate steps)
                with ((0%nat, (XPATH, "//div[@id='nav']//a[contains(text(), 'Advanced')]",
                               "Advanced navbar item")%string) :: tl (enumerate steps)).
              eapply budget_weaken.
              ** apply (navigate_budget sleep_of 1000 500 0); try lia.
                 --- intro h. cbn. lia.
                 --- intros. apply wait_and_click_sleep.
                 --- apply budget_of_silent; [silent_script | lia].
                 --- exact enumerate_steps_tail.
              ** cbn. lia.
           ++ intros _. apply budget_of_silent; [silent_script | lia].
           ++ lia.
        -- lia.
      * lia.
    + lia.
  - lia.
Qed.

(** The body waits 96 seconds at most: 38 in the login block, 10 in each
    guarded click, 8 for the overlay after the first step. *)
Lemma main_body_wait g d : budget wait_budget 96000 (main_body w g d).
Proof.
  unfold main_body.
  eapply budget_weaken.
  - apply budget_bind with (B1 := 0%Z);
      [apply budget_of_silent; [silent_script | lia] | intros _ | ].
    + apply budget_bind with (B1 := 0%Z);
        [apply budget_of_silent; [silent_script | lia] | intros _ | ].
      * apply budget_bind with (B1 := 38000%Z); [apply login_wait_budget | intros _ | ].
        -- apply budget_bind with (B1 := 58000%Z) (B2 := 0%Z).
           ++ change (enumerate steps)
                with ((0%nat, (XPATH, "//div[@id='nav']//a[contains(text(), 'Advanced')]",
                               "Advanced navbar item")%string) :: tl (enumerate steps)).
              eapply budget_weaken.
              ** apply (navigate_budget wait_budget 0 10000 8000); try lia.
                 --- intro h. cbn. lia.
                 --- intros by_ value desc h. rewrite wait_and_click_wait. cbn. lia.
                 --- intro h. rewrite overlay_wait. cbn. lia.
                 --- exact enumerate_steps_tail.
              ** cbn. lia.
           ++ intros _. apply budget_of_silent; [silent_script | lia].
           ++ lia.
        -- lia.
      * lia.
    + lia.
  - lia.
Qed.

End Budgets.

(** The connection phase sleeps 20 seconds at most: the fixed delay of 2
    seconds after each of at most 10 failed attempts. *)
Lemma connection_sleep (w : World) :
  (sum_Z (collect sleep_of (snd (connection w))) <= 20000)%Z.
Proof.
  unfold connection, create_driver_with_retry.
  destruct (create_driver_loop_structure w (environ w "SELENIUM_REMOTE_URL") chrome_options
              create_driver_default_retries create_driver_default_delay
              (range create_driver_default_retries) eq_refl []) as (k & Hk & Hsleep & _).
  cbv zeta in Hsleep. rewrite Hsleep, sum_Z_repeat.
  unfold range in Hk. rewrite length_seq in Hk.
  change (Z.to_nat create_driver_default_retries) with 10%nat in Hk.
  change (1000 * create_driver_default_delay)%Z with 2000%Z. lia.
Qed.

Ltac sum_done :=
  cbn [snd app collect sleep_of wait_budget]; unfold sum_Z in *; cbn [fold_right]; lia.

(** X14.  Whatever the world does, the sleeps of a run add up to 26.5 seconds
    at most, plus the configured pause when it is positive: 20 seconds of
    retry delays, 4 seconds between steps, 2.5 seconds inside the guarded
    clicks. *)
Theorem total_sleep_bounded (w : World) (z : Z) :
  debug_pause_read w = Ret z ->
  (sum_Z (collect sleep_of (run_trace w)) <= 26500 + 1000 * Z.max 0 z)%Z.
Proof.
  intros Hz. unfold run_trace.
  destruct (run_paths w) as [(cls & msg & Hp & Hrun) | [(_ & _ & Hrun) |
    [(z' & e & tc & Hz' & _ & Hc & Hrun) | (z' & d & tc & Hz' & _ & Hc & Hrun)]]];
    rewrite Hrun; clear Hrun.
  - congruence.
  - sum_done.
  - pose proof (connection_sleep w) as Hs. rewrite Hc in Hs. cbn [snd] in Hs.
    destruct (except_Exception e); cbn [snd]; rewrite collect_app, sum_Z_app; sum_done.
  - rewrite Hz in Hz'. injection Hz' as <-.
    pose proof (connection_sleep w) as Hs. rewrite Hc in Hs. cbn [snd] in Hs.
    set (g := module_globals w z).
    cbn [snd]. rewrite main_with_session_run. cbn [snd].
    rewrite !collect_app, !sum_Z_app.
    pose proof (main_body_sleep w g d tc) as Hb.
    assert (Hq : forall q : outcome unit,
               sum_Z (collect sleep_of
                        (Call (Quit d) q ::
                         match q with
                         | Ok _ => [Log INFO "Automation finished." []]
                         | Fails _ _ => []
                         end)) = 0%Z) by (intros [?|? ?]; reflexivity).
    rewrite Hq.
    assert (Hh : (sum_Z (collect sleep_of
                           match fst (main_body w g d tc) with
                           | Ret _ => []
                           | Raise e =>
                               snd (main_except w g (Some d) e
                                      (tc ++ snd (main_body w g d tc)))
                           end) <= 1000 * Z.max 0 z)%Z).
    { destruct (fst (main_body w g d tc)) as [u|e]; [sum_done|].
      rewrite main_except_trace. change (DEBUG_PAUSE_SECONDS g) with z.
      cbn [collect sleep_of]. rewrite collect_app, sum_Z_app.
      assert (Hcap : silent sleep_of (save_debug_artifacts w g d)) by silent_script.
      rewrite Hcap.
      destruct (z >? 0)%Z eqn:Hgt; [destruct (sleep_accepts (1000 * z))|]; sum_done. }
    eapply Z.le_trans;
      [apply Z.add_le_mono;
         [exact Hs | apply Z.add_le_mono;
                       [exact Hb | apply Z.add_le_mono; [exact Hh | apply Z.le_refl]]]
      | lia].
Qed.

Lemma total_sleep_bounded_witness :
  debug_pause_read paused_inspection = Ret 5%Z /\
  (sum_Z (collect sleep_of (run_trace paused_inspection)) <= 31500)%Z.
Proof.
  assert (Hz : debug_pause_read paused_inspection = Ret 5%Z) by reflexivity.
  split; [exact Hz|]. exact (total_sleep_bounded paused_inspection 5%Z Hz).
Defined.

(** X15.  Whatever the world does, the time-outs of all the bounded waits of a
    run add up to 96 seconds at most: 15 and 15 for the password field,
    8 for each of the two overlay waits, 10 for each of the five steps. *)
Theorem total_wait_bounded (w : World) :
  (sum_Z (collect wait_budget (run_trace w)) <= 96000)%Z.
Proof.
  unfold run_trace.
  destruct (run_paths w) as [(cls & msg & Hp & Hrun) | [(_ & _ & Hrun) |
    [(z & e & tc & _ & _ & Hc & Hrun) | (z & d & tc & _ & _ & Hc & Hrun)]]];
    rewrite Hrun; clear Hrun.
  - sum_done.
  - sum_done.
  - assert (Hs : collect wait_budget (snd (connection w)) = [])
      by (apply connection_silent; reflexivity).
    rewrite Hc in Hs. cbn [snd] in Hs.
    destruct (except_Exception e); cbn [snd]; rewrite collect_app, Hs; sum_done.
  - assert (Hs : collect wait_budget (snd (connection w)) = [])
      by (apply connection_silent; reflexivity).
    rewrite Hc in Hs. cbn [snd] in Hs.
    set (g := module_globals w z).
    cbn [snd]. rewrite main_with_session_run. cbn [snd].
    rewrite !collect_app, !sum_Z_app, Hs.
    pose proof (main_body_wait w g d tc) as Hb.
    assert (Hh : forall e, silent wait_budget (main_except w g (Some d) e))
      by (intro e; silent_script).
    assert (Hq : forall q : outcome unit,
               sum_Z (collect wait_budget
                        (Call (Quit d) q ::
                         match q with
                         | Ok _ => [Log INFO "Automation finished." []]
                         | Fails _ _ => []
                         end)) = 0%Z) by (intros [?|? ?]; reflexivity).
    rewrite Hq.
    destruct (fst (main_body w g d tc)); [|rewrite Hh]; sum_done.
Qed.

(** Both bounds are reached: with every session-creation attempt refused
    the run sleeps 20 seconds; with everything answering it waits with 96
    seconds of time-outs and sleeps 6.5 seconds. *)
Example bounds_are_reached :
  sum_Z (collect sleep_of (run_trace always_down)) = 20000%Z /\
  sum_Z (collect sleep_of (run_trace happy)) = 6500%Z /\
  sum_Z (collect wait_budget (run_trace happy)) = 96000%Z.
Proof. vm_compute. repeat split. Qed.

(** *** The screenshot record *)

(** X16.  Diagnostics capture writes the "Saved screenshot" record, naming the
    screenshot path, exactly when [save_screenshot] returns, without
    looking at what it returned: also when the screenshot was refused and
    no file exists. *)
Theorem screenshot_record_ignores_result (w : World) (g : Globals) (d : WebDriver)
    (h : trace) :
  let t := snd (save_debug_artifacts w g d h) in
  collect screenshot_logged t = collect screenshot_returned t /\
  (forall path, In path (collect screenshot_refused t) ->
                In path (collect screenshot_logged t) /\
                ~ In path (collect file_created t)).
Proof.
  cbv zeta.
  unfold save_debug_artifacts, strftime_now, with_open, bind, try_except, try_finally,
    call, log.
  assert (Hdiff : screenshot_path_of (ERROR_ARTIFACTS_DIR g)
                     (now_strftime w h "%Y%m%d-%H%M%S")
                   <> source_path_of (ERROR_ARTIFACTS_DIR g)
                        (now_strftime w h "%Y%m%d-%H%M%S")).
  { intros H.
    pose proof (artifact_path_lengths (ERROR_ARTIFACTS_DIR g)
                  (now_strftime w h "%Y%m%d-%H%M%S")) as Hlen.
    rewrite <- H in Hlen. lia. }
  unfold screenshot_path_of, source_path_of in Hdiff.
  set (ts := now_strftime w h "%Y%m%d-%H%M%S") in *.
  set (png := path_join (ERROR_ARTIFACTS_DIR g) ("error_" ++ ts ++ ".png")) in *.
  set (html := path_join (ERROR_ARTIFACTS_DIR g) ("error_src_" ++ ts ++ ".html")) in *.
  clearbody png html ts.
  repeat match goal with
         | |- context [respond w ?h' ?T ?c] =>
             let r := fresh "r" in
             destruct (respond w h' T c) as [r|? ?]; try destruct r
         end;
    cbn;
    (split; [reflexivity|]);
    intros path Hin;
    repeat match goal with
           | H : _ \/ _ |- _ => destruct H
           | H : False |- _ => destruct H
           end;
    subst; (split; [now left|]);
    intros Hf;
    repeat match goal with
           | H : _ \/ _ |- _ => destruct H
           | H : False |- _ => destruct H
           end;
    congruence.
Qed.

(** At [screenshot_not_saved] the record names a screenshot that does not
    exist; the markup is written all the same. *)
Example screenshot_logged_but_not_saved :
  collect screenshot_logged (run_trace screenshot_not_saved)
  = ["/app/errors/error_20240101-120000.png"%string] /\
  collect file_created (run_trace screenshot_not_saved)
  = ["/app/errors/error_src_20240101-120000.html"%string] /\
  run_status screenshot_not_saved = 1%Z.
Proof. vm_compute. repeat split. Qed.
